(** * Agent tool backends: a shallow embedding of the lambda utilities

    The development follows the Python sources of the agent tools:

    - [agent_tools/AWSArtifactAgent/lambda_functions/artifact_utils.py]
      (report listing, page counting, keyword search),
    - [agent_tools/DateTimeAgent/lambda_functions/date_time_utils.py] and
      [lambda_handler.py] (business days, fiscal years, policy deadline),
    - [agent_tools/WeatherForecastAgent/lambda_functions/weather.py]
      (coordinate validation, forecast periods).

    Python values are modelled as the code uses them: integers as [Z],
    strings as lists of code points below 256, exceptions as the [Raise]
    branch of a result type, [while] loops as fuelled iteration, and the
    standard library ([datetime], [re], [json]) by the algorithms of
    CPython. *)

From Stdlib Require Import ZArith List Bool Ascii Lia Permutation Sorted.
From Stdlib Require String.
Import String.StringSyntax.
From Stdlib Require Import QArith Qround DecimalString.
Import ListNotations.

Local Open Scope Z_scope.

(** ** Exceptions and results *)

Inductive exn : Type :=
| ValueError
| TypeError
| AttributeError
| OverflowError
| ZeroDivisionError
| PlainException.

Inductive result (A : Type) : Type :=
| Ok (a : A)
| Raise (e : exn).

Arguments Ok {A} a.
Arguments Raise {A} e.

Definition bind {A B : Type} (r : result A) (k : A -> result B) : result B :=
  match r with
  | Ok a => k a
  | Raise e => Raise e
  end.

Notation "x <- r ;; k" := (bind r (fun x => k))
  (at level 61, r at next level, right associativity).

Notation "r ;; k" := (bind r (fun _ => k))
  (at level 61, right associativity).

(** A Python [while] loop.  [None] means that the fuel ran out before the
    loop condition became false; every other outcome is the outcome of
    the loop. *)
Fixpoint while_loop {S : Type} (fuel : nat)
    (cond : S -> result bool) (body : S -> result S) (s : S)
    : option (result S) :=
  match fuel with
  | O => None
  | Datatypes.S fuel' =>
      match cond s with
      | Raise e => Some (Raise e)
      | Ok false => Some (Ok s)
      | Ok true =>
          match body s with
          | Raise e => Some (Raise e)
          | Ok s' => while_loop fuel' cond body s'
          end
      end
  end.

(** ** Strings *)

(** A Python [str] restricted to code points below 256: one [ascii] per
    code point. *)
Definition str : Type := list ascii.

Delimit Scope string_scope with string.

Definition lit (s : String.string) : str := String.list_ascii_of_string s.

Arguments lit s%_string.

Definition code (c : ascii) : Z := Z.of_nat (nat_of_ascii c).

Definition in_range (lo hi x : Z) : bool := (lo <=? x) && (x <=? hi).

Definition str_eq_dec : forall a b : str, {a = b} + {a <> b} :=
  list_eq_dec ascii_dec.

Definition str_eqb (a b : str) : bool :=
  if str_eq_dec a b then true else false.

(** [str.lower()] on code points below 256: the upper-case letters of
    ASCII and Latin-1 move up by 32. *)
Definition is_upper (c : ascii) : bool :=
  in_range 65 90 (code c) || in_range 192 214 (code c)
  || in_range 216 222 (code c).

Definition lower_char (c : ascii) : ascii :=
  if is_upper c then ascii_of_nat (nat_of_ascii c + 32) else c.

Definition lower (s : str) : str := map lower_char s.

(** [str.isspace()] on code points below 256. *)
Definition is_space (c : ascii) : bool :=
  in_range 9 13 (code c) || in_range 28 32 (code c)
  || (code c =? 133) || (code c =? 160).

(** The class [\w] of [re] on code points below 256: alphanumeric
    characters and the underscore. *)
Definition is_word_char (c : ascii) : bool :=
  let n := code c in
  in_range 48 57 n || in_range 65 90 n || (n =? 95) || in_range 97 122 n
  || (n =? 170) || in_range 178 179 n || (n =? 181) || in_range 185 186 n
  || in_range 188 190 n || in_range 192 214 n || in_range 216 246 n
  || in_range 248 255 n.

(** [str.split()] without arguments: the maximal runs of characters
    that are not white space.  [cur] is the run read so far. *)
Fixpoint split_from (cur : str) (s : str) : list str :=
  match s with
  | [] => match cur with [] => [] | _ => [cur] end
  | c :: s' =>
      if is_space c then
        match cur with
        | [] => split_from [] s'
        | _ => cur :: split_from [] s'
        end
      else split_from (cur ++ [c]) s'
  end.

Definition split (s : str) : list str := split_from [] s.

(** [sep.join(parts)]. *)
Fixpoint join (sep : str) (parts : list str) : str :=
  match parts with
  | [] => []
  | [p] => p
  | p :: rest => p ++ sep ++ join sep rest
  end.

(** [l[:n]] for an integer [n]: a negative [n] counts from the end. *)
Definition slice_to {A : Type} (n : Z) (l : list A) : list A :=
  if 0 <=? n then firstn (Z.to_nat n) l
  else firstn (Z.to_nat (Z.of_nat (List.length l) + n)) l.

(** ** The [json] module, on the values the report endpoints build *)

Module Json.

#[warnings="-register-all"] Inductive json : Type :=
| JStr (s : str)
| JInt (n : Z)
| JList (items : list json)
| JObj (fields : list (str * json)).

Definition hex_digit (n : nat) : ascii :=
  nth n (lit "0123456789abcdef") "0"%char.

Definition backslash : ascii := ascii_of_nat 92.

(** One character of a string under [ensure_ascii=True]. *)
Definition escape_char (c : ascii) : str :=
  let n := nat_of_ascii c in
  if Nat.eqb n 34 then [backslash; c]
  else if Nat.eqb n 92 then [backslash; c]
  else if Nat.eqb n 8 then lit "\b"
  else if Nat.eqb n 12 then lit "\f"
  else if Nat.eqb n 10 then lit "\n"
  else if Nat.eqb n 13 then lit "\r"
  else if Nat.eqb n 9 then lit "\t"
  else if Nat.leb 32 n && Nat.leb n 126 then [c]
  else lit "\u00" ++ [hex_digit (Nat.div n 16); hex_digit (Nat.modulo n 16)].

Definition quote : str := [ascii_of_nat 34].

Definition dumps_str (s : str) : str :=
  quote ++ flat_map escape_char s ++ quote.

Definition dumps_int (n : Z) : str :=
  lit (DecimalString.NilEmpty.string_of_int (Z.to_int n)).

(** [json.dumps] with the default separators. *)
Fixpoint dumps (v : json) : str :=
  match v with
  | JStr s => dumps_str s
  | JInt n => dumps_int n
  | JList items => lit "[" ++ join (lit ", ") (map dumps items) ++ lit "]"
  | JObj fields =>
      lit "{"
      ++ join (lit ", ")
           (map (fun kv => dumps_str (fst kv) ++ lit ": " ++ dumps (snd kv))
              fields)
      ++ lit "}"
  end.

End Json.

(** ** The [datetime] module *)

Module PyDatetime.

Definition MINYEAR : Z := 1.
Definition MAXYEAR : Z := 9999.
Definition MAXORDINAL : Z := 3652059.

Definition DAYS_IN_MONTH : list Z :=
  [-1; 31; 28; 31; 30; 31; 30; 31; 31; 30; 31; 30; 31].

Definition DAYS_BEFORE_MONTH : list Z :=
  [-1; 0; 31; 59; 90; 120; 151; 181; 212; 243; 273; 304; 334].

Definition table (t : list Z) (i : Z) : Z := nth (Z.to_nat i) t 0.

Definition is_leap (year : Z) : bool :=
  (year mod 4 =? 0) && (negb (year mod 100 =? 0) || (year mod 400 =? 0)).

Definition days_before_year (year : Z) : Z :=
  let y := year - 1 in
  y * 365 + y / 4 - y / 100 + y / 400.

Definition days_in_month (year month : Z) : Z :=
  if (month =? 2) && is_leap year then 29 else table DAYS_IN_MONTH month.

Definition days_before_month (year month : Z) : Z :=
  table DAYS_BEFORE_MONTH month
  + (if (2 <? month) && is_leap year then 1 else 0).

Definition ymd2ord (year month day : Z) : Z :=
  days_before_year year + days_before_month year month + day.

Definition DI400Y : Z := 146097.
Definition DI100Y : Z := 36524.
Definition DI4Y : Z := 1461.

Record date : Type := mkdate { year : Z; month : Z; day : Z }.

(** [_ord2ymd]: the inverse of [ymd2ord], by 400/100/4/1-year cycles
    and a month estimate corrected downwards. *)
Definition ord2ymd (n : Z) : date :=
  let n := n - 1 in
  let n400 := n / DI400Y in
  let n := n mod DI400Y in
  let n100 := n / DI100Y in
  let n := n mod DI100Y in
  let n4 := n / DI4Y in
  let n := n mod DI4Y in
  let n1 := n / 365 in
  let n := n mod 365 in
  let year := n400 * 400 + 1 + n100 * 100 + n4 * 4 + n1 in
  if (n1 =? 4) || (n100 =? 4) then mkdate (year - 1) 12 31
  else
    let leapyear := (n1 =? 3) && (negb (n4 =? 24) || (n100 =? 3)) in
    let month := Z.shiftr (n + 50) 5 in
    let preceding :=
      table DAYS_BEFORE_MONTH month
      + (if (2 <? month) && leapyear then 1 else 0) in
    if n <? preceding then
      let month := month - 1 in
      let preceding :=
        preceding
        - (table DAYS_IN_MONTH month
           + (if (month =? 2) && leapyear then 1 else 0)) in
      mkdate year month (n - preceding + 1)
    else mkdate year month (n - preceding + 1).

(** [_check_date_fields], as a boolean. *)
Definition check_date_fields (y m d : Z) : bool :=
  in_range MINYEAR MAXYEAR y && in_range 1 12 m
  && in_range 1 (days_in_month y m) d.

(** An argument that the constructor can read as a C [int]. *)
Definition fits_int (x : Z) : bool := in_range (- 2 ^ 31) (2 ^ 31 - 1) x.

(** The constructor [date(year, month, day)]: the three arguments are
    first converted to C [int]s, which raises [OverflowError] for one
    that does not fit, and then checked against the calendar. *)
Definition new_date (y m d : Z) : result date :=
  if fits_int y && fits_int m && fits_int d then
    if check_date_fields y m d then Ok (mkdate y m d)
    else Raise ValueError
  else Raise OverflowError.

Definition valid_date (d : date) : bool :=
  check_date_fields (year d) (month d) (day d).

Definition toordinal (d : date) : Z := ymd2ord (year d) (month d) (day d).

Definition fromordinal (n : Z) : date := ord2ymd n.

(** Monday is 0, Sunday is 6. *)
Definition weekday (d : date) : Z := (toordinal d + 6) mod 7.

(** Comparison of the field tuples, as [_cmp] does. *)
Fixpoint tuple_cmp (a b : list Z) : comparison :=
  match a, b with
  | [], [] => Eq
  | [], _ :: _ => Lt
  | _ :: _, [] => Gt
  | x :: a', y :: b' =>
      match x ?= y with
      | Eq => tuple_cmp a' b'
      | c => c
      end
  end.

Definition date_fields (d : date) : list Z := [year d; month d; day d].

Definition date_cmp (a b : date) : comparison :=
  tuple_cmp (date_fields a) (date_fields b).

Definition date_le (a b : date) : bool :=
  match date_cmp a b with Gt => false | _ => true end.

Definition date_lt (a b : date) : bool :=
  match date_cmp a b with Lt => true | _ => false end.

(** [date + timedelta(days=k)]. *)
Definition date_add_days (d : date) (k : Z) : result date :=
  let o := toordinal d + k in
  if (0 <? o) && (o <=? MAXORDINAL) then Ok (fromordinal o)
  else Raise OverflowError.

Record datetime : Type := mkdatetime {
  dt_date : date;
  hour : Z;
  minute : Z;
  second : Z;
  microsecond : Z
}.

(** What [strptime] with a date-only format produces: midnight. *)
Definition at_midnight (d : date) : datetime := mkdatetime d 0 0 0 0.

Definition datetime_fields (t : datetime) : list Z :=
  date_fields (dt_date t) ++ [hour t; minute t; second t; microsecond t].

Definition datetime_cmp (a b : datetime) : comparison :=
  tuple_cmp (datetime_fields a) (datetime_fields b).

Definition datetime_lt (a b : datetime) : bool :=
  match datetime_cmp a b with Lt => true | _ => false end.

Definition datetime_ge (a b : datetime) : bool :=
  match datetime_cmp a b with Lt => false | _ => true end.

(** [datetime + timedelta(days=k)]: the time of day is kept, the date
    moves by [k] days, and leaving the supported range raises. *)
Definition datetime_add_days (t : datetime) (k : Z) : result datetime :=
  let o := toordinal (dt_date t) + k in
  if (0 <? o) && (o <=? MAXORDINAL) then
    Ok (mkdatetime (fromordinal o) (hour t) (minute t) (second t)
          (microsecond t))
  else Raise OverflowError.

End PyDatetime.

(** ** date_time_utils.py: BusinessDateTimeUtils *)

Module BusinessDateTimeUtils.
Import PyDatetime.

Definition is_business_day (date_obj : date) : bool :=
  let weekday := weekday date_obj in
  (0 <=? weekday) && (weekday <=? 4).

(** The loop state is the pair [(business_days, current_date)]. *)
Definition calculate_business_days (fuel : nat)
    (start_date end_date : datetime) : option (result Z) :=
  match
    while_loop fuel
      (fun st : Z * datetime => Ok (datetime_lt (snd st) end_date))
      (fun st =>
         let business_days :=
           if is_business_day (dt_date (snd st)) then fst st + 1
           else fst st in
         current_date <- datetime_add_days (snd st) 1 ;;
         Ok (business_days, current_date))
      (0, start_date)
  with
  | None => None
  | Some (Raise e) => Some (Raise e)
  | Some (Ok st) => Some (Ok (fst st))
  end.

Definition get_fiscal_year (date_obj : date) (fiscal_year_start_month : Z)
    : Z :=
  let year := year date_obj in
  if month date_obj <? fiscal_year_start_month then year - 1 else year.

Definition get_fiscal_year_range (date_obj : date)
    (fiscal_year_start_month : Z) : result (date * date) :=
  let fiscal_year := get_fiscal_year date_obj fiscal_year_start_month in
  start_date <- new_date fiscal_year fiscal_year_start_month 1 ;;
  next_start <- new_date (fiscal_year + 1) fiscal_year_start_month 1 ;;
  end_date <- date_add_days next_start (-1) ;;
  Ok (start_date, end_date).

(** [is_holiday] is commented out in the class body, so looking the
    attribute up on an instance raises. *)
Definition is_holiday (date_obj : date) : result bool :=
  Raise AttributeError.

(** [a or b] evaluates [b] only when [a] is false. *)
Definition py_or (a : bool) (b : result bool) : result bool :=
  if a then Ok true else b.

(** The loop condition and the loop body of [get_next_business_day]. *)
Definition not_yet_business_day (next_day : date) : result bool :=
  py_or (4 <? weekday next_day) (is_holiday next_day).

Definition one_day_later (next_day : date) : result date :=
  date_add_days next_day 1.

Definition get_next_business_day (fuel : nat) (date_obj : date)
    : option (result date) :=
  match date_add_days date_obj 1 with
  | Raise e => Some (Raise e)
  | Ok next_day =>
      while_loop fuel not_yet_business_day one_day_later next_day
  end.

End BusinessDateTimeUtils.

(** ** artifact_utils.py: ArtifactUtils *)

Module ArtifactUtils.
Import Json.

(** The fields of a report that the code reads. *)
Record report : Type := mkreport {
  id : str;
  name : str;
  version : Z;
  description : str
}.

(** A page of the paginator: the list under its ['reports'] key. *)
Definition page : Type := list report.

(** An instance holds the service paginator.  [paginate page_size]
    stands for iterating [self.paginator.paginate(...)] with the given
    [PageSize] ([None] when the configuration gives none): the pages
    yielded, or the error of the service. *)
Record t : Type := mk { paginate : option Z -> result (list page) }.

(** What the service yields for a catalog: consecutive pages of
    [page_size] reports, the last one possibly shorter, and a single
    empty page for an empty catalog. *)
Fixpoint chunks (fuel page_size : nat) (l : list report) : list page :=
  match fuel with
  | O => []
  | S fuel' =>
      match l with
      | [] => []
      | _ :: _ =>
          firstn page_size l :: chunks fuel' page_size (skipn page_size l)
      end
  end.

Definition pages_of (page_size : nat) (catalog : list report)
    : list page :=
  match catalog with
  | [] => [[]]
  | _ :: _ => chunks (List.length catalog) page_size catalog
  end.

(** The contract of the paginator of a service that holds [catalog]. *)
Definition serves (self : t) (catalog : list report) : Prop :=
  (forall page_size, 1 <= page_size ->
     paginate self (Some page_size)
     = Ok (pages_of (Z.to_nat page_size) catalog))
  /\ (exists pages,
         paginate self None = Ok pages /\ concat pages = catalog).

(** A service over a fixed catalog with default page size [default]
    that refuses page sizes below 1. *)
Definition catalog_service (default : positive) (catalog : list report)
    : t :=
  mk (fun page_size =>
        match page_size with
        | None => Ok (pages_of (Pos.to_nat default) catalog)
        | Some n =>
            if 1 <=? n then Ok (pages_of (Z.to_nat n) catalog)
            else Raise PlainException
        end).

(** A stub paginator that yields the same pages whatever it is asked. *)
Definition stub_service (pages : list page) : t :=
  mk (fun _ => Ok pages).

Definition truncated_description (description : str) : str :=
  join []
    [firstn 100 description;
     if (100 <? Z.of_nat (List.length description)) then lit "..."
     else []].

(** The dictionary built for one report by [list_reports]. *)
Record listed_report : Type := mklisted {
  l_id : str;
  l_name : str;
  l_version : Z;
  l_description : str
}.

Definition listed (r : report) : listed_report :=
  mklisted (id r) (name r) (version r)
    (truncated_description (description r)).

Definition listed_json (e : listed_report) : json :=
  JObj [(lit "id", JStr (l_id e)); (lit "name", JStr (l_name e));
        (lit "version", JInt (l_version e));
        (lit "description", JStr (l_description e))].

(** The loop over the remaining pages, with its counter: the page at
    which [page_count = page_number] is reshaped and the loop left. *)
Fixpoint page_loop (pages : list page) (page_count page_number : Z)
    : list listed_report :=
  match pages with
  | [] => []
  | page :: rest =>
      if page_count =? page_number then map listed page
      else page_loop rest (page_count + 1) page_number
  end.

(** The list [reports] at the end of [list_reports].  The pages are
    taken as already fetched, and the line printed when the page is
    not found is left out. *)
Definition list_reports_collect (self : t) (page_size : option Z)
    (page_number : option Z) : result (list listed_report) :=
  let default_max_results := 10 in
  match page_size with
  | Some n => if default_max_results <? n then Raise ValueError else Ok tt
  | None => Ok tt
  end ;;
  pages <- paginate self page_size ;;
  match page_number with
  | None | Some 1 =>
      match pages with
      | page :: _ => Ok (map listed page)
      | [] => Ok []
      end
  | Some page_number => Ok (page_loop pages 1 page_number)
  end.

Definition list_reports (self : t) (page_size : option Z)
    (page_number : option Z) : result str :=
  reports <- list_reports_collect self page_size page_number ;;
  Ok (dumps (JList (map listed_json reports))).

(** [a / b] on integers and [math.ceil] of the quotient.  The quotient
    is kept exact; the binary64 quotient of Python has the same ceiling
    whenever [a < 2^49] and [1 <= b <= 15]. *)
Definition truediv (a b : Z) : result Q :=
  if b =? 0 then Raise ZeroDivisionError
  else if 0 <? b then Ok (Qmake a (Z.to_pos b))
  else Ok (Qmake (- a) (Z.to_pos (- b))).

Definition ceil (q : Q) : Z := Qceiling q.

Definition sum_lengths (pages : list page) : Z :=
  fold_right (fun page acc => Z.of_nat (List.length page) + acc) 0 pages.

Definition get_total_report_pages (self : t) (page_size : option Z)
    : result Z :=
  let default_max_results := 15 in
  match page_size with
  | Some n => if default_max_results <? n then Raise ValueError else Ok tt
  | None => Ok tt
  end ;;
  pages <- paginate self page_size ;;
  let total_reports := sum_lengths pages in
  match page_size with
  | None => Raise TypeError
  | Some n => q <- truediv total_reports n ;; Ok (ceil q)
  end.

(** *** The word pattern of [search_reports] *)

Definition is_word (c : option ascii) : bool :=
  match c with
  | Some c => is_word_char c
  | None => false
  end.

(** [\b] between two neighbouring characters ([None] at either end of
    the text). *)
Definition boundary (before after : option ascii) : bool :=
  xorb (is_word before) (is_word after).

Fixpoint is_prefix (w t : str) : bool :=
  match w, t with
  | [], _ => true
  | _ :: _, [] => false
  | a :: w', b :: t' => if ascii_dec a b then is_prefix w' t' else false
  end.

Definition last_char (before : option ascii) (w : str) : option ascii :=
  match w with
  | [] => before
  | _ :: _ => Some (last w Ascii.zero)
  end.

(** The alternative [\bw\b] of the pattern, tried where [t] is the rest
    of the text and [before] the character in front of it. *)
Definition alternative_matches (before : option ascii) (t : str) (w : str)
    : bool :=
  boundary before (hd_error t)
  && is_prefix w t
  && boundary (last_char before w) (hd_error (skipn (List.length w) t)).

(** The number of matches [re.findall] reports for the alternatives
    [words]: the text is read from the left, at each place the first
    alternative that matches is taken, and the search resumes behind
    the match ([skip] counts the characters still covered by it). *)
Fixpoint findall_words (words : list str) (before : option ascii)
    (t : str) (skip : nat) : nat :=
  match t with
  | [] => O
  | c :: t' =>
      match skip with
      | S skip' => findall_words words (Some c) t' skip'
      | O =>
          match find (alternative_matches before t) words with
          | Some w =>
              S (findall_words words (Some c) t' (List.length w - 1))
          | None => findall_words words (Some c) t' O
          end
      end
  end.

(** Without alternatives the pattern is [\b\b], which matches the
    empty string at every word boundary. *)
Fixpoint findall_boundaries (before : option ascii) (t : str) : nat :=
  ((if boundary before (hd_error t) then 1 else 0)
   + match t with
     | [] => 0
     | c :: t' => findall_boundaries (Some c) t'
     end)%nat.

(** [len(re.findall(word_pattern, text))]. *)
Definition count_matches (search_words : list str) (text : str) : Z :=
  Z.of_nat
    match search_words with
    | [] => findall_boundaries None text
    | _ :: _ => findall_words search_words None text O
    end.

(** The dictionary built for one matching report. *)
Record matching_report : Type := mkmatching {
  m_id : str;
  m_name : str;
  m_description : str;
  m_version : Z;
  match_count : Z
}.


(** [list.sort(key=match_count, reverse=True)]: a stable sort, so an
    entry goes in front of the entries that follow it in the list and
    do not have a larger count. *)
Fixpoint insert_desc (x : matching_report) (l : list matching_report)
    : list matching_report :=
  match l with
  | [] => [x]
  | y :: l' =>
      if match_count x <? match_count y then y :: insert_desc x l'
      else x :: l
  end.

Definition sort_desc (l : list matching_report) : list matching_report :=
  fold_right insert_desc [] l.

Definition matching_of (search_words : list str) (r : report)
    : option matching_report :=
  let name_matches := count_matches search_words (lower (name r)) in
  let description_matches :=
    count_matches search_words (lower (description r)) in
  let total_matches := name_matches + description_matches in
  if 0 <? total_matches then
    Some (mkmatching (id r) (name r) (description r) (version r)
            total_matches)
  else None.

Fixpoint collect_matching (search_words : list str)
    (all_reports : list report) : list matching_report :=
  match all_reports with
  | [] => []
  | r :: rest =>
      match matching_of search_words r with
      | Some e => e :: collect_matching search_words rest
      | None => collect_matching search_words rest
      end
  end.

(** The list [matching_reports] at the end of [search_reports].
    [set_order] is the order in which the set of search words is
    iterated when the pattern is built. *)
Definition search_reports_collect (set_order : list str -> list str)
    (self : t) (search_keywords : str) (max_results : option Z)
    : result (list matching_report) :=
  let default_max_results := 10 in
  match max_results with
  | Some n => if default_max_results <? n then Raise ValueError else Ok tt
  | None => Ok tt
  end ;;
  pages <- paginate self None ;;
  let all_reports := concat pages in
  let search_words := set_order (split (lower search_keywords)) in
  let matching_reports := collect_matching search_words all_reports in
  let matching_reports := sort_desc matching_reports in
  match max_results with
  | Some n => Ok (slice_to n matching_reports)
  | None => Ok matching_reports
  end.


(** An iteration order of [set(words)]: the distinct words, in some
    order. *)
Definition iterates_set (set_order : list str -> list str) : Prop :=
  forall words, Permutation (set_order words) (nodup str_eq_dec words).

End ArtifactUtils.

(** ** weather.py: WeatherForecast *)

Module WeatherForecast.

(** A Python [float]: not-a-number, an infinity, or the number
    [m * 2^e]. *)
Inductive pyfloat : Type :=
| FNan
| FInf (negative : bool)
| FFin (m e : Z).

Definition dyadic (m e : Z) : Q := (inject_Z m * Qpower (2 # 1) e)%Q.

(** Comparison of a float with an integer, which Python carries out
    on the exact values; a not-a-number compares with nothing. *)
Definition float_cmp_int (f : pyfloat) (n : Z) : option comparison :=
  match f with
  | FNan => None
  | FInf true => Some Lt
  | FInf false => Some Gt
  | FFin m e => Some (Qcompare (dyadic m e) (inject_Z n))
  end.

(** [n <= f] *)
Definition int_le_float (n : Z) (f : pyfloat) : bool :=
  match float_cmp_int f n with
  | Some Gt | Some Eq => true
  | _ => false
  end.

(** [f <= n] *)
Definition float_le_int (f : pyfloat) (n : Z) : bool :=
  match float_cmp_int f n with
  | Some Lt | Some Eq => true
  | _ => false
  end.

Record t : Type := mk { latitude : pyfloat; longitude : pyfloat }.

(** [__init__] *)
Definition init (latitude longitude : pyfloat) : result t :=
  if negb (int_le_float (-90) latitude && float_le_int latitude 90)
     || negb (int_le_float (-180) longitude
              && float_le_int longitude 180)
  then Raise PlainException
  else Ok (mk latitude longitude).

(** The values a decoded JSON document and the arguments are made of. *)
#[warnings="-register-all"] Inductive pyval : Type :=
| PNone
| PBool (b : bool)
| PInt (n : Z)
| PFloat (f : pyfloat)
| PStr (s : str)
| PList (items : list pyval)
| PDict (items : list (str * pyval)).

Definition is_dict (v : pyval) : bool :=
  match v with PDict _ => true | _ => false end.

Definition is_list (v : pyval) : bool :=
  match v with PList _ => true | _ => false end.

(** [isinstance(v, int)]: [bool] is a subclass of [int]. *)
Definition as_int (v : pyval) : option Z :=
  match v with
  | PInt n => Some n
  | PBool true => Some 1
  | PBool false => Some 0
  | _ => None
  end.

Fixpoint lookup (key : str) (items : list (str * pyval)) : option pyval :=
  match items with
  | [] => None
  | (k, v) :: rest => if str_eqb k key then Some v else lookup key rest
  end.

(** [v.get(key, default)]: only a dictionary has the method. *)
Definition get (v : pyval) (key : str) (default : pyval) : result pyval :=
  match v with
  | PDict items =>
      match lookup key items with
      | Some x => Ok x
      | None => Ok default
      end
  | _ => Raise AttributeError
  end.

Definition get_periods (json_data : pyval) (num_periods : pyval)
    : result pyval :=
  if negb (is_dict json_data) then Raise PlainException
  else
    properties <- get json_data (lit "properties") (PDict []) ;;
    periods <- get properties (lit "periods") (PList []) ;;
    match periods with
    | PList items =>
        match num_periods with
        | PNone => Ok periods
        | _ =>
            match as_int num_periods with
            | Some n =>
                if n <? 0 then Raise PlainException
                else Ok (PList (slice_to n items))
            | None => Raise PlainException
            end
        end
    | _ => Raise PlainException
    end.

(** [fetch_forecast_data] stands for the two requests to the weather
    service: the decoded document, or the error they end in. *)
Definition get_forecast (fetch_forecast_data : t -> result pyval)
    (self : t) (num_periods : pyval) : result pyval :=
  json_data <- fetch_forecast_data self ;;
  get_periods json_data num_periods.

(** The real number a float stands for, if it stands for one. *)
Definition float_value (f : pyfloat) : option Q :=
  match f with
  | FFin m e => Some (dyadic m e)
  | _ => None
  end.

(** [f] is a number of the interval [[lo, hi]]. *)
Definition inside (lo hi : Z) (f : pyfloat) : Prop :=
  exists q, float_value f = Some q
            /\ (inject_Z lo <= q)%Q /\ (q <= inject_Z hi)%Q.

(** A forecast document that carries a list of periods. *)
Definition well_formed (json_data : pyval) (periods : list pyval) : Prop :=
  exists items properties,
    json_data = PDict items
    /\ lookup (lit "properties") items = Some (PDict properties)
    /\ lookup (lit "periods") properties = Some (PList periods).

End WeatherForecast.

(** ** DateTimeAgent: [get_date_time] and the [/pdl] handler *)

Module DateTimeHandler.
Import PyDatetime.

Definition decimal (n : Z) : str :=
  lit (DecimalString.NilEmpty.string_of_int (Z.to_int n)).

(** Two digits, as [%m], [%d], [%H], [%M] and [%S] print them. *)
Definition two_digits (n : Z) : str :=
  if n <? 10 then lit "0" ++ decimal n else decimal n.

Definition days : list str :=
  [lit "Monday"; lit "Tuesday"; lit "Wednesday"; lit "Thursday";
   lit "Friday"; lit "Saturday"; lit "Sunday"].

(** A dictionary whose values are strings or [None]. *)
Definition date_time_info : Type := list (str * option str).

(** [DateTimeUtils.get_date_time], given the clock reading and the
    name of the local time zone.  The year of a clock reading has four
    digits. *)
Definition get_date_time (utc_now : datetime) (tzname : option str)
    : date_time_info :=
  let current_day := nth_error days (Z.to_nat (weekday (dt_date utc_now))) in
  [(lit "date",
    Some (two_digits (month (dt_date utc_now)) ++ lit "/"
          ++ two_digits (day (dt_date utc_now)) ++ lit "/"
          ++ decimal (year (dt_date utc_now))));
   (lit "time",
    Some (two_digits (hour utc_now) ++ lit ":"
          ++ two_digits (minute utc_now) ++ lit ":"
          ++ two_digits (second utc_now)));
   (lit "day", current_day);
   (lit "timezone", tzname)].

(** The two classes of objects the handler compares. *)
Inductive pyobj : Type :=
| Dict (items : date_time_info)
| Datetime (t : datetime).

Inductive answer : Type :=
| Answer (b : bool)
| NotImplemented.

(** [type(a).__ge__(a, b)]: [dict] defines no ordering; [datetime]
    orders itself against another [datetime] only. *)
Definition ge_method (a b : pyobj) : answer :=
  match a, b with
  | Datetime x, Datetime y => Answer (datetime_ge x y)
  | _, _ => NotImplemented
  end.

(** [type(a).__le__(a, b)] *)
Definition le_method (a b : pyobj) : answer :=
  match a, b with
  | Datetime x, Datetime y => Answer (datetime_ge y x)
  | _, _ => NotImplemented
  end.

(** [a >= b]: the method of the left operand, then the reflected
    method of the right one, then [TypeError]. *)
Definition py_ge (a b : pyobj) : result bool :=
  match ge_method a b with
  | Answer r => Ok r
  | NotImplemented =>
      match le_method b a with
      | Answer r => Ok r
      | NotImplemented => Raise TypeError
      end
  end.

Record response : Type := mkresponse { statusCode : Z; body : str }.

Definition expiry_format : str := lit "%Y-%m-%d %H:%M:%S".

(** [check_policy_deadline].  [strptime] is [datetime.strptime];
    [utc_now] and [tzname] are what the clock gives when
    [get_date_time] is called. *)
Definition check_policy_deadline
    (strptime : str -> str -> result datetime)
    (utc_now : datetime) (tzname : option str)
    (policy_name expiry_date : str) : result response :=
  let current_datetime := get_date_time utc_now tzname in
  expiry_datetime <- strptime expiry_date expiry_format ;;
  expired <- py_ge (Dict current_datetime) (Datetime expiry_datetime) ;;
  if expired then
    Ok (mkresponse 200
          (lit "The " ++ policy_name ++ lit " policy has expired on "
           ++ expiry_date))
  else
    Ok (mkresponse 200
          (lit "The " ++ policy_name
           ++ lit " policy is still valid and will expire on "
           ++ expiry_date)).

(** *** A parser for the fixed-width form of the expiry format *)

Definition digit_value (c : ascii) : option Z :=
  if in_range 48 57 (code c) then Some (code c - 48) else None.

Fixpoint number (digits : str) (acc : Z) : option Z :=
  match digits with
  | [] => Some acc
  | c :: rest =>
      match digit_value c with
      | Some d => number rest (acc * 10 + d)
      | None => None
      end
  end.

Definition field (s : str) (start len : nat) : option Z :=
  if Nat.eqb (List.length (firstn len (skipn start s))) len
  then number (firstn len (skipn start s)) 0
  else None.

(** Reads [YYYY-MM-DD HH:MM:SS] with all fields at full width and
    raises [ValueError] on anything else. *)
Definition strptime_fixed (s format : str) : result datetime :=
  match field s 0 4, field s 5 2, field s 8 2,
        field s 11 2, field s 14 2, field s 17 2 with
  | Some y, Some m, Some d, Some hh, Some mm, Some ss =>
      if Nat.eqb (List.length s) 19
         && str_eqb (map (fun i => nth i s Ascii.zero) [4; 7; 10; 13; 16]%nat)
              (lit "-- ::")
         && check_date_fields y m d
         && in_range 0 23 hh && in_range 0 59 mm && in_range 0 59 ss
      then Ok (mkdatetime (mkdate y m d) hh mm ss 0)
      else Raise ValueError
  | _, _, _, _, _, _ => Raise ValueError
  end.

End DateTimeHandler.

(** ** Reference notions for the search claim *)

Module SearchSpec.
Import ArtifactUtils.









(** Non-increasing match counts. *)
Definition ranked (a b : matching_report) : Prop :=
  match_count b <= match_count a.

Definition report_of (e : matching_report) : report :=
  mkreport (m_id e) (m_name e) (m_version e) (m_description e).








End SearchSpec.

(** ** Reference notions for the paging claims *)

Module PagingSpec.
Import ArtifactUtils.

(** The page [list_reports] reshapes out of the pages the paginator
    yields: the first one without a page number, the one numbered
    [page_number] from 1 otherwise, and no report when there is no such
    page. *)
Definition selected_page (pages : list page) (page_number : option Z)
    : page :=
  match page_number with
  | None => hd [] pages
  | Some n => if 1 <=? n then nth (Z.to_nat (n - 1)) pages [] else []
  end.

(** [e] is the entry for report [r]: the same id, name and version,
    and as description the first 100 characters followed by three dots
    exactly when the report's description has more than 100
    characters, the description itself when it has at most 100. *)
Definition entry_of (r : report) (e : listed_report) : Prop :=
  l_id e = id r /\ l_name e = name r /\ l_version e = version r
  /\ (l_description e = firstn 100 (description r) ++ lit "..."
      <-> (100 < List.length (description r))%nat)
  /\ ((List.length (description r) <= 100)%nat ->
      l_description e = description r).

End PagingSpec.

(** ** Reference notions for the date claims *)

Module DateSpec.
Import PyDatetime.

(** [zrange lo len] is [lo; lo + 1; ...; lo + len - 1]. *)
Fixpoint zrange (lo : Z) (len : nat) : list Z :=
  match len with
  | O => []
  | S len' => lo :: zrange (lo + 1) len'
  end.

(** The days [d] with [start <= d < end], in order. *)
Definition days_between (start_date end_date : date) : list date :=
  map fromordinal
    (zrange (toordinal start_date)
       (Z.to_nat (toordinal end_date - toordinal start_date))).

(** Monday (0) through Friday (4). *)
Definition monday_to_friday (d : date) : bool :=
  existsb (Z.eqb (weekday d)) [0; 1; 2; 3; 4].

Definition count_business_days (start_date end_date : date) : Z :=
  Z.of_nat (length (filter monday_to_friday
                      (days_between start_date end_date))).

(** The last representable day, [date.max]. *)
Definition date_max : date := mkdate 9999 12 31.

(** Month and day inside a year as [ord2ymd] derives them from the
    zero-based day [k] of the year, checked against the month tables. *)
Definition month_day_check (leapyear : bool) (k : nat) : bool :=
  let n := Z.of_nat k in
  let month := Z.shiftr (n + 50) 5 in
  let preceding :=
    table DAYS_BEFORE_MONTH month
    + (if (2 <? month) && leapyear then 1 else 0) in
  let ok (m d : Z) :=
    in_range 1 12 m
    && in_range 1 (if (m =? 2) && leapyear then 29
                   else table DAYS_IN_MONTH m) d
    && (table DAYS_BEFORE_MONTH m
        + (if (2 <? m) && leapyear then 1 else 0) + d =? n + 1) in
  if n <? preceding then
    let month := month - 1 in
    let preceding :=
      preceding
      - (table DAYS_IN_MONTH month
         + (if (month =? 2) && leapyear then 1 else 0)) in
    ok month (n - preceding + 1)
  else ok month (n - preceding + 1).

End DateSpec.

(** ** date_time_utils.py: DateTimeUtils *)

Module DateTimeUtils.
Import PyDatetime.

(** A [timedelta], normalised as its constructor leaves it:
    [0 <= seconds < 86400] and [0 <= microseconds < 1000000]. *)
Record timedelta : Type := mktimedelta {
  td_days : Z;
  td_seconds : Z;
  td_microseconds : Z
}.

Definition US_PER_DAY : Z := 86400000000.

(** [timedelta(days, seconds, microseconds)] on integers. *)
Definition new_timedelta (days seconds microseconds : Z) : timedelta :=
  let total := (days * 86400 + seconds) * 1000000 + microseconds in
  mktimedelta (total / US_PER_DAY)
    ((total mod US_PER_DAY) / 1000000)
    (total mod 1000000).

(** [a - b] on two naive datetimes. *)
Definition datetime_sub (a b : datetime) : timedelta :=
  let days1 := toordinal (dt_date a) in
  let days2 := toordinal (dt_date b) in
  let secs1 := second a + minute a * 60 + hour a * 3600 in
  let secs2 := second b + minute b * 60 + hour b * 3600 in
  new_timedelta (days1 - days2) (secs1 - secs2)
    (microsecond a - microsecond b).

Definition date_diff (start_date end_date : datetime) : Z :=
  let diff := datetime_sub end_date start_date in
  td_days diff.

(** [a < b] on tuples of integers. *)
Definition tuple_lt (a b : list Z) : bool :=
  match tuple_cmp a b with Lt => true | _ => false end.

(** [calculate_age]; [today] is what [date.today()] gives. *)
Definition calculate_age (today birth_date : date) : Z :=
  let age :=
    year today - year birth_date
    - (if tuple_lt [month today; day today]
            [month birth_date; day birth_date]
       then 1 else 0) in
  age.

(** [_check_time_fields], as a boolean. *)
Definition valid_time (t : datetime) : bool :=
  in_range 0 23 (hour t) && in_range 0 59 (minute t)
  && in_range 0 59 (second t) && in_range 0 999999 (microsecond t).

(** The microseconds since midnight. *)
Definition time_of_day (t : datetime) : Z :=
  (second t + minute t * 60 + hour t * 3600) * 1000000 + microsecond t.

End DateTimeUtils.

(** ** Reference notions on day numbers *)

Module OrdinalSpec.
Import DateSpec.

(** The day with number [n] is a Monday to Friday. *)
Definition weekday_number (n : Z) : bool := (n + 6) mod 7 <? 5.

Definition count_weekdays (lo : Z) (len : nat) : nat :=
  List.length (filter weekday_number (zrange lo len)).

End OrdinalSpec.

(** ** Reading the dictionary of [get_date_time] *)

Module DateTimeInfo.
Import DateTimeHandler.

(** [info[key]], if the key is there. *)
Fixpoint info_get (key : str) (info : date_time_info)
    : option (option str) :=
  match info with
  | [] => None
  | (k, v) :: rest => if str_eqb k key then Some v else info_get key rest
  end.

End DateTimeInfo.

(** ** Further reference notions for the search *)

Module SearchScore.
Import ArtifactUtils.

(** The number of matches the pattern of [search_words] finds in the
    lower-cased name and description of a report. *)
Definition score (search_words : list str) (r : report) : Z :=
  count_matches search_words (lower (name r))
  + count_matches search_words (lower (description r)).

(** The text holds a letter, a digit or an underscore. *)
Definition has_word_char (text : str) : bool := existsb is_word_char text.

Definition count_is (k : Z) (e : matching_report) : bool :=
  match_count e =? k.

End SearchScore.

(** ** [urllib.parse.quote] and [unquote], as the handlers import them *)

Module UrlQuote.

(** The characters [quote] never escapes: letters, digits and [_.-~]. *)
Definition always_safe (c : ascii) : bool :=
  let n := code c in
  in_range 65 90 n || in_range 97 122 n || in_range 48 57 n
  || (n =? 95) || (n =? 46) || (n =? 45) || (n =? 126).

(** With the default [safe='/']. *)
Definition safe (c : ascii) : bool := always_safe c || (code c =? 47).

Definition percent : ascii := "%"%char.

(** The UTF-8 bytes of a code point below 256. *)
Definition utf8_encode (c : ascii) : list ascii :=
  let n := nat_of_ascii c in
  if Nat.ltb n 128 then [c]
  else [ascii_of_nat (192 + Nat.div n 64);
        ascii_of_nat (128 + Nat.modulo n 64)].

Definition hex_upper (n : nat) : ascii :=
  nth n (lit "0123456789ABCDEF") "0"%char.

(** One byte: itself when safe, [%XX] otherwise. *)
Definition quote_byte (b : ascii) : str :=
  if safe b then [b]
  else [percent; hex_upper (Nat.div (nat_of_ascii b) 16);
        hex_upper (Nat.modulo (nat_of_ascii b) 16)].

Definition quote (s : str) : str :=
  flat_map quote_byte (flat_map utf8_encode s).

(** The value of a hexadecimal digit of either case. *)
Definition hex_value (c : ascii) : option nat :=
  let n := nat_of_ascii c in
  if Nat.leb 48 n && Nat.leb n 57 then Some (n - 48)%nat
  else if Nat.leb 65 n && Nat.leb n 70 then Some (n - 55)%nat
  else if Nat.leb 97 n && Nat.leb n 102 then Some (n - 87)%nat
  else None.

(** What [unquote] reads: a byte (an ASCII character of the text or a
    decoded [%XX]) or a character above 127 of the text, which is
    passed on as it is. *)
Inductive token : Type :=
| Byte (b : ascii)
| Char (c : ascii).

Definition literal (c : ascii) : token :=
  if Nat.ltb (nat_of_ascii c) 128 then Byte c else Char c.

(** [%] followed by two hexadecimal digits is one byte; any other [%]
    stays. *)
Fixpoint percent_decode (s : str) : list token :=
  match s with
  | [] => []
  | c :: rest =>
      if ascii_dec c percent then
        match rest with
        | h1 :: h2 :: rest' =>
            match hex_value h1, hex_value h2 with
            | Some a, Some b =>
                Byte (ascii_of_nat (16 * a + b)) :: percent_decode rest'
            | _, _ => literal c :: percent_decode rest
            end
        | _ => literal c :: percent_decode rest
        end
      else literal c :: percent_decode rest
  end.

(** Decoding the bytes as UTF-8.  [None] stands for a result outside
    the strings modelled here: a code point above 255 or the
    replacement character that an invalid byte sequence decodes to. *)
Fixpoint decode_tokens (ts : list token) : option str :=
  match ts with
  | [] => Some []
  | Char c :: rest => option_map (cons c) (decode_tokens rest)
  | Byte b :: rest =>
      let n := nat_of_ascii b in
      if Nat.ltb n 128 then option_map (cons b) (decode_tokens rest)
      else if Nat.eqb n 194 || Nat.eqb n 195 then
        match rest with
        | Byte b2 :: rest' =>
            let n2 := nat_of_ascii b2 in
            if Nat.leb 128 n2 && Nat.leb n2 191 then
              option_map
                (cons (ascii_of_nat ((n - 192) * 64 + (n2 - 128))))
                (decode_tokens rest')
            else None
        | _ => None
        end
      else None
  end.

Definition unquote (s : str) : option str :=
  decode_tokens (percent_decode s).

End UrlQuote.

(** ** lambda_handler.py: the middleware [escape_query_params] *)

Module Middleware.
Import UrlQuote.

(** One entry of [event['parameters']]: a dictionary in which each of
    the three keys may be missing. *)
Record param : Type := mkparam {
  p_name : option str;
  p_type : option str;
  p_value : option str
}.

(** The event: its parameters, if the key is there, and the rest. *)
Record event (A : Type) : Type := mkevent {
  parameters : option (list param);
  others : A
}.

Arguments mkevent {A} parameters others.
Arguments parameters {A} e.
Arguments others {A} e.

(** [d.get(key, '')] *)
Definition get_or_empty (v : option str) : str :=
  match v with Some s => s | None => [] end.

Definition escaped_param (p : param) : param :=
  let escaped_name := quote (get_or_empty (p_name p)) in
  let escaped_value := quote (get_or_empty (p_value p)) in
  mkparam (Some escaped_name) (Some (get_or_empty (p_type p)))
    (Some escaped_value).

Definition escape_query_params {A R : Type} (handler : event A -> R)
    (ev : event A) : R :=
  let params := match parameters ev with Some l => l | None => [] end in
  match params with
  | _ :: _ =>
      let escaped_params := map escaped_param params in
      handler (mkevent (Some escaped_params) (others ev))
  | [] => handler ev
  end.

(** The characters an escaped text is made of. *)
Definition escaped_char (c : ascii) : bool :=
  safe c || (code c =? 37).

End Middleware.

(** * Sample evaluations *)

Section Samples.
Import Json PyDatetime DateSpec.

Example toordinal_date_max : toordinal date_max = MAXORDINAL.
Proof. reflexivity. Qed.

Example weekday_first_day : weekday (mkdate 1 1 1) = 0.
Proof. reflexivity. Qed.

Example fromordinal_leap_century : fromordinal 730180 = mkdate 2000 3 1.
Proof. reflexivity. Qed.

Example friday_2026_05_01 :
  toordinal (mkdate 2026 5 1) = 739737 /\ weekday (mkdate 2026 5 1) = 4.
Proof. split; reflexivity. Qed.

Example split_keywords :
  split (lit "  soc   FedRAMP ") = [lit "soc"; lit "FedRAMP"].
Proof. reflexivity. Qed.

Example lower_keywords :
  lower (lit "ISO-27001 Soc_2") = lit "iso-27001 soc_2".
Proof. reflexivity. Qed.

Example dumps_empty_list : dumps (JList []) = lit "[]".
Proof. reflexivity. Qed.

Example dumps_object :
  dumps (JList [JObj [(lit "id", JStr (lit "r-1")); (lit "n", JInt (-3))]])
  = lit "[{" ++ quote ++ lit "id" ++ quote ++ lit ": " ++ quote
    ++ lit "r-1" ++ quote ++ lit ", " ++ quote ++ lit "n" ++ quote
    ++ lit ": -3}]".
Proof. reflexivity. Qed.

Example dumps_escapes :
  dumps (JStr [ascii_of_nat 34; ascii_of_nat 10; ascii_of_nat 127])
  = quote ++ [backslash; ascii_of_nat 34] ++ lit "\n" ++ lit "\u007f"
    ++ quote.
Proof. reflexivity. Qed.
End Samples.

(** * Facts and theorems *)


Section DateFacts.
Import PyDatetime DateSpec.

Lemma days_before_year_succ y :
  days_before_year (y + 1)
  = days_before_year y + 365 + (if is_leap y then 1 else 0).
Proof.
  unfold days_before_year, is_leap.
  replace (y + 1 - 1) with y by lia.
  destruct (y mod 4 =? 0) eqn:E4; destruct (y mod 100 =? 0) eqn:E100;
    destruct (y mod 400 =? 0) eqn:E400; simpl;
    rewrite ?Z.eqb_eq, ?Z.eqb_neq in *;
    Z.div_mod_to_equations; lia.
Qed.

Lemma days_before_year_le y1 y2 :
  y1 <= y2 -> days_before_year y1 <= days_before_year y2.
Proof.
  intros H. unfold days_before_year. Z.div_mod_to_equations. lia.
Qed.

(** The cycle counters of [ord2ymd] determine the year's offset and
    whether it is a leap year. *)
Lemma year_of_cycles n400 n100 n4 n1 :
  0 <= n100 <= 3 -> 0 <= n4 <= 24 -> 0 <= n1 <= 3 ->
  let y := n400 * 400 + 1 + n100 * 100 + n4 * 4 + n1 in
  days_before_year y = n400 * DI400Y + n100 * DI100Y + n4 * DI4Y + n1 * 365
  /\ is_leap y = (n1 =? 3) && (negb (n4 =? 24) || (n100 =? 3)).
Proof.
  intros H100 H4 H1 y. subst y. split.
  - unfold days_before_year, DI400Y, DI100Y, DI4Y.
    Z.div_mod_to_equations. lia.
  - unfold is_leap.
    destruct (n1 =? 3) eqn:E1; destruct (n4 =? 24) eqn:E4;
      destruct (n100 =? 3) eqn:E100; simpl;
      rewrite ?Z.eqb_eq, ?Z.eqb_neq in *;
      rewrite ?andb_true_iff, ?andb_false_iff, ?orb_true_iff,
        ?orb_false_iff, ?negb_true_iff, ?negb_false_iff,
        ?Z.eqb_eq, ?Z.eqb_neq;
      Z.div_mod_to_equations; lia.
Qed.

Lemma month_day_check_all leapyear :
  forallb (month_day_check leapyear) (seq 0 365) = true.
Proof. destruct leapyear; vm_compute; reflexivity. Qed.

Lemma month_day_checked leapyear n :
  0 <= n <= 364 -> month_day_check leapyear (Z.to_nat n) = true.
Proof.
  intros Hn. pose proof (month_day_check_all leapyear) as H.
  rewrite forallb_forall in H. apply H. apply in_seq. lia.
Qed.

Lemma in_range_spec lo hi x : in_range lo hi x = true <-> lo <= x <= hi.
Proof.
  unfold in_range. rewrite andb_true_iff, !Z.leb_le. reflexivity.
Qed.

Lemma ord2ymd_spec n :
  1 <= n <= MAXORDINAL ->
  valid_date (ord2ymd n) = true /\ toordinal (ord2ymd n) = n.
Proof.
  intros Hn. unfold MAXORDINAL in Hn.
  unfold ord2ymd.
  set (n0 := n - 1).
  set (n400 := n0 / DI400Y). set (r400 := n0 mod DI400Y).
  set (n100 := r400 / DI100Y). set (r100 := r400 mod DI100Y).
  set (n4 := r100 / DI4Y). set (r4 := r100 mod DI4Y).
  set (n1 := r4 / 365). set (r1 := r4 mod 365).
  assert (B : 0 <= n400 <= 24 /\ 0 <= n100 <= 4 /\ 0 <= n4 <= 24
              /\ 0 <= n1 <= 4 /\ 0 <= r1 <= 364
              /\ n0 = n400 * DI400Y + n100 * DI100Y + n4 * DI4Y
                      + n1 * 365 + r1
              /\ (n100 = 4 -> n4 = 0 /\ n1 = 0 /\ r1 = 0)
              /\ (n1 = 4 -> n4 <= 23 /\ r1 = 0)).
  { subst n400 r400 n100 r100 n4 r4 n1 r1 n0.
    unfold DI400Y, DI100Y, DI4Y. Z.div_mod_to_equations. lia. }
  clearbody n400 n100 n4 n1 r1 r400 r100 r4.
  destruct B as (B400 & B100 & B4 & B1 & Br & Hn0 & H100 & H1).
  destruct ((n1 =? 4) || (n100 =? 4)) eqn:Eend.
  - (* last day of a cycle *)
    apply orb_true_iff in Eend. rewrite !Z.eqb_eq in Eend.
    assert (Hy : exists m100 m4,
               0 <= m100 <= 3 /\ 0 <= m4 <= 24
               /\ n400 * 400 + 1 + n100 * 100 + n4 * 4 + n1 - 1
                  = n400 * 400 + 1 + m100 * 100 + m4 * 4 + 3
               /\ ((m4 =? 24) = false \/ (m100 =? 3) = true)
               /\ n = n400 * DI400Y + m100 * DI100Y + m4 * DI4Y
                      + 3 * 365 + 366).
    { destruct (Z.eq_dec n100 4) as [E|E].
      - exists 3, 24. destruct (H100 E) as (? & ? & ?).
        unfold DI400Y, DI100Y, DI4Y in *.
        repeat split; first [lia | right; reflexivity].
      - exists n100, n4. destruct Eend as [E1|E1]; [|lia].
        destruct (H1 E1) as (? & ?).
        unfold DI400Y, DI100Y, DI4Y in *.
        repeat split; first [lia | left; apply Z.eqb_neq; lia]. }
    destruct Hy as (m100 & m4 & Hm100 & Hm4 & Hyear & Hleap & Hord).
    rewrite Hyear.
    destruct (year_of_cycles n400 m100 m4 3 Hm100 Hm4 ltac:(lia))
      as [Hdby Hlp].
    cbv zeta in Hdby, Hlp.
    assert (Hlp' : is_leap (n400 * 400 + 1 + m100 * 100 + m4 * 4 + 3)
                   = true).
    { rewrite Hlp. destruct Hleap as [-> | ->]; simpl;
        rewrite ?orb_true_r; reflexivity. }
    split.
    + unfold valid_date, check_date_fields, days_in_month; simpl.
      rewrite !andb_true_iff. repeat split; try reflexivity.
      apply in_range_spec.
      unfold MINYEAR, MAXYEAR, DI400Y, DI100Y, DI4Y in *. lia.
    + unfold toordinal, ymd2ord, days_before_month; simpl.
      rewrite Hdby, Hlp'. simpl. lia.
  - apply orb_false_iff in Eend. rewrite !Z.eqb_neq in Eend.
    destruct (year_of_cycles n400 n100 n4 n1 ltac:(lia) ltac:(lia)
                ltac:(lia)) as [Hdby Hlp].
    cbv zeta in Hdby, Hlp.
    set (leapyear := (n1 =? 3) && (negb (n4 =? 24) || (n100 =? 3))) in *.
    set (y := n400 * 400 + 1 + n100 * 100 + n4 * 4 + n1) in *.
    pose proof (month_day_checked leapyear r1 Br) as Hc.
    unfold month_day_check in Hc. rewrite Z2Nat.id in Hc by lia.
    cbv zeta in Hc |- *.
    assert (Hy : 1 <= y <= 9999).
    { subst y. unfold DI400Y, DI100Y, DI4Y in *. lia. }
    destruct (r1 <? _) eqn:Elt;
      rewrite !andb_true_iff, !in_range_spec, Z.eqb_eq in Hc;
      destruct Hc as ((Hm & Hd) & Hsum);
      (split;
       [ unfold valid_date, check_date_fields, days_in_month; simpl;
         rewrite Hlp, !andb_true_iff, !in_range_spec;
         unfold MINYEAR, MAXYEAR; repeat split; lia
       | unfold toordinal, ymd2ord, days_before_month; simpl;
         rewrite Hdby, Hlp; lia ]).
Qed.

Ltac month_cases m H :=
  assert (m = 1 \/ m = 2 \/ m = 3 \/ m = 4 \/ m = 5 \/ m = 6 \/ m = 7
          \/ m = 8 \/ m = 9 \/ m = 10 \/ m = 11 \/ m = 12) as H by lia;
  repeat (destruct H as [H | H]; [subst m | ]); [.. | subst m].

Ltac table_eval :=
  repeat match goal with
    | |- context [table ?t ?i] =>
        let v := eval vm_compute in (table t i) in
        change (table t i) with v
    end.

Lemma days_in_month_pos y m : 1 <= m <= 12 -> 28 <= days_in_month y m <= 31.
Proof.
  intros Hm. unfold days_in_month. month_cases m H;
    destruct (is_leap y); table_eval; simpl; lia.
Qed.

Lemma days_before_month_next y m1 m2 :
  1 <= m1 -> m1 < m2 -> m2 <= 12 ->
  days_before_month y m1 + days_in_month y m1 <= days_before_month y m2.
Proof.
  intros H1 H12 H2. unfold days_before_month, days_in_month.
  month_cases m1 Ha; month_cases m2 Hb; try lia;
    destruct (is_leap y); table_eval; simpl; lia.
Qed.

Lemma days_before_month_bounds y m :
  1 <= m <= 12 ->
  0 <= days_before_month y m
  /\ days_before_month y m + days_in_month y m
     <= 365 + (if is_leap y then 1 else 0).
Proof.
  intros Hm. unfold days_before_month, days_in_month.
  month_cases m H; destruct (is_leap y); table_eval; simpl; lia.
Qed.

Lemma valid_date_spec d :
  valid_date d = true <->
  1 <= year d <= 9999 /\ 1 <= month d <= 12
  /\ 1 <= day d <= days_in_month (year d) (month d).
Proof.
  unfold valid_date, check_date_fields, MINYEAR, MAXYEAR.
  rewrite !andb_true_iff, !in_range_spec. tauto.
Qed.

Lemma toordinal_bounds d :
  valid_date d = true -> 1 <= toordinal d <= MAXORDINAL.
Proof.
  rewrite valid_date_spec. intros (Hy & Hm & Hd).
  unfold toordinal, ymd2ord.
  pose proof (days_before_month_bounds (year d) (month d) Hm) as [Hb0 Hb1].
  pose proof (days_before_year_succ (year d)) as Hs.
  pose proof (days_before_year_le 1 (year d) ltac:(lia)) as Hlo.
  pose proof (days_before_year_le (year d + 1) 10000 ltac:(lia)) as Hhi.
  change (days_before_year 1) with 0 in Hlo.
  change (days_before_year 10000) with 3652059 in Hhi.
  unfold MAXORDINAL. lia.
Qed.

Lemma date_cmp_Lt a b :
  date_cmp a b = Lt <->
  year a < year b
  \/ (year a = year b
      /\ (month a < month b \/ (month a = month b /\ day a < day b))).
Proof.
  unfold date_cmp, date_fields; simpl.
  destruct (Z.compare_spec (year a) (year b));
    destruct (Z.compare_spec (month a) (month b));
    destruct (Z.compare_spec (day a) (day b));
    split; intros; try discriminate; try reflexivity; lia.
Qed.

Lemma date_cmp_Eq a b : date_cmp a b = Eq <-> a = b.
Proof.
  unfold date_cmp, date_fields; simpl. destruct a, b; simpl.
  destruct (Z.compare_spec year0 year1);
    destruct (Z.compare_spec month0 month1);
    destruct (Z.compare_spec day0 day1);
    split; intros E; try discriminate; try reflexivity;
    try (inversion E; lia); subst; reflexivity.
Qed.

Lemma date_cmp_Gt a b : date_cmp a b = Gt <-> date_cmp b a = Lt.
Proof.
  unfold date_cmp, date_fields; simpl.
  rewrite (Z.compare_antisym (year a) (year b)),
    (Z.compare_antisym (month a) (month b)),
    (Z.compare_antisym (day a) (day b)).
  destruct (year a ?= year b), (month a ?= month b), (day a ?= day b);
    simpl; split; intros; try discriminate; reflexivity.
Qed.

(** The order of the field tuples is the order of the ordinals. *)
Lemma toordinal_lt a b :
  valid_date a = true -> valid_date b = true ->
  date_cmp a b = Lt -> toordinal a < toordinal b.
Proof.
  rewrite !valid_date_spec, date_cmp_Lt.
  intros (Hya & Hma & Hda) (Hyb & Hmb & Hdb) H.
  unfold toordinal, ymd2ord.
  destruct H as [Hy | [Hy [Hm | [Hm Hd]]]].
  - pose proof (days_before_month_bounds (year a) (month a) Hma) as [_ Ha].
    pose proof (days_before_month_bounds (year b) (month b) Hmb) as [Hb _].
    pose proof (days_before_year_succ (year a)) as Hs.
    pose proof (days_before_year_le (year a + 1) (year b) ltac:(lia)).
    lia.
  - rewrite Hy in *.
    pose proof (days_before_month_next (year b) (month a) (month b)
                  ltac:(lia) Hm ltac:(lia)).
    lia.
  - rewrite Hy, Hm. lia.
Qed.

Lemma toordinal_cmp a b :
  valid_date a = true -> valid_date b = true ->
  date_cmp a b = (toordinal a ?= toordinal b).
Proof.
  intros Ha Hb. destruct (date_cmp a b) eqn:E.
  - apply date_cmp_Eq in E. subst. symmetry. apply Z.compare_refl.
  - symmetry. apply Z.compare_lt_iff. now apply toordinal_lt.
  - symmetry. apply Z.compare_gt_iff. apply date_cmp_Gt in E.
    now apply toordinal_lt.
Qed.

Lemma fromordinal_toordinal d :
  valid_date d = true -> fromordinal (toordinal d) = d.
Proof.
  intros Hd. pose proof (toordinal_bounds d Hd) as Hb.
  destruct (ord2ymd_spec _ Hb) as [Hv Ho].
  apply date_cmp_Eq. rewrite toordinal_cmp by assumption.
  unfold fromordinal. rewrite Ho. apply Z.compare_refl.
Qed.
End DateFacts.

Section BusinessDays.
Import PyDatetime DateSpec BusinessDateTimeUtils.

Lemma weekday_range d : 0 <= weekday d <= 6.
Proof. unfold weekday. Z.div_mod_to_equations. lia. Qed.

Lemma is_business_day_monday_to_friday d :
  is_business_day d = monday_to_friday d.
Proof.
  unfold is_business_day, monday_to_friday. cbv zeta.
  pose proof (weekday_range d) as Hw. simpl.
  destruct (weekday d =? 0) eqn:E0; destruct (weekday d =? 1) eqn:E1;
    destruct (weekday d =? 2) eqn:E2; destruct (weekday d =? 3) eqn:E3;
    destruct (weekday d =? 4) eqn:E4; simpl;
    rewrite ?Z.eqb_eq, ?Z.eqb_neq in *;
    rewrite ?andb_true_iff, ?andb_false_iff, ?Z.leb_le, ?Z.leb_gt; lia.
Qed.

Lemma midnight_cmp a b :
  datetime_cmp (at_midnight a) (at_midnight b) = date_cmp a b.
Proof.
  unfold datetime_cmp, datetime_fields, date_cmp, date_fields; simpl.
  destruct (year a ?= year b), (month a ?= month b), (day a ?= day b);
    reflexivity.
Qed.

Lemma midnight_lt a b :
  valid_date a = true -> valid_date b = true ->
  datetime_lt (at_midnight a) (at_midnight b)
  = (toordinal a <? toordinal b).
Proof.
  intros Ha Hb. unfold datetime_lt. rewrite midnight_cmp.
  rewrite toordinal_cmp by assumption. unfold Z.ltb.
  destruct (toordinal a ?= toordinal b); reflexivity.
Qed.

Lemma days_between_empty a b :
  toordinal b <= toordinal a -> days_between a b = [].
Proof.
  intros H. unfold days_between.
  replace (Z.to_nat (toordinal b - toordinal a)) with O by lia.
  reflexivity.
Qed.

Lemma next_day_valid a b :
  valid_date a = true -> valid_date b = true ->
  toordinal a < toordinal b ->
  valid_date (fromordinal (toordinal a + 1)) = true
  /\ toordinal (fromordinal (toordinal a + 1)) = toordinal a + 1.
Proof.
  intros Ha Hb H. apply ord2ymd_spec.
  pose proof (toordinal_bounds a Ha). pose proof (toordinal_bounds b Hb).
  lia.
Qed.

Lemma days_between_cons a b :
  valid_date a = true -> valid_date b = true ->
  toordinal a < toordinal b ->
  days_between a b = a :: days_between (fromordinal (toordinal a + 1)) b.
Proof.
  intros Ha Hb H. unfold days_between.
  destruct (next_day_valid a b Ha Hb H) as [_ ->].
  destruct (Z.to_nat (toordinal b - toordinal a)) as [|k] eqn:Ek; [lia|].
  simpl. rewrite fromordinal_toordinal by assumption.
  do 3 f_equal. lia.
Qed.

Lemma count_business_days_cons a b :
  valid_date a = true -> valid_date b = true ->
  toordinal a < toordinal b ->
  count_business_days a b
  = (if is_business_day a then 1 else 0)
    + count_business_days (fromordinal (toordinal a + 1)) b.
Proof.
  intros Ha Hb H. unfold count_business_days.
  rewrite (days_between_cons a b Ha Hb H). simpl.
  rewrite is_business_day_monday_to_friday.
  destruct (monday_to_friday a); simpl length; lia.
Qed.

(** The loop of [calculate_business_days], from any day on. *)
Lemma business_loop end_date k :
  valid_date end_date = true ->
  forall cur acc fuel,
    valid_date cur = true ->
    Z.to_nat (toordinal end_date - toordinal cur) = k ->
    (k < fuel)%nat ->
    exists last,
      while_loop fuel
        (fun st : Z * datetime =>
           Ok (datetime_lt (snd st) (at_midnight end_date)))
        (fun st =>
           let business_days :=
             if is_business_day (dt_date (snd st)) then fst st + 1
             else fst st in
           current_date <- datetime_add_days (snd st) 1 ;;
           Ok (business_days, current_date))
        (acc, at_midnight cur)
      = Some (Ok (acc + count_business_days cur end_date, last)).
Proof.
  intros He.
  set (cond := fun st : Z * datetime =>
                 Ok (datetime_lt (snd st) (at_midnight end_date))).
  set (body := fun st : Z * datetime =>
                 let business_days :=
                   if is_business_day (dt_date (snd st)) then fst st + 1
                   else fst st in
                 current_date <- datetime_add_days (snd st) 1 ;;
                 Ok (business_days, current_date)).
  induction k as [|k IH]; intros cur acc fuel Hc Hk Hf;
    (destruct fuel as [|fuel]; [lia|]);
    cbn [while_loop]; unfold cond at 1; cbn [snd];
    rewrite (midnight_lt cur end_date Hc He).
  - assert (Hle : toordinal end_date <= toordinal cur) by lia.
    apply Z.ltb_ge in Hle. rewrite Hle.
    apply Z.ltb_ge in Hle.
    unfold count_business_days. rewrite days_between_empty by assumption.
    simpl. rewrite Z.add_0_r. eexists. reflexivity.
  - assert (Hlt : toordinal cur < toordinal end_date) by lia.
    pose proof Hlt as Hltb. apply Z.ltb_lt in Hltb. rewrite Hltb.
    destruct (next_day_valid cur end_date Hc He Hlt) as [Hv Ho].
    pose proof (toordinal_bounds cur Hc) as Hbc.
    pose proof (toordinal_bounds end_date He) as Hbe.
    assert (Hbody : body (acc, at_midnight cur)
                    = Ok (if is_business_day cur then acc + 1 else acc,
                          at_midnight (fromordinal (toordinal cur + 1)))).
    { unfold body, datetime_add_days; cbn [snd fst dt_date at_midnight].
      replace ((0 <? toordinal cur + 1)
               && (toordinal cur + 1 <=? MAXORDINAL)) with true
        by (symmetry; apply andb_true_iff; split;
            [apply Z.ltb_lt | apply Z.leb_le]; lia).
      reflexivity. }
    rewrite Hbody.
    destruct (IH (fromordinal (toordinal cur + 1))
                (if is_business_day cur then acc + 1 else acc) fuel Hv
                ltac:(lia) ltac:(lia)) as [last Hlast].
    rewrite Hlast. exists last.
    rewrite (count_business_days_cons cur end_date Hc He Hlt).
    destruct (is_business_day cur); do 3 f_equal; lia.
Qed.

Lemma in_zrange x lo len :
  In x (zrange lo len) <-> lo <= x < lo + Z.of_nat len.
Proof.
  revert lo. induction len as [|len IH]; intros lo; simpl.
  - lia.
  - rewrite IH. lia.
Qed.

Lemma in_days_between a b d :
  valid_date a = true -> valid_date b = true ->
  In d (days_between a b) <->
  valid_date d = true /\ date_le a d = true /\ date_lt d b = true.
Proof.
  intros Ha Hb. unfold days_between, date_le, date_lt.
  pose proof (toordinal_bounds a Ha) as Hba.
  pose proof (toordinal_bounds b Hb) as Hbb.
  rewrite in_map_iff. split.
  - intros (n & Hn & Hin). apply in_zrange in Hin.
    destruct (ord2ymd_spec n ltac:(lia)) as [Hv Ho].
    unfold fromordinal in Hn. subst d.
    rewrite !toordinal_cmp by assumption. rewrite Ho.
    split; [assumption|].
    destruct (Z.compare_spec (toordinal a) n);
      destruct (Z.compare_spec n (toordinal b)); split; try reflexivity; lia.
  - intros (Hd & Hle & Hlt). exists (toordinal d).
    split; [now apply fromordinal_toordinal|].
    rewrite toordinal_cmp in Hle, Hlt by assumption.
    apply in_zrange.
    destruct (Z.compare_spec (toordinal a) (toordinal d));
      destruct (Z.compare_spec (toordinal d) (toordinal b));
      try discriminate; lia.
Qed.

(** C2.  On two dates, [calculate_business_days] returns the number of
    days [d] with [start <= d < end] whose weekday is Monday through
    Friday: the loop returns once it has fuel for one test more than
    the days between the two dates; the days counted are exactly the
    valid dates from [start] up to, and not including, [end]; and the
    count is 0 when [start >= end]. *)
Theorem calculate_business_days_counts_weekdays start_date end_date :
  valid_date start_date = true -> valid_date end_date = true ->
  (forall fuel,
      (Z.to_nat (toordinal end_date - toordinal start_date) < fuel)%nat ->
      calculate_business_days fuel (at_midnight start_date)
        (at_midnight end_date)
      = Some (Ok (count_business_days start_date end_date)))
  /\ (forall d,
         In d (days_between start_date end_date) <->
         valid_date d = true /\ date_le start_date d = true
         /\ date_lt d end_date = true)
  /\ ~ In end_date (days_between start_date end_date)
  /\ (date_le end_date start_date = true ->
      count_business_days start_date end_date = 0).
Proof.
  intros Hs He. split; [|split; [|split]].
  - intros fuel Hf. unfold calculate_business_days.
    destruct (business_loop end_date _ He start_date 0 fuel Hs eq_refl Hf)
      as [last Hl].
    cbv zeta in Hl |- *. rewrite Hl. reflexivity.
  - intros d. apply in_days_between; assumption.
  - intros Hin. apply (in_days_between _ _ _ Hs He) in Hin.
    destruct Hin as (_ & _ & Hlt). unfold date_lt in Hlt.
    replace (date_cmp end_date end_date) with Eq in Hlt
      by (symmetry; now apply date_cmp_Eq).
    discriminate.
  - intros Hle. unfold date_le in Hle.
    rewrite toordinal_cmp in Hle by assumption.
    unfold count_business_days. rewrite days_between_empty; [reflexivity|].
    destruct (Z.compare_spec (toordinal end_date) (toordinal start_date));
      try discriminate; lia.
Qed.

Lemma calculate_business_days_counts_weekdays_witness :
  calculate_business_days 20
    (at_midnight (mkdate 2026 5 1)) (at_midnight (mkdate 2026 5 15))
  = Some (Ok 10).
Proof.
  exact (proj1 (calculate_business_days_counts_weekdays
                  (mkdate 2026 5 1) (mkdate 2026 5 15) eq_refl eq_refl)
           20%nat ltac:(vm_compute; lia)).
Defined.
End BusinessDays.

Section FiscalYear.
Import PyDatetime DateSpec BusinessDateTimeUtils.

Lemma first_of_month_valid y m :
  1 <= y <= 9999 -> 1 <= m <= 12 -> check_date_fields y m 1 = true.
Proof.
  intros Hy Hm. unfold check_date_fields, MINYEAR, MAXYEAR.
  pose proof (days_in_month_pos y m Hm).
  rewrite !andb_true_iff, !in_range_spec. lia.
Qed.

Lemma fits_int_spec x :
  fits_int x = true <-> - 2 ^ 31 <= x <= 2 ^ 31 - 1.
Proof. unfold fits_int. apply in_range_spec. Qed.

Lemma new_date_first_of_month y m :
  1 <= y <= 9999 -> 1 <= m <= 12 -> new_date y m 1 = Ok (mkdate y m 1).
Proof.
  intros Hy Hm. unfold new_date.
  rewrite (first_of_month_valid y m Hy Hm).
  replace (fits_int y) with true
    by (symmetry; apply fits_int_spec; lia).
  replace (fits_int m) with true
    by (symmetry; apply fits_int_spec; lia).
  reflexivity.
Qed.

Lemma date_le_spec a b :
  valid_date a = true -> valid_date b = true ->
  date_le a b = true <-> toordinal a <= toordinal b.
Proof.
  intros Ha Hb. unfold date_le. rewrite toordinal_cmp by assumption.
  destruct (Z.compare_spec (toordinal a) (toordinal b));
    split; intros; try reflexivity; try discriminate; lia.
Qed.

(** C3, counterexample.  The fiscal year of a January day of year 1
    with an October start is year 0, which [date] cannot represent:
    the call raises instead of returning a range.  The same happens at
    the other end, where the range would close in year 10000. *)
Lemma get_fiscal_year_range_not_total :
  valid_date (mkdate 1 1 15) = true
  /\ get_fiscal_year_range (mkdate 1 1 15) 10 = Raise ValueError
  /\ valid_date (mkdate 9999 12 1) = true
  /\ get_fiscal_year_range (mkdate 9999 12 1) 10 = Raise ValueError.
Proof. repeat split; reflexivity. Qed.

(** C3, amended.  For a date [d] and a start month [m] in 1..12 whose
    fiscal year [fy] and the year after it are representable
    ([1 <= fy <= 9998]), [get_fiscal_year_range] returns [(start, end)]
    where [start] is the first day of month [m] of year [fy], [end] is
    the day before the first day of month [m] of year [fy + 1], and
    [start <= d <= end]. *)
Theorem get_fiscal_year_range_contains_date d m :
  valid_date d = true -> 1 <= m <= 12 ->
  1 <= get_fiscal_year d m <= 9998 ->
  exists start_date end_date,
    get_fiscal_year_range d m = Ok (start_date, end_date)
    /\ start_date = mkdate (get_fiscal_year d m) m 1
    /\ valid_date end_date = true
    /\ date_add_days end_date 1 = Ok (mkdate (get_fiscal_year d m + 1) m 1)
    /\ date_le start_date d = true
    /\ date_le d end_date = true.
Proof.
  intros Hd Hm Hfy. unfold get_fiscal_year_range. cbv zeta.
  set (fy := get_fiscal_year d m) in *.
  pose proof (first_of_month_valid fy m ltac:(lia) Hm) as Hv1.
  pose proof (first_of_month_valid (fy + 1) m ltac:(lia) Hm) as Hv2.
  rewrite !new_date_first_of_month by lia. cbn [bind].
  set (start_date := mkdate fy m 1).
  set (next_start := mkdate (fy + 1) m 1).
  assert (Hvs : valid_date start_date = true) by exact Hv1.
  assert (Hvn : valid_date next_start = true) by exact Hv2.
  (* the date lies between the two fiscal-year starts *)
  pose proof Hd as Hd'. apply valid_date_spec in Hd'.
  destruct Hd' as (Hdy & Hdm & Hdd).
  assert (Hsd : toordinal start_date <= toordinal d).
  { destruct (date_cmp start_date d) eqn:E.
    - apply date_cmp_Eq in E. rewrite E. lia.
    - apply Z.lt_le_incl. now apply toordinal_lt.
    - exfalso. apply date_cmp_Gt, date_cmp_Lt in E.
      subst start_date fy. unfold get_fiscal_year in E. simpl in E.
      destruct (month d <? m) eqn:Em;
        [apply Z.ltb_lt in Em | apply Z.ltb_ge in Em]; lia. }
  assert (Hdn : toordinal d < toordinal next_start).
  { apply toordinal_lt; try assumption. apply date_cmp_Lt.
    subst next_start fy. unfold get_fiscal_year. simpl.
    destruct (month d <? m) eqn:Em;
      [apply Z.ltb_lt in Em | apply Z.ltb_ge in Em]; lia. }
  pose proof (toordinal_bounds d Hd) as Hbd.
  pose proof (toordinal_bounds next_start Hvn) as Hbn.
  unfold date_add_days at 1.
  replace ((0 <? toordinal next_start + -1)
           && (toordinal next_start + -1 <=? MAXORDINAL)) with true
    by (symmetry; apply andb_true_iff; split;
        [apply Z.ltb_lt | apply Z.leb_le]; lia).
  cbn [bind].
  destruct (ord2ymd_spec (toordinal next_start + -1) ltac:(lia))
    as [Hve Hoe].
  exists start_date, (fromordinal (toordinal next_start + -1)).
  split; [reflexivity|]. split; [reflexivity|]. split; [exact Hve|].
  split.
  - unfold date_add_days, fromordinal. rewrite Hoe.
    replace (toordinal next_start + -1 + 1) with (toordinal next_start)
      by lia.
    replace ((0 <? toordinal next_start)
             && (toordinal next_start <=? MAXORDINAL)) with true
      by (symmetry; apply andb_true_iff; split;
          [apply Z.ltb_lt | apply Z.leb_le]; lia).
    f_equal. now apply fromordinal_toordinal.
  - split.
    + now apply date_le_spec.
    + apply date_le_spec; try assumption. unfold fromordinal.
      rewrite Hoe. lia.
Qed.

Lemma get_fiscal_year_range_contains_date_witness :
  exists start_date end_date,
    get_fiscal_year_range (mkdate 2024 2 29) 10
    = Ok (start_date, end_date)
    /\ start_date = mkdate 2023 10 1
    /\ valid_date end_date = true
    /\ date_add_days end_date 1 = Ok (mkdate 2024 10 1)
    /\ date_le start_date (mkdate 2024 2 29) = true
    /\ date_le (mkdate 2024 2 29) end_date = true.
Proof.
  apply (get_fiscal_year_range_contains_date (mkdate 2024 2 29) 10).
  - reflexivity.
  - lia.
  - vm_compute. split; discriminate.
Defined.
End FiscalYear.

Section NextBusinessDay.
Import PyDatetime DateSpec BusinessDateTimeUtils.

Lemma weekday_loop_raises fuel d :
  weekday d <= 4 ->
  while_loop (S fuel) not_yet_business_day one_day_later d
  = Some (Raise AttributeError).
Proof.
  intros Hw. cbn [while_loop]. unfold not_yet_business_day, py_or.
  apply Z.ltb_ge in Hw. rewrite Hw. reflexivity.
Qed.

Lemma weekend_loop_steps fuel d :
  valid_date d = true -> 4 < weekday d ->
  while_loop (S fuel) not_yet_business_day one_day_later d
  = while_loop fuel not_yet_business_day one_day_later
      (fromordinal (toordinal d + 1))
  /\ valid_date (fromordinal (toordinal d + 1)) = true
  /\ toordinal (fromordinal (toordinal d + 1)) = toordinal d + 1.
Proof.
  intros Hd Hw. pose proof (toordinal_bounds d Hd) as Hb.
  assert (Hlt : toordinal d + 1 <= MAXORDINAL).
  { unfold weekday, MAXORDINAL in *. Z.div_mod_to_equations. lia. }
  destruct (ord2ymd_spec (toordinal d + 1) ltac:(lia)) as [Hv Ho].
  split; [|split; assumption].
  cbn [while_loop]. unfold not_yet_business_day at 1, py_or.
  apply Z.ltb_lt in Hw. rewrite Hw.
  unfold one_day_later at 1, date_add_days.
  replace ((0 <? toordinal d + 1) && (toordinal d + 1 <=? MAXORDINAL))
    with true
    by (symmetry; apply andb_true_iff; split;
        [apply Z.ltb_lt | apply Z.leb_le]; lia).
  reflexivity.
Qed.

Lemma weekday_succ d :
  weekday (fromordinal (toordinal d + 1)) = (weekday d + 1) mod 7
  \/ toordinal (fromordinal (toordinal d + 1)) <> toordinal d + 1.
Proof.
  destruct (Z.eq_dec (toordinal (fromordinal (toordinal d + 1)))
              (toordinal d + 1)) as [E|E]; [left|right; exact E].
  unfold weekday at 1. rewrite E. unfold weekday.
  Z.div_mod_to_equations. lia.
Qed.

(** Every loop started on a valid day ends in the missing-attribute
    error within three tests. *)
Lemma next_business_loop_raises fuel d :
  valid_date d = true ->
  while_loop (S (S (S fuel))) not_yet_business_day one_day_later d
  = Some (Raise AttributeError).
Proof.
  intros Hd. pose proof (weekday_range d) as Hr.
  destruct (Z_le_gt_dec (weekday d) 4) as [Hw|Hw];
    [now apply weekday_loop_raises|].
  destruct (weekend_loop_steps (S (S fuel)) d Hd ltac:(lia))
    as (-> & Hv1 & Ho1).
  set (d1 := fromordinal (toordinal d + 1)) in *.
  assert (Hw1 : weekday d1 = (weekday d + 1) mod 7).
  { destruct (weekday_succ d) as [E|E]; [exact E|contradiction]. }
  destruct (Z_le_gt_dec (weekday d1) 4) as [Hw1'|Hw1'];
    [now apply weekday_loop_raises|].
  destruct (weekend_loop_steps (S fuel) d1 Hv1 ltac:(lia))
    as (-> & Hv2 & Ho2).
  set (d2 := fromordinal (toordinal d1 + 1)) in *.
  assert (Hw2 : weekday d2 = (weekday d1 + 1) mod 7).
  { destruct (weekday_succ d1) as [E|E]; [exact E|contradiction]. }
  apply weekday_loop_raises.
  rewrite Hw2, Hw1. Z.div_mod_to_equations. lia.
Qed.

(** The loop condition is never false, so the loop has no normal
    exit. *)
Lemma next_business_loop_no_date fuel d next_day :
  while_loop fuel not_yet_business_day one_day_later d <> Some (Ok next_day).
Proof.
  revert d. induction fuel as [|fuel IH]; intros d; [discriminate|].
  cbn [while_loop]. unfold not_yet_business_day at 1, py_or, is_holiday.
  destruct (4 <? weekday d); [|discriminate].
  destruct (one_day_later d) as [d'|e]; [apply IH|discriminate].
Qed.

(** C8, counterexample.  On the last representable day the first
    addition already leaves the range of [date]: the error raised is
    the overflow of the addition, and the missing method is never
    reached. *)
Lemma get_next_business_day_date_max :
  valid_date date_max = true
  /\ (forall fuel,
        get_next_business_day fuel date_max = Some (Raise OverflowError))
  /\ (forall fuel,
        get_next_business_day fuel date_max
        <> Some (Raise AttributeError)).
Proof.
  split; [reflexivity|]. split; intros fuel; [reflexivity|discriminate].
Qed.

(** C8, amended.  For every date other than the last representable
    one, [get_next_business_day] raises [AttributeError] as soon as the
    candidate's weekday is Monday through Friday (at most three tests
    of the loop condition); on the last representable day the
    addition raises [OverflowError]; in no case is a date returned. *)
Theorem get_next_business_day_never_returns d :
  valid_date d = true ->
  (d <> date_max ->
   forall fuel, (3 <= fuel)%nat ->
     get_next_business_day fuel d = Some (Raise AttributeError))
  /\ (d = date_max ->
      forall fuel,
        get_next_business_day fuel d = Some (Raise OverflowError))
  /\ (forall fuel next_day,
        get_next_business_day fuel d <> Some (Ok next_day)).
Proof.
  intros Hd.
  assert (Hmax : d <> date_max ->
                 exists d1, date_add_days d 1 = Ok d1
                            /\ valid_date d1 = true).
  { intros Hne. pose proof (toordinal_bounds d Hd) as Hb.
    assert (Hlt : toordinal d < toordinal date_max).
    { destruct (date_cmp d date_max) eqn:E.
      - apply date_cmp_Eq in E. contradiction.
      - now apply toordinal_lt.
      - apply date_cmp_Gt in E. apply toordinal_lt in E;
          [|reflexivity|assumption].
        change (toordinal date_max) with MAXORDINAL in *. lia. }
    change (toordinal date_max) with MAXORDINAL in Hlt.
    unfold date_add_days.
    replace ((0 <? toordinal d + 1) && (toordinal d + 1 <=? MAXORDINAL))
      with true
      by (symmetry; apply andb_true_iff; split;
          [apply Z.ltb_lt | apply Z.leb_le]; lia).
    eexists. split; [reflexivity|].
    apply ord2ymd_spec. lia. }
  split; [|split].
  - intros Hne fuel Hf. destruct (Hmax Hne) as (d1 & Hadd & Hv1).
    unfold get_next_business_day. rewrite Hadd.
    destruct fuel as [|[|[|fuel]]]; try lia.
    now apply next_business_loop_raises.
  - intros -> fuel. reflexivity.
  - intros fuel next_day. unfold get_next_business_day.
    destruct (date_add_days d 1) as [d1|e]; [|discriminate].
    apply next_business_loop_no_date.
Qed.

Lemma get_next_business_day_never_returns_witness :
  get_next_business_day 3 (mkdate 2026 5 1) = Some (Raise AttributeError).
Proof.
  apply (proj1 (get_next_business_day_never_returns (mkdate 2026 5 1)
                  eq_refl)).
  - discriminate.
  - lia.
Defined.
End NextBusinessDay.

Section Pagination.
Import Json ArtifactUtils PagingSpec.

Lemma nth_error_chunks fuel n l k :
  (1 <= n)%nat -> (List.length l <= fuel)%nat ->
  nth_error (chunks fuel n l) k
  = if (k * n <? List.length l)%nat
    then Some (firstn n (skipn (k * n) l)) else None.
Proof.
  intros Hn. revert l k.
  induction fuel as [|fuel IH]; intros l k Hl.
  - destruct l; [|simpl in Hl; lia]. simpl.
    replace (k * n <? 0)%nat with false
      by (symmetry; apply Nat.ltb_ge; lia).
    now destruct k.
  - destruct l as [|x l].
    + simpl. replace (k * n <? 0)%nat with false
        by (symmetry; apply Nat.ltb_ge; lia).
      now destruct k.
    + cbn [chunks]. destruct k as [|k].
      * reflexivity.
      * cbn [nth_error]. rewrite IH.
        2:{ rewrite length_skipn.
            change (List.length (x :: l)) with (S (List.length l)) in *.
            lia. }
        rewrite length_skipn, skipn_skipn.
        replace (k * n + n)%nat with (S k * n)%nat by lia.
        destruct (k * n <? List.length (x :: l) - n)%nat eqn:E1;
          destruct (S k * n <? List.length (x :: l))%nat eqn:E2;
          try reflexivity;
          rewrite ?Nat.ltb_lt, ?Nat.ltb_ge in *;
          change (List.length (x :: l)) with (S (List.length l)) in *;
          lia.
Qed.

Lemma concat_chunks fuel n l :
  (1 <= n)%nat -> (List.length l <= fuel)%nat ->
  concat (chunks fuel n l) = l.
Proof.
  intros Hn. revert l. induction fuel as [|fuel IH]; intros l Hl.
  - destruct l; [reflexivity|simpl in Hl; lia].
  - destruct l as [|x l]; [reflexivity|].
    cbn [chunks concat]. rewrite IH.
    + apply firstn_skipn.
    + rewrite length_skipn.
      change (List.length (x :: l)) with (S (List.length l)) in *. lia.
Qed.

Lemma concat_pages_of n catalog :
  (1 <= n)%nat -> concat (pages_of n catalog) = catalog.
Proof.
  intros Hn. unfold pages_of. destruct catalog; [reflexivity|].
  now apply concat_chunks.
Qed.

(** Whatever page is asked for, what it holds is the slice of the
    catalog at its offset; a page that does not exist holds nothing. *)
Lemma nth_page_of n catalog k :
  (1 <= n)%nat ->
  match nth_error (pages_of n catalog) k with
  | Some page => page
  | None => []
  end = firstn n (skipn (k * n) catalog).
Proof.
  intros Hn. unfold pages_of. destruct catalog as [|x l].
  - rewrite skipn_nil, firstn_nil. destruct k as [|[|k]]; reflexivity.
  - rewrite nth_error_chunks by (assumption || lia).
    destruct (k * n <? List.length (x :: l))%nat eqn:E; [reflexivity|].
    apply Nat.ltb_ge in E. rewrite skipn_all2 by assumption.
    now rewrite firstn_nil.
Qed.

Lemma page_loop_nth pages page_count page_number :
  page_count <= page_number ->
  page_loop pages page_count page_number
  = map listed
      match nth_error pages (Z.to_nat (page_number - page_count)) with
      | Some page => page
      | None => []
      end.
Proof.
  revert page_count. induction pages as [|page rest IH];
    intros page_count Hle.
  - simpl. now destruct (Z.to_nat _).
  - cbn [page_loop]. destruct (page_count =? page_number) eqn:E.
    + apply Z.eqb_eq in E. subst.
      now rewrite Z.sub_diag.
    + apply Z.eqb_neq in E. rewrite IH by lia.
      replace (Z.to_nat (page_number - page_count))
        with (S (Z.to_nat (page_number - (page_count + 1)))) by lia.
      reflexivity.
Qed.

Lemma sum_lengths_concat pages :
  sum_lengths pages = Z.of_nat (List.length (concat pages)).
Proof.
  induction pages as [|p pages IH]; [reflexivity|].
  cbn [sum_lengths fold_right concat]. fold (sum_lengths pages).
  rewrite length_app, IH. lia.
Qed.

Lemma ceil_quotient a b :
  0 < b -> ceil (Qmake a (Z.to_pos b)) = (a + b - 1) / b.
Proof.
  intros Hb. unfold ceil, Qceiling, Qfloor, Qopp; simpl.
  rewrite Z2Pos.id by assumption.
  Z.div_mod_to_equations. nia.
Qed.

Lemma list_reports_collect_page self catalog page_size page_number :
  serves self catalog -> 1 <= page_size <= 10 -> 1 <= page_number ->
  list_reports_collect self (Some page_size) (Some page_number)
  = Ok (map listed
          (firstn (Z.to_nat page_size)
             (skipn (Z.to_nat ((page_number - 1) * page_size)) catalog))).
Proof.
  intros [Hserve _] Hps Hpn. unfold list_reports_collect. cbv zeta.
  replace (10 <? page_size) with false by (symmetry; apply Z.ltb_ge; lia).
  cbn [bind]. rewrite (Hserve page_size) by lia. cbn [bind].
  pose proof (nth_page_of (Z.to_nat page_size) catalog
                (Z.to_nat (page_number - 1)) ltac:(lia)) as Hnth.
  rewrite <- Z2Nat.inj_mul in Hnth by lia.
  rewrite <- Hnth.
  destruct page_number as [|[p|p|]|p]; try lia.
  - now rewrite page_loop_nth by lia.
  - now rewrite page_loop_nth by lia.
  - change (Z.to_nat (1 - 1)) with O.
    destruct (pages_of (Z.to_nat page_size) catalog); reflexivity.
Qed.

(** C4.  With a page size from 1 to 10 and a page number from 1 on,
    [list_reports] returns the JSON text of the reports at positions
    [(page_number - 1) * page_size] to [page_number * page_size - 1] of
    the catalog, each reshaped to its id, name, version and truncated
    description; past the last page that is the empty JSON list; and
    a page size above 10 raises [ValueError]. *)
Theorem list_reports_returns_page self catalog page_size page_number :
  serves self catalog -> 1 <= page_size <= 10 -> 1 <= page_number ->
  (exists reports,
      list_reports self (Some page_size) (Some page_number)
      = Ok (dumps (JList (map listed_json (map listed reports))))
      /\ (List.length reports <= Z.to_nat page_size)%nat
      /\ (forall i, (i < Z.to_nat page_size)%nat ->
            nth_error reports i
            = nth_error catalog
                (Z.to_nat ((page_number - 1) * page_size) + i))
      /\ ((Z.of_nat (List.length catalog) + page_size - 1) / page_size
          < page_number ->
          reports = []
          /\ list_reports self (Some page_size) (Some page_number)
             = Ok (lit "[]")))
  /\ (forall n number, 10 < n ->
        list_reports self (Some n) number = Raise ValueError).
Proof.
  intros Hserve Hps Hpn. split.
  - set (offset := Z.to_nat ((page_number - 1) * page_size)).
    exists (firstn (Z.to_nat page_size) (skipn offset catalog)).
    assert (Hret : list_reports self (Some page_size) (Some page_number)
                   = Ok (dumps (JList (map listed_json (map listed
                           (firstn (Z.to_nat page_size)
                              (skipn offset catalog))))))).
    { unfold list_reports.
      now rewrite (list_reports_collect_page self catalog) by assumption. }
    split; [exact Hret|]. split; [apply firstn_le_length|]. split.
    + intros i Hi. rewrite nth_error_firstn.
      replace (i <? Z.to_nat page_size)%nat with true
        by (symmetry; apply Nat.ltb_lt; lia).
      now rewrite nth_error_skipn.
    + intros Hpast.
      assert (Hoff : (List.length catalog <= offset)%nat).
      { subst offset. Z.div_mod_to_equations. nia. }
      assert (Hnil : firstn (Z.to_nat page_size) (skipn offset catalog)
                     = []).
      { rewrite skipn_all2 by assumption. apply firstn_nil. }
      split; [exact Hnil|]. rewrite Hret, Hnil. reflexivity.
  - intros n number Hn. unfold list_reports, list_reports_collect.
    cbv zeta. apply Z.ltb_lt in Hn. rewrite Hn. reflexivity.
Qed.

Lemma truncated_description_long d :
  (100 < List.length d)%nat ->
  truncated_description d = firstn 100 d ++ lit "...".
Proof.
  intros H. unfold truncated_description.
  replace (100 <? Z.of_nat (List.length d)) with true
    by (symmetry; apply Z.ltb_lt; lia).
  reflexivity.
Qed.

Lemma truncated_description_short d :
  (List.length d <= 100)%nat -> truncated_description d = d.
Proof.
  intros H. unfold truncated_description.
  replace (100 <? Z.of_nat (List.length d)) with false
    by (symmetry; apply Z.ltb_ge; lia).
  cbn [join]. rewrite !app_nil_r. now apply firstn_all2.
Qed.

Lemma page_loop_selected pages :
  forall page_count page_number,
    page_count <= page_number ->
    page_loop pages page_count page_number
    = map listed (nth (Z.to_nat (page_number - page_count)) pages []).
Proof.
  induction pages as [|p pages IH]; intros c n Hc; cbn [page_loop].
  - now destruct (Z.to_nat (n - c)).
  - destruct (c =? n) eqn:E;
      [apply Z.eqb_eq in E | apply Z.eqb_neq in E].
    + subst. now rewrite Z.sub_diag.
    + rewrite IH by lia.
      replace (Z.to_nat (n - c)) with (S (Z.to_nat (n - (c + 1))))
        by lia.
      reflexivity.
Qed.

Lemma page_loop_passed pages :
  forall page_count page_number,
    page_number < page_count ->
    page_loop pages page_count page_number = [].
Proof.
  induction pages as [|p pages IH]; intros c n Hc; cbn [page_loop];
    [reflexivity|].
  replace (c =? n) with false by (symmetry; apply Z.eqb_neq; lia).
  apply IH. lia.
Qed.

(** The entries are the reshaped reports of the selected page. *)
Lemma list_reports_collect_selected self page_size page_number pages :
  match page_size with Some n => n <= 10 | None => True end ->
  paginate self page_size = Ok pages ->
  list_reports_collect self page_size page_number
  = Ok (map listed (selected_page pages page_number)).
Proof.
  intros Hsize Hpages. unfold list_reports_collect. cbv zeta.
  replace (match page_size with
           | Some n => if 10 <? n then Raise ValueError else Ok tt
           | None => Ok tt
           end) with (@Ok unit tt)
    by (destruct page_size as [n|]; [|reflexivity];
        replace (10 <? n) with false
          by (symmetry; apply Z.ltb_ge; lia);
        reflexivity).
  cbn [bind]. rewrite Hpages. cbn [bind]. unfold selected_page.
  destruct page_number as [[|[p|p|]|p]|].
  - now rewrite page_loop_passed by lia.
  - rewrite page_loop_selected by lia.
    replace (1 <=? Z.pos p~1) with true
      by (symmetry; apply Z.leb_le; lia).
    reflexivity.
  - rewrite page_loop_selected by lia.
    replace (1 <=? Z.pos p~0) with true
      by (symmetry; apply Z.leb_le; lia).
    reflexivity.
  - now destruct pages.
  - now rewrite page_loop_passed by lia.
  - now destruct pages.
Qed.

Lemma listed_entry_of r : entry_of r (listed r).
Proof.
  unfold entry_of. repeat (split; [reflexivity|]).
  cbn [listed l_description]. split.
  - split.
    + intros E.
      destruct (Nat.lt_ge_cases 100 (List.length (description r)))
        as [Hl|Hl]; [exact Hl|].
      rewrite truncated_description_short in E by assumption.
      apply (f_equal (@List.length ascii)) in E.
      rewrite length_app, length_firstn in E.
      change (List.length (lit "...")) with 3%nat in E. lia.
    + apply truncated_description_long.
  - apply truncated_description_short.
Qed.

(** C5.  Whatever pages the paginator yields, the entries that
    [list_reports] returns stand one for one, in order, for the reports
    of the page it selects, and the entry for a report carries the
    report's id, name and version and, as description, the first 100
    characters of the report's description followed by ["..."]
    exactly when that description is longer than 100 characters, and
    the description itself, without suffix, when it has at most 100
    characters. *)
Theorem list_reports_truncates_descriptions
    self page_size page_number pages :
  match page_size with Some n => n <= 10 | None => True end ->
  paginate self page_size = Ok pages ->
  exists entries,
    list_reports_collect self page_size page_number = Ok entries
    /\ list_reports self page_size page_number
       = Ok (dumps (JList (map listed_json entries)))
    /\ Forall2 entry_of (selected_page pages page_number) entries.
Proof.
  intros Hsize Hpages.
  pose proof (list_reports_collect_selected self page_size page_number
                pages Hsize Hpages) as Hc.
  exists (map listed (selected_page pages page_number)).
  split; [exact Hc|]. split.
  - unfold list_reports. now rewrite Hc.
  - clear Hc. induction (selected_page pages page_number) as [|r l IH];
      cbn [map]; constructor; [apply listed_entry_of|exact IH].
Qed.

Lemma list_reports_truncates_descriptions_witness :
  exists entries,
    list_reports_collect
      (stub_service
         [[mkreport (lit "r-0") (lit "ISO 27001") 1 (lit "first page")];
          [mkreport (lit "r-1") (lit "SOC 2") 2 (repeat "a"%char 101);
           mkreport (lit "r-2") (lit "SOC 3") 1 (repeat "b"%char 100)]])
      (Some 5) (Some 2)
    = Ok entries
    /\ list_reports
         (stub_service
            [[mkreport (lit "r-0") (lit "ISO 27001") 1 (lit "first page")];
             [mkreport (lit "r-1") (lit "SOC 2") 2 (repeat "a"%char 101);
              mkreport (lit "r-2") (lit "SOC 3") 1
                (repeat "b"%char 100)]])
         (Some 5) (Some 2)
       = Ok (dumps (JList (map listed_json entries)))
    /\ Forall2 entry_of
         [mkreport (lit "r-1") (lit "SOC 2") 2 (repeat "a"%char 101);
          mkreport (lit "r-2") (lit "SOC 3") 1 (repeat "b"%char 100)]
         entries.
Proof.
  apply (list_reports_truncates_descriptions
           (stub_service
              [[mkreport (lit "r-0") (lit "ISO 27001") 1
                  (lit "first page")];
               [mkreport (lit "r-1") (lit "SOC 2") 2
                  (repeat "a"%char 101);
                mkreport (lit "r-2") (lit "SOC 3") 1
                  (repeat "b"%char 100)]])
           (Some 5) (Some 2)
           [[mkreport (lit "r-0") (lit "ISO 27001") 1
               (lit "first page")];
            [mkreport (lit "r-1") (lit "SOC 2") 2
               (repeat "a"%char 101);
             mkreport (lit "r-2") (lit "SOC 3") 1
               (repeat "b"%char 100)]]).
  - simpl. lia.
  - reflexivity.
Defined.

Lemma catalog_service_serves default catalog :
  serves (catalog_service default catalog) catalog.
Proof.
  split.
  - intros page_size Hps. cbn [catalog_service paginate].
    apply Z.leb_le in Hps. now rewrite Hps.
  - exists (pages_of (Pos.to_nat default) catalog). split; [reflexivity|].
    apply concat_pages_of. lia.
Qed.

Lemma list_reports_returns_page_witness :
  list_reports
    (catalog_service 50
       [mkreport (lit "a") (lit "A") 1 (lit "first");
        mkreport (lit "b") (lit "B") 2 (lit "second");
        mkreport (lit "c") (lit "C") 3 (lit "third")])
    (Some 2) (Some 3)
  = Ok (lit "[]").
Proof.
  destruct (list_reports_returns_page _ _ 2 3
              (catalog_service_serves 50
                 [mkreport (lit "a") (lit "A") 1 (lit "first");
                  mkreport (lit "b") (lit "B") 2 (lit "second");
                  mkreport (lit "c") (lit "C") 3 (lit "third")])
              ltac:(lia) ltac:(lia))
    as [(reports & _ & _ & _ & Hpast) _].
  apply Hpast. vm_compute. reflexivity.
Defined.

(** C10.  [get_total_report_pages] only checks the upper bound of the
    page size: above 15 it raises [ValueError]; with page size 0 the
    guard lets the call through and, once the paginator has yielded its
    pages, the division raises [ZeroDivisionError]; with a page size
    from 1 to 15 the result is the ceiling of the number of reports
    divided by the page size. *)
Theorem get_total_report_pages_guards_upper_bound_only self :
  (forall page_size, 15 < page_size ->
     get_total_report_pages self (Some page_size) = Raise ValueError)
  /\ (forall pages, paginate self (Some 0) = Ok pages ->
        get_total_report_pages self (Some 0) = Raise ZeroDivisionError)
  /\ (forall catalog page_size,
        serves self catalog -> 1 <= page_size <= 15 ->
        let total_reports := Z.of_nat (List.length catalog) in
        get_total_report_pages self (Some page_size)
        = Ok (ceil (Qmake total_reports (Z.to_pos page_size)))
        /\ ceil (Qmake total_reports (Z.to_pos page_size))
           = (total_reports + page_size - 1) / page_size
        /\ (ceil (Qmake total_reports (Z.to_pos page_size)) - 1)
           * page_size < total_reports
           <= ceil (Qmake total_reports (Z.to_pos page_size)) * page_size).
Proof.
  split; [|split].
  - intros page_size H. unfold get_total_report_pages. cbv zeta.
    apply Z.ltb_lt in H. now rewrite H.
  - intros pages H. unfold get_total_report_pages. cbv zeta.
    cbn [Z.ltb Z.compare bind]. rewrite H. reflexivity.
  - intros catalog page_size [Hserve _] Hps total_reports.
    rewrite (ceil_quotient total_reports page_size) by lia.
    split; [|split; [reflexivity|]].
    + unfold get_total_report_pages. cbv zeta.
      replace (15 <? page_size) with false
        by (symmetry; apply Z.ltb_ge; lia).
      cbn [bind]. rewrite Hserve by lia. cbn [bind].
      rewrite sum_lengths_concat, concat_pages_of by lia.
      unfold truediv.
      replace (page_size =? 0) with false
        by (symmetry; apply Z.eqb_neq; lia).
      replace (0 <? page_size) with true
        by (symmetry; apply Z.ltb_lt; lia).
      cbn [bind]. fold total_reports.
      now rewrite ceil_quotient by lia.
    + Z.div_mod_to_equations. nia.
Qed.

Lemma get_total_report_pages_guards_upper_bound_only_witness :
  get_total_report_pages
    (stub_service [[mkreport (lit "a") (lit "A") 1 (lit "first")]])
    (Some 0)
  = Raise ZeroDivisionError
  /\ get_total_report_pages
       (catalog_service 50
          [mkreport (lit "a") (lit "A") 1 (lit "first");
           mkreport (lit "b") (lit "B") 2 (lit "second");
           mkreport (lit "c") (lit "C") 3 (lit "third")])
       (Some 2)
     = Ok 2.
Proof.
  split.
  - apply (proj1 (proj2 (get_total_report_pages_guards_upper_bound_only
                           (stub_service
                              [[mkreport (lit "a") (lit "A") 1
                                  (lit "first")]])))
             [[mkreport (lit "a") (lit "A") 1 (lit "first")]]).
    reflexivity.
  - apply (proj2 (proj2 (get_total_report_pages_guards_upper_bound_only
                           (catalog_service 50
                              [mkreport (lit "a") (lit "A") 1 (lit "first");
                               mkreport (lit "b") (lit "B") 2 (lit "second");
                               mkreport (lit "c") (lit "C") 3 (lit "third")])))
             _ 2 (catalog_service_serves _ _) ltac:(lia)).
Defined.
End Pagination.

Section Ranking.
Import ArtifactUtils SearchSpec.

Lemma insert_desc_perm x l : Permutation (insert_desc x l) (x :: l).
Proof.
  induction l as [|y l IH]; [reflexivity|]. cbn [insert_desc].
  destruct (match_count x <? match_count y); [|reflexivity].
  rewrite IH. apply perm_swap.
Qed.

Lemma sort_desc_perm l : Permutation (sort_desc l) l.
Proof.
  induction l as [|x l IH]; [reflexivity|]. cbn [sort_desc fold_right].
  fold (sort_desc l). rewrite insert_desc_perm. now constructor.
Qed.

Lemma insert_desc_sorted x l :
  StronglySorted ranked l -> StronglySorted ranked (insert_desc x l).
Proof.
  induction 1 as [|y l Hs IH Hy]; cbn [insert_desc].
  - repeat constructor.
  - destruct (match_count x <? match_count y) eqn:E.
    + apply Z.ltb_lt in E. constructor; [exact IH|].
      rewrite insert_desc_perm. constructor; [unfold ranked; lia|exact Hy].
    + apply Z.ltb_ge in E. constructor; [now constructor|].
      constructor; [exact E|].
      eapply Forall_impl; [|exact Hy]. unfold ranked. intros; lia.
Qed.

Lemma sort_desc_sorted l : StronglySorted ranked (sort_desc l).
Proof.
  induction l as [|x l IH]; [constructor|].
  cbn [sort_desc fold_right]. now apply insert_desc_sorted.
Qed.

Lemma collect_matching_reports words l :
  map report_of (collect_matching words l)
  = filter (fun r => match matching_of words r with
                     | Some _ => true
                     | None => false
                     end) l.
Proof.
  induction l as [|r l IH]; [reflexivity|]. cbn [collect_matching filter].
  destruct (matching_of words r) as [e|] eqn:E; [|exact IH].
  cbn [map]. rewrite IH. f_equal.
  unfold matching_of in E. cbv zeta in E.
  destruct (0 <? _); [|discriminate]. injection E as <-.
  now destruct r.
Qed.

End Ranking.

Section Occurrences.
Import ArtifactUtils SearchSpec.























End Occurrences.

Section SearchReports.
Import Json ArtifactUtils SearchSpec.











(** The count can depend on the order in which the set of search
    words is iterated: with the keywords [a-b], [a] and [b], the text
    [a-b] gives one match when [a-b] is tried first and two when it is
    tried last. *)
Lemma count_matches_order_dependent :
  count_matches [lit "a-b"; lit "a"; lit "b"] (lit "a-b") = 1
  /\ count_matches [lit "a"; lit "b"; lit "a-b"] (lit "a-b") = 2.
Proof. split; reflexivity. Qed.



Lemma iterates_set_nodup : iterates_set (nodup str_eq_dec).
Proof. intros words. reflexivity. Qed.

End SearchReports.

Section Weather.
Import WeatherForecast.

Lemma between_inside lo hi f :
  int_le_float lo f && float_le_int f hi = true <-> inside lo hi f.
Proof.
  unfold int_le_float, float_le_int, inside, float_cmp_int.
  destruct f as [|[|]|m e]; cbn [float_value].
  - split; [discriminate|]. intros (q & Hq & _). discriminate.
  - split; [discriminate|]. intros (q & Hq & _). discriminate.
  - split; [discriminate|]. intros (q & Hq & _). discriminate.
  - rewrite andb_true_iff. split.
    + intros [Hlo Hhi]. exists (dyadic m e). split; [reflexivity|]. split.
      * apply Qle_alt. rewrite <- Qcompare_antisym.
        destruct (dyadic m e ?= inject_Z lo)%Q; cbn; congruence.
      * apply Qle_alt.
        destruct (dyadic m e ?= inject_Z hi)%Q; congruence.
    + intros (q & [= <-] & Hlo & Hhi).
      apply (proj1 (Qle_alt _ _)) in Hlo.
      apply (proj1 (Qle_alt _ _)) in Hhi.
      rewrite <- Qcompare_antisym in Hlo.
      destruct (dyadic m e ?= inject_Z lo)%Q;
        destruct (dyadic m e ?= inject_Z hi)%Q; cbn in *;
        split; congruence.
Qed.

(** C7.  Constructing [WeatherForecast(latitude, longitude)] raises if
    and only if the latitude is not a number of [[-90, 90]] or the
    longitude is not a number of [[-180, 180]] (a not-a-number and the
    infinities are outside); for every pair in range the construction
    succeeds and stores the two values as given. *)
Theorem init_validates_coordinates latitude longitude :
  ((exists e, init latitude longitude = Raise e) <->
   ~ inside (-90) 90 latitude \/ ~ inside (-180) 180 longitude)
  /\ (inside (-90) 90 latitude -> inside (-180) 180 longitude ->
      exists self,
        init latitude longitude = Ok self
        /\ WeatherForecast.latitude self = latitude
        /\ WeatherForecast.longitude self = longitude).
Proof.
  pose proof (between_inside (-90) 90 latitude) as Hlat.
  pose proof (between_inside (-180) 180 longitude) as Hlon.
  unfold init.
  destruct (int_le_float (-90) latitude && float_le_int latitude 90);
    destruct (int_le_float (-180) longitude
              && float_le_int longitude 180); cbn [negb orb].
  - split.
    + split; [intros [e He]; discriminate|].
      intros [H|H]; exfalso; apply H; [apply Hlat|apply Hlon]; reflexivity.
    + intros _ _. eexists. repeat split.
  - split.
    + split; [|intros _; now eexists].
      intros _. right. intros H. apply Hlon in H. discriminate.
    + intros _ H. apply Hlon in H. discriminate.
  - split.
    + split; [|intros _; now eexists].
      intros _. left. intros H. apply Hlat in H. discriminate.
    + intros H _. apply Hlat in H. discriminate.
  - split.
    + split; [|intros _; now eexists].
      intros _. left. intros H. apply Hlat in H. discriminate.
    + intros H _. apply Hlat in H. discriminate.
Qed.

Lemma init_validates_coordinates_witness :
  exists self,
    init (FFin 761 (-4)) (FFin (-1957) (-4)) = Ok self
    /\ latitude self = FFin 761 (-4)
    /\ longitude self = FFin (-1957) (-4).
Proof.
  apply (proj2 (init_validates_coordinates (FFin 761 (-4))
                  (FFin (-1957) (-4)))).
  - exists (dyadic 761 (-4)). split; [reflexivity|].
    split; apply Qle_bool_imp_le; reflexivity.
  - exists (dyadic (-1957) (-4)). split; [reflexivity|].
    split; apply Qle_bool_imp_le; reflexivity.
Defined.

Lemma get_periods_well_formed json_data periods num_periods :
  well_formed json_data periods ->
  get_periods json_data num_periods
  = match num_periods with
    | PNone => Ok (PList periods)
    | _ =>
        match as_int num_periods with
        | Some n =>
            if n <? 0 then Raise PlainException
            else Ok (PList (slice_to n periods))
        | None => Raise PlainException
        end
    end.
Proof.
  intros (items & properties & -> & Hprops & Hperiods).
  unfold get_periods. cbn [is_dict negb get].
  rewrite Hprops. cbn [bind get]. rewrite Hperiods. cbn [bind].
  reflexivity.
Qed.

(** C6.  On a forecast document that carries a list of periods,
    [get_forecast] returns the first [min(num_periods, length)] periods
    in their order for an integer [num_periods >= 0], the whole list
    for [None], and raises for a negative [num_periods] and for one
    that is not an integer. *)
Theorem get_forecast_returns_first_periods
    fetch_forecast_data self json_data periods :
  fetch_forecast_data self = Ok json_data ->
  well_formed json_data periods ->
  (forall n, 0 <= n ->
     get_forecast fetch_forecast_data self (PInt n)
     = Ok (PList (firstn (Z.to_nat n) periods))
     /\ List.length (firstn (Z.to_nat n) periods)
        = Nat.min (Z.to_nat n) (List.length periods))
  /\ get_forecast fetch_forecast_data self PNone = Ok (PList periods)
  /\ (forall n, n < 0 ->
        exists e, get_forecast fetch_forecast_data self (PInt n) = Raise e)
  /\ (forall v, v <> PNone -> as_int v = None ->
        exists e, get_forecast fetch_forecast_data self v = Raise e).
Proof.
  intros Hfetch Hwf.
  assert (Hget : forall v,
             get_forecast fetch_forecast_data self v
             = get_periods json_data v).
  { intros v. unfold get_forecast. now rewrite Hfetch. }
  split; [|split; [|split]].
  - intros n Hn. split; [|apply length_firstn].
    rewrite Hget, (get_periods_well_formed _ _ _ Hwf). cbn [as_int].
    replace (n <? 0) with false by (symmetry; apply Z.ltb_ge; lia).
    unfold slice_to. apply Z.leb_le in Hn. now rewrite Hn.
  - now rewrite Hget, (get_periods_well_formed _ _ _ Hwf).
  - intros n Hn. exists PlainException.
    rewrite Hget, (get_periods_well_formed _ _ _ Hwf). cbn [as_int].
    apply Z.ltb_lt in Hn. now rewrite Hn.
  - intros v Hv Hint. exists PlainException.
    rewrite Hget, (get_periods_well_formed _ _ _ Hwf). rewrite Hint.
    destruct v; try reflexivity. contradiction.
Qed.

Lemma get_forecast_returns_first_periods_witness :
  get_forecast
    (fun _ =>
       Ok (PDict
             [(lit "properties",
               PDict [(lit "periods",
                       PList [PStr (lit "Tonight"); PStr (lit "Friday");
                              PStr (lit "Friday Night")])])]))
    (mk (FFin 761 (-4)) (FFin (-1957) (-4))) (PInt 2)
  = Ok (PList [PStr (lit "Tonight"); PStr (lit "Friday")]).
Proof.
  apply (proj1 (get_forecast_returns_first_periods
                  (fun _ =>
                     Ok (PDict
                           [(lit "properties",
                             PDict [(lit "periods",
                                     PList [PStr (lit "Tonight");
                                            PStr (lit "Friday");
                                            PStr (lit "Friday Night")])])]))
                  (mk (FFin 761 (-4)) (FFin (-1957) (-4))) _
                  [PStr (lit "Tonight"); PStr (lit "Friday");
                   PStr (lit "Friday Night")]
                  eq_refl
                  (ex_intro _ _ (ex_intro _ _
                     (conj eq_refl (conj eq_refl eq_refl)))))
           2 ltac:(lia)).
Defined.
End Weather.

Section PolicyDeadline.
Import PyDatetime DateTimeHandler.

(** Neither class orders a dictionary against a [datetime]. *)
Lemma dict_ge_datetime items t :
  py_ge (Dict items) (Datetime t) = Raise TypeError.
Proof. reflexivity. Qed.

(** C9.  Whatever the policy name, once the expiry date parses,
    [check_policy_deadline] raises [TypeError]: it compares the
    dictionary of [get_date_time] with a [datetime] by [>=].  No call
    returns either message. *)
Theorem check_policy_deadline_raises_type_error
    strptime utc_now tzname policy_name expiry_date :
  (forall expiry_datetime,
      strptime expiry_date expiry_format = Ok expiry_datetime ->
      check_policy_deadline strptime utc_now tzname policy_name
        expiry_date
      = Raise TypeError)
  /\ (forall r,
         check_policy_deadline strptime utc_now tzname policy_name
           expiry_date
         <> Ok r).
Proof.
  unfold check_policy_deadline. cbv zeta. split.
  - intros expiry_datetime ->. cbn [bind].
    now rewrite dict_ge_datetime.
  - intros r. destruct (strptime expiry_date expiry_format);
      cbn [bind]; [rewrite dict_ge_datetime|]; discriminate.
Qed.

Lemma check_policy_deadline_raises_type_error_witness :
  check_policy_deadline strptime_fixed
    (mkdatetime (mkdate 2026 5 1) 9 30 0 0) (Some (lit "UTC"))
    (lit "Investment") (lit "2022-01-01 00:00:00")
  = Raise TypeError.
Proof.
  apply (proj1 (check_policy_deadline_raises_type_error strptime_fixed
                  (mkdatetime (mkdate 2026 5 1) 9 30 0 0)
                  (Some (lit "UTC")) (lit "Investment")
                  (lit "2022-01-01 00:00:00"))
           (mkdatetime (mkdate 2022 1 1) 0 0 0 0)).
  vm_compute. reflexivity.
Defined.
End PolicyDeadline.

(** * Further properties of the date and time utilities *)

Section DateDiff.
Import PyDatetime DateSpec DateTimeUtils BusinessDateTimeUtils OrdinalSpec.

Lemma date_diff_midnight a b :
  date_diff (at_midnight a) (at_midnight b) = toordinal b - toordinal a.
Proof.
  unfold date_diff, datetime_sub, new_timedelta, US_PER_DAY; simpl.
  Z.div_mod_to_equations. lia.
Qed.

Lemma date_lt_spec a b :
  valid_date a = true -> valid_date b = true ->
  date_lt a b = true <-> toordinal a < toordinal b.
Proof.
  intros Ha Hb. unfold date_lt. rewrite toordinal_cmp by assumption.
  destruct (Z.compare_spec (toordinal a) (toordinal b));
    split; intros; try reflexivity; try discriminate; lia.
Qed.

Lemma toordinal_inj a b :
  valid_date a = true -> valid_date b = true ->
  toordinal a = toordinal b -> a = b.
Proof.
  intros Ha Hb E. rewrite <- (fromordinal_toordinal a Ha),
    <- (fromordinal_toordinal b Hb). now rewrite E.
Qed.

(** X1.  Between two dates, [date_diff] is the number of days from the
    first to the second: it changes sign when the dates are swapped,
    adds up over a date in between, is 0 only for equal dates and
    positive only for a later end, and adding it to the start date
    gives the end date back. *)
Theorem date_diff_between_dates a b c :
  valid_date a = true -> valid_date b = true -> valid_date c = true ->
  date_diff (at_midnight a) (at_midnight b)
  = - date_diff (at_midnight b) (at_midnight a)
  /\ date_diff (at_midnight a) (at_midnight c)
     = date_diff (at_midnight a) (at_midnight b)
       + date_diff (at_midnight b) (at_midnight c)
  /\ (date_diff (at_midnight a) (at_midnight b) = 0 <-> a = b)
  /\ (0 < date_diff (at_midnight a) (at_midnight b)
      <-> date_lt a b = true)
  /\ date_add_days a (date_diff (at_midnight a) (at_midnight b)) = Ok b.
Proof.
  intros Ha Hb Hc. rewrite !date_diff_midnight.
  pose proof (toordinal_bounds a Ha) as Hba.
  pose proof (toordinal_bounds b Hb) as Hbb.
  split; [lia|]. split; [lia|]. split; [|split].
  - split; [intros E; apply toordinal_inj; trivial; lia|intros ->; lia].
  - rewrite date_lt_spec by assumption. lia.
  - unfold date_add_days.
    replace (toordinal a + (toordinal b - toordinal a))
      with (toordinal b) by lia.
    replace ((0 <? toordinal b) && (toordinal b <=? MAXORDINAL))
      with true
      by (symmetry; apply andb_true_iff; split;
          [apply Z.ltb_lt | apply Z.leb_le]; lia).
    now rewrite fromordinal_toordinal.
Qed.

Lemma date_diff_between_dates_witness :
  date_add_days (mkdate 2024 2 28)
    (date_diff (at_midnight (mkdate 2024 2 28))
       (at_midnight (mkdate 2024 3 1)))
  = Ok (mkdate 2024 3 1).
Proof.
  apply (date_diff_between_dates (mkdate 2024 2 28) (mkdate 2024 3 1)
           (mkdate 2024 3 1) eq_refl eq_refl eq_refl).
Defined.

Lemma time_of_day_range t :
  valid_time t = true -> 0 <= time_of_day t < US_PER_DAY.
Proof.
  unfold valid_time, time_of_day, US_PER_DAY.
  rewrite !andb_true_iff, !in_range_spec. lia.
Qed.

(** X2.  On datetimes, [date_diff] counts whole days and rounds
    towards minus infinity: it is the difference of the day numbers,
    less one when the end's time of day is earlier than the start's.
    So swapping the arguments changes the sign only when the two times
    of day are equal; otherwise the two results add up to -1. *)
Theorem date_diff_rounds_down a b :
  valid_time a = true -> valid_time b = true ->
  date_diff a b
  = toordinal (dt_date b) - toordinal (dt_date a)
    - (if time_of_day b <? time_of_day a then 1 else 0)
  /\ date_diff a b + date_diff b a
     = (if time_of_day a =? time_of_day b then 0 else -1).
Proof.
  intros Ha Hb.
  pose proof (time_of_day_range a Ha) as Ra.
  pose proof (time_of_day_range b Hb) as Rb.
  assert (Hgen : forall x y,
             0 <= time_of_day x < US_PER_DAY ->
             0 <= time_of_day y < US_PER_DAY ->
             date_diff x y
             = toordinal (dt_date y) - toordinal (dt_date x)
               - (if time_of_day y <? time_of_day x then 1 else 0)).
  { intros x y Rx Ry.
    unfold date_diff, datetime_sub, new_timedelta; cbn [td_days].
    unfold time_of_day, US_PER_DAY in *.
    destruct (_ <? _) eqn:E;
      [apply Z.ltb_lt in E | apply Z.ltb_ge in E];
      Z.div_mod_to_equations; lia. }
  split; [now apply Hgen|].
  rewrite (Hgen a b Ra Rb), (Hgen b a Rb Ra).
  destruct (time_of_day b <? time_of_day a) eqn:E1;
    destruct (time_of_day a <? time_of_day b) eqn:E2;
    destruct (time_of_day a =? time_of_day b) eqn:E3;
    rewrite ?Z.ltb_lt, ?Z.ltb_ge, ?Z.eqb_eq, ?Z.eqb_neq in *; lia.
Qed.

Lemma date_diff_rounds_down_witness :
  date_diff (mkdatetime (mkdate 2026 5 1) 10 0 0 0)
    (mkdatetime (mkdate 2026 5 1) 9 0 0 0)
  = -1.
Proof.
  exact (proj1 (date_diff_rounds_down
                  (mkdatetime (mkdate 2026 5 1) 10 0 0 0)
                  (mkdatetime (mkdate 2026 5 1) 9 0 0 0)
                  eq_refl eq_refl)).
Defined.
End DateDiff.

Section BusinessDaySpans.
Import PyDatetime DateSpec DateTimeUtils BusinessDateTimeUtils OrdinalSpec.

Lemma zrange_app lo a b :
  zrange lo (a + b) = zrange lo a ++ zrange (lo + Z.of_nat a) b.
Proof.
  revert lo. induction a as [|a IH]; intros lo.
  - cbn [zrange Nat.add app]. f_equal. lia.
  - cbn [zrange Nat.add app]. rewrite IH. do 3 f_equal. lia.
Qed.

Lemma count_weekdays_app lo a b :
  count_weekdays lo (a + b)
  = (count_weekdays lo a + count_weekdays (lo + Z.of_nat a) b)%nat.
Proof.
  unfold count_weekdays. now rewrite zrange_app, filter_app, length_app.
Qed.

Lemma length_zrange lo len : List.length (zrange lo len) = len.
Proof.
  revert lo. induction len as [|len IH]; intros lo; [reflexivity|].
  cbn [zrange List.length]. now rewrite IH.
Qed.

Lemma count_weekdays_le lo len : (count_weekdays lo len <= len)%nat.
Proof.
  unfold count_weekdays.
  rewrite <- (length_zrange lo len) at 2. apply filter_length_le.
Qed.

(** Seven days in a row hold five days from Monday to Friday. *)
Lemma count_weekdays_week lo : count_weekdays lo 7 = 5%nat.
Proof.
  unfold count_weekdays. cbn [zrange filter]. unfold weekday_number.
  assert (H : lo mod 7 = 0 \/ lo mod 7 = 1 \/ lo mod 7 = 2 \/ lo mod 7 = 3
              \/ lo mod 7 = 4 \/ lo mod 7 = 5 \/ lo mod 7 = 6)
    by (Z.div_mod_to_equations; lia).
  repeat match goal with
         | |- context [?x mod 7 <? 5] =>
             let E := fresh "E" in
             destruct (x mod 7 <? 5) eqn:E;
             [apply Z.ltb_lt in E | apply Z.ltb_ge in E]
         end;
    try reflexivity; exfalso; Z.div_mod_to_equations; lia.
Qed.

Lemma count_weekdays_weeks lo k :
  count_weekdays lo (7 * k) = (5 * k)%nat.
Proof.
  revert lo. induction k as [|k IH]; intros lo; [reflexivity|].
  replace (7 * S k)%nat with (7 + 7 * k)%nat by lia.
  rewrite count_weekdays_app, count_weekdays_week, IH. lia.
Qed.

Lemma monday_to_friday_number n :
  1 <= n <= MAXORDINAL ->
  monday_to_friday (fromordinal n) = weekday_number n.
Proof.
  intros Hn. rewrite <- is_business_day_monday_to_friday.
  unfold is_business_day, weekday_number, weekday, fromordinal.
  destruct (ord2ymd_spec n Hn) as [_ ->]. cbv zeta.
  replace (0 <=? (n + 6) mod 7) with true
    by (symmetry; apply Z.leb_le; Z.div_mod_to_equations; lia).
  cbn [andb].
  destruct ((n + 6) mod 7 <=? 4) eqn:E1; destruct ((n + 6) mod 7 <? 5) eqn:E2;
    rewrite ?Z.leb_le, ?Z.leb_gt, ?Z.ltb_lt, ?Z.ltb_ge in *;
    try reflexivity; lia.
Qed.

Lemma count_business_days_numbers a b :
  valid_date a = true -> valid_date b = true ->
  count_business_days a b
  = Z.of_nat (count_weekdays (toordinal a)
                (Z.to_nat (toordinal b - toordinal a))).
Proof.
  intros Ha Hb. unfold count_business_days, days_between, count_weekdays.
  pose proof (toordinal_bounds a Ha) as Hba.
  pose proof (toordinal_bounds b Hb) as Hbb.
  f_equal.
  set (len := Z.to_nat (toordinal b - toordinal a)).
  assert (Hrange : forall n, In n (zrange (toordinal a) len) ->
                             1 <= n <= MAXORDINAL).
  { intros n Hin. apply in_zrange in Hin. lia. }
  clearbody len. revert Hrange.
  generalize (toordinal a) as lo.
  induction len as [|len IH]; intros lo Hrange; [reflexivity|].
  cbn [zrange map filter].
  rewrite monday_to_friday_number by (apply Hrange; now left).
  destruct (weekday_number lo); cbn [List.length];
    rewrite IH; try reflexivity;
    intros n Hin; apply Hrange; now right.
Qed.

(** What [calculate_business_days] returns on two dates. *)
Lemma calculate_business_days_value a b fuel :
  valid_date a = true -> valid_date b = true ->
  (Z.to_nat (toordinal b - toordinal a) < fuel)%nat ->
  calculate_business_days fuel (at_midnight a) (at_midnight b)
  = Some (Ok (count_business_days a b)).
Proof.
  intros Ha Hb Hf. unfold calculate_business_days.
  destruct (business_loop b _ Hb a 0 fuel Ha eq_refl Hf) as [last Hl].
  cbv zeta in Hl |- *. rewrite Hl. reflexivity.
Qed.

(** X3.  The number of business days between two dates is never
    negative and never more than the days between them as [date_diff]
    gives them; and when the dates are a whole number of weeks apart
    it is five for every week. *)
Theorem business_days_within_date_diff a b fuel :
  valid_date a = true -> valid_date b = true ->
  (Z.to_nat (toordinal b - toordinal a) < fuel)%nat ->
  exists n,
    calculate_business_days fuel (at_midnight a) (at_midnight b)
    = Some (Ok n)
    /\ 0 <= n <= Z.max 0 (date_diff (at_midnight a) (at_midnight b))
    /\ (forall k, 0 <= k ->
          date_diff (at_midnight a) (at_midnight b) = 7 * k ->
          n = 5 * k).
Proof.
  intros Ha Hb Hf. exists (count_business_days a b).
  split; [now apply calculate_business_days_value|].
  rewrite count_business_days_numbers, date_diff_midnight by assumption.
  split.
  - pose proof (count_weekdays_le (toordinal a)
                  (Z.to_nat (toordinal b - toordinal a))).
    lia.
  - intros k Hk E. rewrite E.
    replace (Z.to_nat (7 * k)) with (7 * Z.to_nat k)%nat by lia.
    rewrite count_weekdays_weeks. lia.
Qed.

Lemma business_days_within_date_diff_witness :
  exists n,
    calculate_business_days 30 (at_midnight (mkdate 2026 5 3))
      (at_midnight (mkdate 2026 5 24))
    = Some (Ok n)
    /\ 0 <= n <= Z.max 0 (date_diff (at_midnight (mkdate 2026 5 3))
                           (at_midnight (mkdate 2026 5 24)))
    /\ (forall k, 0 <= k ->
          date_diff (at_midnight (mkdate 2026 5 3))
            (at_midnight (mkdate 2026 5 24)) = 7 * k ->
          n = 5 * k).
Proof.
  apply (business_days_within_date_diff (mkdate 2026 5 3)
           (mkdate 2026 5 24) 30 eq_refl eq_refl).
  vm_compute. lia.
Defined.

(** X4.  Business days add up over a date in between: for
    [a <= b <= c] the count from [a] to [c] is the count from [a] to
    [b] plus the count from [b] to [c]. *)
Theorem business_days_add_up a b c fuel :
  valid_date a = true -> valid_date b = true -> valid_date c = true ->
  date_le a b = true -> date_le b c = true ->
  (Z.to_nat (toordinal c - toordinal a) < fuel)%nat ->
  exists n1 n2,
    calculate_business_days fuel (at_midnight a) (at_midnight b)
    = Some (Ok n1)
    /\ calculate_business_days fuel (at_midnight b) (at_midnight c)
       = Some (Ok n2)
    /\ calculate_business_days fuel (at_midnight a) (at_midnight c)
       = Some (Ok (n1 + n2)).
Proof.
  intros Ha Hb Hc Hab Hbc Hf.
  apply date_le_spec in Hab; [|assumption..].
  apply date_le_spec in Hbc; [|assumption..].
  exists (count_business_days a b), (count_business_days b c).
  rewrite !calculate_business_days_value by (assumption || lia).
  split; [reflexivity|]. split; [reflexivity|].
  do 2 f_equal. rewrite !count_business_days_numbers by assumption.
  replace (Z.to_nat (toordinal c - toordinal a))
    with (Z.to_nat (toordinal b - toordinal a)
          + Z.to_nat (toordinal c - toordinal b))%nat by lia.
  rewrite count_weekdays_app.
  replace (toordinal a + Z.of_nat (Z.to_nat (toordinal b - toordinal a)))
    with (toordinal b) by lia.
  lia.
Qed.

Lemma business_days_add_up_witness :
  exists n1 n2,
    calculate_business_days 40 (at_midnight (mkdate 2026 5 1))
      (at_midnight (mkdate 2026 5 15))
    = Some (Ok n1)
    /\ calculate_business_days 40 (at_midnight (mkdate 2026 5 15))
         (at_midnight (mkdate 2026 6 1))
       = Some (Ok n2)
    /\ calculate_business_days 40 (at_midnight (mkdate 2026 5 1))
         (at_midnight (mkdate 2026 6 1))
       = Some (Ok (n1 + n2)).
Proof.
  apply (business_days_add_up (mkdate 2026 5 1) (mkdate 2026 5 15)
           (mkdate 2026 6 1) 40 eq_refl eq_refl eq_refl eq_refl eq_refl).
  vm_compute. lia.
Defined.
End BusinessDaySpans.

Section Age.
Import PyDatetime DateTimeUtils.

Lemma tuple3_lt a b c x y z :
  tuple_cmp [a; b; c] [x; y; z] = Lt <->
  a < x \/ (a = x /\ (b < y \/ (b = y /\ c < z))).
Proof.
  cbn [tuple_cmp].
  destruct (Z.compare_spec a x); destruct (Z.compare_spec b y);
    destruct (Z.compare_spec c z);
    split; intros; try discriminate; try reflexivity; lia.
Qed.

Lemma tuple3_le a b c x y z :
  tuple_cmp [a; b; c] [x; y; z] <> Gt <->
  a < x \/ (a = x /\ (b < y \/ (b = y /\ c <= z))).
Proof.
  cbn [tuple_cmp].
  destruct (Z.compare_spec a x); destruct (Z.compare_spec b y);
    destruct (Z.compare_spec c z);
    split; intros; try discriminate; try congruence; lia.
Qed.

Lemma tuple2_lt b c y z :
  tuple_lt [b; c] [y; z] = true <-> b < y \/ (b = y /\ c < z).
Proof.
  unfold tuple_lt. cbn [tuple_cmp].
  destruct (Z.compare_spec b y); destruct (Z.compare_spec c z);
    split; intros; try discriminate; try reflexivity; lia.
Qed.

Lemma date_le_not_gt a b :
  date_le a b = true <-> tuple_cmp (date_fields a) (date_fields b) <> Gt.
Proof.
  unfold date_le, date_cmp. destruct (tuple_cmp _ _);
    split; intros; try reflexivity; try discriminate; congruence.
Qed.

(** X5.  [calculate_age] is the number of birthdays reached: the
    birthday (month and day of birth) of the year [age] years after
    the birth year is not after today, the next one is, and no other
    number has the two properties.  The age is non-negative exactly
    when the birth date is not after today. *)
Theorem calculate_age_counts_birthdays today birth_date :
  let age := calculate_age today birth_date in
  let birthday k := [year birth_date + k; month birth_date;
                     day birth_date] in
  tuple_cmp (birthday age) (date_fields today) <> Gt
  /\ tuple_cmp (date_fields today) (birthday (age + 1)) = Lt
  /\ (forall k,
        tuple_cmp (birthday k) (date_fields today) <> Gt ->
        tuple_cmp (date_fields today) (birthday (k + 1)) = Lt ->
        k = age)
  /\ (0 <= age <-> date_le birth_date today = true).
Proof.
  cbv zeta. unfold calculate_age, date_fields.
  pose proof (tuple2_lt (month today) (day today) (month birth_date)
                (day birth_date)) as Hflag.
  destruct (tuple_lt _ _).
  - assert (Hlt : month today < month birth_date
                  \/ (month today = month birth_date
                      /\ day today < day birth_date))
      by now apply Hflag.
    clear Hflag. split; [|split; [|split]].
    + apply tuple3_le. lia.
    + apply tuple3_lt. lia.
    + intros k H1 H2. apply tuple3_le in H1. apply tuple3_lt in H2. lia.
    + rewrite date_le_not_gt. unfold date_fields. rewrite tuple3_le. lia.
  - assert (Hge : ~ (month today < month birth_date
                     \/ (month today = month birth_date
                         /\ day today < day birth_date))).
    { intros H. apply Hflag in H. discriminate. }
    clear Hflag. split; [|split; [|split]].
    + apply tuple3_le. lia.
    + apply tuple3_lt. lia.
    + intros k H1 H2. apply tuple3_le in H1. apply tuple3_lt in H2. lia.
    + rewrite date_le_not_gt. unfold date_fields. rewrite tuple3_le. lia.
Qed.

Lemma calculate_age_counts_birthdays_witness :
  26 = calculate_age (mkdate 2026 11 4) (mkdate 2000 2 29).
Proof.
  apply (proj1 (proj2 (proj2 (calculate_age_counts_birthdays
                                (mkdate 2026 11 4) (mkdate 2000 2 29))))).
  - discriminate.
  - reflexivity.
Defined.
End Age.

Section DateTimeInfoFacts.
Import PyDatetime DateTimeUtils DateTimeHandler DateTimeInfo.

Lemma two_digits_width n :
  0 <= n <= 99 -> List.length (two_digits n) = 2%nat.
Proof.
  intros Hn.
  assert (H : forallb (fun k => Nat.eqb (List.length
                                           (two_digits (Z.of_nat k))) 2)
                (seq 0 100) = true) by (vm_compute; reflexivity).
  rewrite forallb_forall in H. specialize (H (Z.to_nat n)).
  rewrite Z2Nat.id in H by lia. apply Nat.eqb_eq, H, in_seq. lia.
Qed.

Lemma year_width n :
  1000 <= n <= 9999 -> List.length (decimal n) = 4%nat.
Proof.
  intros Hn.
  assert (H : forallb (fun k => Nat.eqb (List.length (decimal k)) 4)
                (DateSpec.zrange 1000 (Z.to_nat 9000)) = true)
    by (vm_compute; reflexivity).
  rewrite forallb_forall in H. apply Nat.eqb_eq, H, in_zrange. lia.
Qed.

Lemma first_separator (a : str) c rest :
  List.length a = 2%nat -> nth_error (a ++ [c] ++ rest) 2 = Some c.
Proof.
  intros Ha. rewrite nth_error_app2 by lia. now rewrite Ha.
Qed.

Lemma second_separator (a b : str) c1 c2 rest :
  List.length a = 2%nat -> List.length b = 2%nat ->
  nth_error (a ++ [c1] ++ b ++ [c2] ++ rest) 5 = Some c2.
Proof.
  intros Ha Hb. rewrite nth_error_app2 by lia. rewrite Ha.
  change (nth_error ([c1] ++ b ++ [c2] ++ rest) (5 - 2))
    with (nth_error (b ++ [c2] ++ rest) 2).
  now apply first_separator.
Qed.

(** X6.  The dictionary of [get_date_time] always names the day: the
    entry under ["day"] is the name of the weekday and never [None],
    so the handler for [IndexError] cannot be reached.  The time zone
    is passed through; and for a clock reading from year 1000 on, the
    date has the ten characters of [mm/dd/YYYY] and the time the eight
    of [HH:MM:SS]. *)
Theorem get_date_time_names_the_day utc_now tzname :
  (exists day_name,
      info_get (lit "day") (get_date_time utc_now tzname)
      = Some (Some day_name)
      /\ nth_error days (Z.to_nat (weekday (dt_date utc_now)))
         = Some day_name)
  /\ info_get (lit "timezone") (get_date_time utc_now tzname)
     = Some tzname
  /\ (valid_date (dt_date utc_now) = true ->
      1000 <= year (dt_date utc_now) ->
      valid_time utc_now = true ->
      exists date_text time_text,
        info_get (lit "date") (get_date_time utc_now tzname)
        = Some (Some date_text)
        /\ List.length date_text = 10%nat
        /\ nth_error date_text 2 = Some "/"%char
        /\ nth_error date_text 5 = Some "/"%char
        /\ info_get (lit "time") (get_date_time utc_now tzname)
           = Some (Some time_text)
        /\ List.length time_text = 8%nat
        /\ nth_error time_text 2 = Some ":"%char
        /\ nth_error time_text 5 = Some ":"%char).
Proof.
  split; [|split; [reflexivity|]].
  - assert (Hw : 0 <= weekday (dt_date utc_now) <= 6).
    { unfold weekday. Z.div_mod_to_equations. lia. }
    destruct (nth_error days (Z.to_nat (weekday (dt_date utc_now))))
      as [day_name|] eqn:E.
    + exists day_name. split; [|reflexivity].
      unfold get_date_time. cbv zeta. rewrite E. reflexivity.
    + apply nth_error_None in E. cbn [days List.length] in E. lia.
  - intros Hd Hy Ht. apply valid_date_spec in Hd.
    destruct Hd as (Hyr & Hm & Hday).
    pose proof (days_in_month_pos (year (dt_date utc_now)) _ Hm) as Hdim.
    unfold valid_time in Ht. rewrite !andb_true_iff, !in_range_spec in Ht.
    destruct Ht as (((Hh & Hmi) & Hs) & _).
    pose proof (two_digits_width (month (dt_date utc_now)) ltac:(lia)) as W1.
    pose proof (two_digits_width (day (dt_date utc_now)) ltac:(lia)) as W2.
    pose proof (year_width (year (dt_date utc_now)) ltac:(lia)) as W3.
    pose proof (two_digits_width (hour utc_now) ltac:(lia)) as W4.
    pose proof (two_digits_width (minute utc_now) ltac:(lia)) as W5.
    pose proof (two_digits_width (second utc_now) ltac:(lia)) as W6.
    eexists. eexists. split; [reflexivity|].
    split; [rewrite !length_app, W1, W2, W3; reflexivity|].
    split; [now apply (first_separator _ "/"%char)|].
    split; [now apply (second_separator _ _ "/"%char "/"%char)|].
    split; [reflexivity|].
    split; [rewrite !length_app, W4, W5, W6; reflexivity|].
    split; [now apply (first_separator _ ":"%char)|].
    now apply (second_separator _ _ ":"%char ":"%char).
Qed.

Lemma get_date_time_names_the_day_witness :
  exists date_text time_text,
    info_get (lit "date")
      (get_date_time (mkdatetime (mkdate 2026 5 1) 9 5 0 0)
         (Some (lit "UTC")))
    = Some (Some date_text)
    /\ List.length date_text = 10%nat
    /\ nth_error date_text 2 = Some "/"%char
    /\ nth_error date_text 5 = Some "/"%char
    /\ info_get (lit "time")
         (get_date_time (mkdatetime (mkdate 2026 5 1) 9 5 0 0)
            (Some (lit "UTC")))
       = Some (Some time_text)
    /\ List.length time_text = 8%nat
    /\ nth_error time_text 2 = Some ":"%char
    /\ nth_error time_text 5 = Some ":"%char.
Proof.
  apply (proj2 (proj2 (get_date_time_names_the_day
                         (mkdatetime (mkdate 2026 5 1) 9 5 0 0)
                         (Some (lit "UTC")))));
    [reflexivity|cbn; lia|reflexivity].
Defined.
End DateTimeInfoFacts.

Section FiscalYearRanges.
Import PyDatetime DateSpec DateTimeUtils BusinessDateTimeUtils.

Lemma check_first_of_month y m :
  check_date_fields y m 1 = true <-> 1 <= y <= 9999 /\ 1 <= m <= 12.
Proof.
  split.
  - unfold check_date_fields, MINYEAR, MAXYEAR.
    rewrite !andb_true_iff, !in_range_spec. lia.
  - intros [Hy Hm]. now apply first_of_month_valid.
Qed.

(** The range of a representable fiscal year. *)
Lemma get_fiscal_year_range_value d m :
  1 <= m <= 12 -> 1 <= get_fiscal_year d m <= 9998 ->
  get_fiscal_year_range d m
  = Ok (mkdate (get_fiscal_year d m) m 1,
        fromordinal (toordinal (mkdate (get_fiscal_year d m + 1) m 1) - 1)).
Proof.
  intros Hm Hfy. unfold get_fiscal_year_range. cbv zeta.
  set (fy := get_fiscal_year d m) in *.
  rewrite !new_date_first_of_month by lia.
  cbn [bind]. unfold date_add_days.
  assert (Hv1 : valid_date (mkdate fy m 1) = true)
    by (apply (first_of_month_valid fy m); lia).
  assert (Hv2 : valid_date (mkdate (fy + 1) m 1) = true)
    by (apply (first_of_month_valid (fy + 1) m); lia).
  pose proof (toordinal_bounds _ Hv1) as Hb1.
  pose proof (toordinal_bounds _ Hv2) as Hb2.
  assert (Hlt : toordinal (mkdate fy m 1) < toordinal (mkdate (fy + 1) m 1)).
  { apply toordinal_lt; trivial. apply date_cmp_Lt.
    cbn [year month day]. lia. }
  change (toordinal (mkdate (fy + 1) m 1) + -1)
    with (toordinal (mkdate (fy + 1) m 1) - 1).
  replace ((0 <? toordinal (mkdate (fy + 1) m 1) - 1)
           && (toordinal (mkdate (fy + 1) m 1) - 1 <=? MAXORDINAL))
    with true
    by (symmetry; apply andb_true_iff; split;
        [apply Z.ltb_lt | apply Z.leb_le]; lia).
  reflexivity.
Qed.

Lemma fiscal_year_fits d m :
  valid_date d = true -> 0 <= get_fiscal_year d m <= 9999.
Proof.
  intros Hd. apply valid_date_spec in Hd. destruct Hd as (Hy & _ & _).
  unfold get_fiscal_year. destruct (month d <? m); lia.
Qed.

Lemma get_fiscal_year_range_raise d m :
  valid_date d = true -> - 2 ^ 31 <= m <= 2 ^ 31 - 1 ->
  ~ (1 <= m <= 12 /\ 1 <= get_fiscal_year d m <= 9998) ->
  get_fiscal_year_range d m = Raise ValueError.
Proof.
  intros Hd Hfit Hout. pose proof (fiscal_year_fits d m Hd) as Hfy.
  unfold get_fiscal_year_range. cbv zeta.
  set (fy := get_fiscal_year d m) in *. unfold new_date.
  replace (fits_int m) with true
    by (symmetry; apply fits_int_spec; lia).
  replace (fits_int fy) with true
    by (symmetry; apply fits_int_spec; lia).
  replace (fits_int (fy + 1)) with true
    by (symmetry; apply fits_int_spec; lia).
  cbn [andb fits_int].
  destruct (check_date_fields fy m 1) eqn:E1; [|reflexivity].
  destruct (check_date_fields (fy + 1) m 1) eqn:E2; [|reflexivity].
  apply check_first_of_month in E1, E2. exfalso. apply Hout. lia.
Qed.

Lemma get_fiscal_year_range_overflow d m :
  valid_date d = true -> m < - 2 ^ 31 \/ 2 ^ 31 - 1 < m ->
  get_fiscal_year_range d m = Raise OverflowError.
Proof.
  intros Hd Hfit. unfold get_fiscal_year_range. cbv zeta.
  unfold new_date.
  replace (fits_int m) with false; [now rewrite andb_false_r|].
  symmetry. apply not_true_is_false. intros E.
  apply fits_int_spec in E. lia.
Qed.

Lemma get_fiscal_year_range_ok d m range :
  get_fiscal_year_range d m = Ok range ->
  1 <= m <= 12 /\ 1 <= get_fiscal_year d m <= 9998.
Proof.
  unfold get_fiscal_year_range. cbv zeta.
  set (fy := get_fiscal_year d m). unfold new_date. intros Hr.
  destruct (fits_int fy && fits_int m && fits_int 1); [|discriminate].
  destruct (check_date_fields fy m 1) eqn:E1; [|discriminate].
  cbn [bind] in Hr.
  destruct (fits_int (fy + 1) && fits_int m && fits_int 1);
    [|discriminate].
  destruct (check_date_fields (fy + 1) m 1) eqn:E2; [|discriminate].
  apply check_first_of_month in E1, E2. lia.
Qed.

(** X7.  [get_fiscal_year_range] returns a range exactly when the
    start month is one of 1..12 and the fiscal year is one of
    1..9998.  In every other case it raises: [ValueError] when the
    month can be read as a C [int], and [OverflowError] when it
    cannot, since [date] converts its arguments before it checks
    them.  [get_fiscal_year] itself takes any month number: up to 1 it
    gives the calendar year of a date, and above 12 the year
    before. *)
Theorem get_fiscal_year_range_raises_outside d m :
  valid_date d = true ->
  ((exists range, get_fiscal_year_range d m = Ok range) <->
   1 <= m <= 12 /\ 1 <= get_fiscal_year d m <= 9998)
  /\ (- 2 ^ 31 <= m <= 2 ^ 31 - 1 ->
      ~ (1 <= m <= 12 /\ 1 <= get_fiscal_year d m <= 9998) ->
      get_fiscal_year_range d m = Raise ValueError)
  /\ (m < - 2 ^ 31 \/ 2 ^ 31 - 1 < m ->
      get_fiscal_year_range d m = Raise OverflowError)
  /\ (m <= 1 -> get_fiscal_year d m = year d)
  /\ (12 < m -> get_fiscal_year d m = year d - 1).
Proof.
  intros Hd.
  split; [|split; [now apply get_fiscal_year_range_raise|
                   split; [now apply get_fiscal_year_range_overflow|]]].
  - split.
    + intros [range Hr]. now apply (get_fiscal_year_range_ok d m range).
    + intros [Hm Hfy]. eexists.
      now apply get_fiscal_year_range_value.
  - apply valid_date_spec in Hd. destruct Hd as (Hy & Hmo & _).
    unfold get_fiscal_year. split; intros Hm.
    + replace (month d <? m) with false
        by (symmetry; apply Z.ltb_ge; lia).
      reflexivity.
    + replace (month d <? m) with true
        by (symmetry; apply Z.ltb_lt; lia).
      reflexivity.
Qed.

Lemma get_fiscal_year_range_raises_outside_witness :
  get_fiscal_year_range (mkdate 2026 5 1) 13 = Raise ValueError
  /\ get_fiscal_year_range (mkdate 2026 5 1) (2 ^ 31)
     = Raise OverflowError
  /\ get_fiscal_year (mkdate 2026 5 1) 13 = 2025.
Proof.
  destruct (get_fiscal_year_range_raises_outside (mkdate 2026 5 1) 13
              eq_refl) as (_ & Hraise & _ & _ & Hhigh).
  destruct (get_fiscal_year_range_raises_outside (mkdate 2026 5 1)
              (2 ^ 31) eq_refl) as (_ & _ & Hover & _).
  split; [apply Hraise; lia|]. split; [apply Hover; lia|].
  apply Hhigh; lia.
Defined.

Lemma in_fiscal_year d m fy :
  valid_date d = true -> 1 <= m <= 12 -> 1 <= fy <= 9998 ->
  toordinal (mkdate fy m 1) <= toordinal d
                            < toordinal (mkdate (fy + 1) m 1) ->
  get_fiscal_year d m = fy.
Proof.
  intros Hd Hm Hfy [Hlo Hhi].
  assert (Hv1 : valid_date (mkdate fy m 1) = true)
    by (apply (first_of_month_valid fy m); lia).
  assert (Hv2 : valid_date (mkdate (fy + 1) m 1) = true)
    by (apply (first_of_month_valid (fy + 1) m); lia).
  assert (Hnlt : date_cmp d (mkdate fy m 1) <> Lt).
  { rewrite toordinal_cmp by assumption. intros E.
    rewrite Z.compare_lt_iff in E. lia. }
  assert (Hlt : date_cmp d (mkdate (fy + 1) m 1) = Lt).
  { rewrite toordinal_cmp by assumption. now apply Z.compare_lt_iff. }
  rewrite date_cmp_Lt in Hnlt, Hlt. cbn [year month day] in *.
  apply valid_date_spec in Hd. destruct Hd as (_ & _ & Hday).
  unfold get_fiscal_year.
  destruct (month d <? m) eqn:E;
    [apply Z.ltb_lt in E | apply Z.ltb_ge in E]; lia.
Qed.

(** X8.  The fiscal-year ranges divide the dates: every date inside
    the range computed for a date has the same fiscal year and gets
    the same range. *)
Theorem fiscal_year_range_shared d d' m start_date end_date :
  valid_date d = true -> valid_date d' = true ->
  get_fiscal_year_range d m = Ok (start_date, end_date) ->
  date_le start_date d' = true -> date_le d' end_date = true ->
  get_fiscal_year d' m = get_fiscal_year d m
  /\ get_fiscal_year_range d' m = Ok (start_date, end_date).
Proof.
  intros Hd Hd' Hr Hlo Hhi.
  destruct (get_fiscal_year_range_ok d m _ Hr) as [Hm Hfy].
  rewrite (get_fiscal_year_range_value d m Hm Hfy) in Hr.
  injection Hr as <- <-.
  set (fy := get_fiscal_year d m) in *.
  assert (Hv1 : valid_date (mkdate fy m 1) = true)
    by (apply (first_of_month_valid fy m); lia).
  assert (Hv2 : valid_date (mkdate (fy + 1) m 1) = true)
    by (apply (first_of_month_valid (fy + 1) m); lia).
  pose proof (toordinal_bounds _ Hv1) as Hb1.
  pose proof (toordinal_bounds _ Hv2) as Hb2.
  assert (Hlt : toordinal (mkdate fy m 1) < toordinal (mkdate (fy + 1) m 1)).
  { apply toordinal_lt; trivial. apply date_cmp_Lt.
    cbn [year month day]. lia. }
  destruct (ord2ymd_spec (toordinal (mkdate (fy + 1) m 1) - 1) ltac:(lia))
    as [Hve Hoe].
  apply date_le_spec in Hlo; [|assumption..].
  apply date_le_spec in Hhi; [|assumption..].
  unfold fromordinal in Hhi. rewrite Hoe in Hhi.
  assert (E : get_fiscal_year d' m = fy)
    by (apply in_fiscal_year; trivial; lia).
  split; [exact E|].
  rewrite get_fiscal_year_range_value by (rewrite ?E; lia).
  now rewrite E.
Qed.

Lemma fiscal_year_range_shared_witness :
  get_fiscal_year (mkdate 2024 9 30) 10 = get_fiscal_year (mkdate 2023 10 1) 10
  /\ get_fiscal_year_range (mkdate 2024 9 30) 10
     = Ok (mkdate 2023 10 1, mkdate 2024 9 30).
Proof.
  apply (fiscal_year_range_shared (mkdate 2023 10 1) (mkdate 2024 9 30) 10
           (mkdate 2023 10 1) (mkdate 2024 9 30));
    reflexivity.
Defined.

(** X9.  A fiscal-year range starts on the first day of the start
    month; it has 365 days, or 366 when it contains a 29 February; the
    day after its last day is the first day of the start month of the
    next year, which belongs to the next fiscal year; and the range of
    that day starts on it, unless the next fiscal year is 9999, for
    which no range is returned. *)
Theorem fiscal_year_ranges_adjoin d m start_date end_date :
  get_fiscal_year_range d m = Ok (start_date, end_date) ->
  let fy := get_fiscal_year d m in
  let next_day := mkdate (fy + 1) m 1 in
  start_date = mkdate fy m 1
  /\ date_diff (at_midnight start_date) (at_midnight end_date) + 1
     = 365 + (if is_leap (if m <=? 2 then fy else fy + 1) then 1 else 0)
  /\ date_add_days end_date 1 = Ok next_day
  /\ valid_date next_day = true
  /\ get_fiscal_year next_day m = fy + 1
  /\ (fy + 1 <= 9998 ->
      exists next_end,
        get_fiscal_year_range next_day m = Ok (next_day, next_end)
        /\ date_lt end_date next_end = true)
  /\ (fy + 1 = 9999 ->
      get_fiscal_year_range next_day m = Raise ValueError).
Proof.
  intros Hr fy next_day.
  destruct (get_fiscal_year_range_ok d m _ Hr) as [Hm Hfy].
  rewrite (get_fiscal_year_range_value d m Hm Hfy) in Hr.
  injection Hr as <- <-. fold fy. fold next_day.
  assert (Hv1 : valid_date (mkdate fy m 1) = true)
    by (apply (first_of_month_valid fy m); lia).
  assert (Hv2 : valid_date next_day = true)
    by (apply (first_of_month_valid (fy + 1) m); lia).
  pose proof (toordinal_bounds _ Hv1) as Hb1.
  pose proof (toordinal_bounds _ Hv2) as Hb2.
  assert (Hlt : toordinal (mkdate fy m 1) < toordinal next_day).
  { apply toordinal_lt; trivial. apply date_cmp_Lt.
    cbn [next_day year month day]. lia. }
  destruct (ord2ymd_spec (toordinal next_day - 1) ltac:(lia))
    as [Hve Hoe].
  assert (E : get_fiscal_year next_day m = fy + 1).
  { unfold get_fiscal_year. cbn [next_day year month].
    now rewrite Z.ltb_irrefl. }
  split; [reflexivity|]. split; [|split; [|split; [exact Hv2|split;
    [exact E|split]]]].
  - rewrite date_diff_midnight. unfold fromordinal. rewrite Hoe.
    unfold next_day, toordinal, ymd2ord, days_before_month.
    cbn [year month day].
    rewrite days_before_year_succ.
    destruct (m <=? 2) eqn:E2;
      [apply Z.leb_le in E2 | apply Z.leb_gt in E2].
    + replace (2 <? m) with false by (symmetry; apply Z.ltb_ge; lia).
      cbn [andb]. lia.
    + replace (2 <? m) with true by (symmetry; apply Z.ltb_lt; lia).
      cbn [andb]. lia.
  - unfold date_add_days, fromordinal. rewrite Hoe.
    replace (toordinal next_day - 1 + 1) with (toordinal next_day)
      by lia.
    replace ((0 <? toordinal next_day)
             && (toordinal next_day <=? MAXORDINAL))
      with true
      by (symmetry; apply andb_true_iff; split;
          [apply Z.ltb_lt | apply Z.leb_le]; lia).
    f_equal. now apply fromordinal_toordinal.
  - intros Hnext.
    rewrite get_fiscal_year_range_value by (rewrite ?E; lia).
    rewrite E. eexists. split; [reflexivity|].
    assert (Hv3 : valid_date (mkdate (fy + 1 + 1) m 1) = true)
      by (apply (first_of_month_valid (fy + 1 + 1) m); lia).
    pose proof (toordinal_bounds _ Hv3) as Hb3.
    assert (Hlt3 : toordinal next_day
                   < toordinal (mkdate (fy + 1 + 1) m 1)).
    { apply toordinal_lt; trivial. apply date_cmp_Lt.
      cbn [next_day year month day]. lia. }
    destruct (ord2ymd_spec (toordinal (mkdate (fy + 1 + 1) m 1) - 1)
                ltac:(lia)) as [Hve3 Hoe3].
    apply date_lt_spec; [exact Hve|exact Hve3|].
    unfold fromordinal. rewrite Hoe, Hoe3. lia.
  - intros Hlast. apply get_fiscal_year_range_raise;
      [exact Hv2|lia|rewrite E; lia].
Qed.

Lemma fiscal_year_ranges_adjoin_witness :
  date_diff (at_midnight (mkdate 2023 10 1))
    (at_midnight (mkdate 2024 9 30)) + 1
  = 366
  /\ date_add_days (mkdate 2024 9 30) 1 = Ok (mkdate 2024 10 1)
  /\ get_fiscal_year (mkdate 2024 10 1) 10 = 2024.
Proof.
  destruct (fiscal_year_ranges_adjoin (mkdate 2024 2 29) 10
              (mkdate 2023 10 1) (mkdate 2024 9 30) eq_refl)
    as (_ & Hdays & Hnext & _ & Hfy & _).
  split; [exact Hdays|]. split; [exact Hnext|exact Hfy].
Defined.
End FiscalYearRanges.

Section BusinessDaysWithTimes.
Import PyDatetime DateSpec DateTimeUtils BusinessDateTimeUtils OrdinalSpec.

Lemma time_fields_cmp a b :
  valid_time a = true -> valid_time b = true ->
  tuple_cmp [hour a; minute a; second a; microsecond a]
    [hour b; minute b; second b; microsecond b]
  = (time_of_day a ?= time_of_day b).
Proof.
  unfold valid_time, time_of_day.
  rewrite !andb_true_iff, !in_range_spec.
  intros (((Ha1 & Ha2) & Ha3) & Ha4) (((Hb1 & Hb2) & Hb3) & Hb4).
  cbn [tuple_cmp].
  destruct (Z.compare_spec (hour a) (hour b));
    destruct (Z.compare_spec (minute a) (minute b));
    destruct (Z.compare_spec (second a) (second b));
    destruct (Z.compare_spec (microsecond a) (microsecond b));
    symmetry;
    first [apply Z.compare_eq_iff | apply Z.compare_lt_iff
          | apply Z.compare_gt_iff]; lia.
Qed.

(** The order of two datetimes, by day number and time of day. *)
Lemma datetime_lt_spec a b :
  valid_date (dt_date a) = true -> valid_date (dt_date b) = true ->
  valid_time a = true -> valid_time b = true ->
  datetime_lt a b
  = (toordinal (dt_date a)
     <? toordinal (dt_date b)
        + (if time_of_day a <? time_of_day b then 1 else 0)).
Proof.
  intros Hda Hdb Hta Htb.
  pose proof (toordinal_cmp _ _ Hda Hdb) as Hd.
  pose proof (time_fields_cmp a b Hta Htb) as Ht.
  unfold datetime_lt, datetime_cmp, datetime_fields.
  unfold date_cmp in Hd. unfold date_fields in *. cbn [app] in *.
  assert (E : tuple_cmp
                [year (dt_date a); month (dt_date a); day (dt_date a);
                 hour a; minute a; second a; microsecond a]
                [year (dt_date b); month (dt_date b); day (dt_date b);
                 hour b; minute b; second b; microsecond b]
              = match toordinal (dt_date a) ?= toordinal (dt_date b) with
                | Eq => time_of_day a ?= time_of_day b
                | c => c
                end).
  { rewrite <- Hd, <- Ht. cbn [tuple_cmp].
    destruct (year (dt_date a) ?= year (dt_date b));
      destruct (month (dt_date a) ?= month (dt_date b));
      destruct (day (dt_date a) ?= day (dt_date b)); reflexivity. }
  rewrite E.
  destruct (Z.compare_spec (toordinal (dt_date a)) (toordinal (dt_date b)));
    destruct (Z.compare_spec (time_of_day a) (time_of_day b));
    destruct (time_of_day a <? time_of_day b) eqn:E1;
    rewrite ?Z.ltb_lt, ?Z.ltb_ge in E1;
    symmetry; first [apply Z.ltb_lt | apply Z.ltb_ge]; lia.
Qed.

Lemma is_business_day_number d :
  is_business_day d = weekday_number (toordinal d).
Proof.
  unfold is_business_day, weekday_number, weekday. cbv zeta.
  replace (0 <=? (toordinal d + 6) mod 7) with true
    by (symmetry; apply Z.leb_le; Z.div_mod_to_equations; lia).
  cbn [andb].
  destruct ((toordinal d + 6) mod 7 <=? 4) eqn:E1;
    destruct ((toordinal d + 6) mod 7 <? 5) eqn:E2;
    rewrite ?Z.leb_le, ?Z.leb_gt, ?Z.ltb_lt, ?Z.ltb_ge in *;
    try reflexivity; lia.
Qed.

Lemma count_weekdays_succ lo k :
  count_weekdays lo (S k)
  = ((if weekday_number lo then 1 else 0) + count_weekdays (lo + 1) k)%nat.
Proof.
  unfold count_weekdays. cbn [zrange filter].
  destruct (weekday_number lo); reflexivity.
Qed.

(** The loop of [calculate_business_days] from a day on, at the time
    of day of the start: it runs while the day number stays below
    [reach]. *)
Lemma business_loop_times t0 end_date reach k :
  valid_date (dt_date end_date) = true ->
  valid_time t0 = true -> valid_time end_date = true ->
  reach = toordinal (dt_date end_date)
          + (if time_of_day t0 <? time_of_day end_date then 1 else 0) ->
  forall c acc fuel,
    valid_date c = true ->
    Z.to_nat (reach - toordinal c) = k ->
    (k < fuel)%nat ->
    k = O \/ reach <= MAXORDINAL ->
    exists last,
      while_loop fuel
        (fun st : Z * datetime => Ok (datetime_lt (snd st) end_date))
        (fun st =>
           let business_days :=
             if is_business_day (dt_date (snd st)) then fst st + 1
             else fst st in
           current_date <- datetime_add_days (snd st) 1 ;;
           Ok (business_days, current_date))
        (acc, mkdatetime c (hour t0) (minute t0) (second t0)
                (microsecond t0))
      = Some (Ok (acc + Z.of_nat (count_weekdays (toordinal c) k), last)).
Proof.
  intros He Ht0 Hte Hreach.
  set (cond := fun st : Z * datetime =>
                 Ok (datetime_lt (snd st) end_date)).
  set (body := fun st : Z * datetime =>
                 let business_days :=
                   if is_business_day (dt_date (snd st)) then fst st + 1
                   else fst st in
                 current_date <- datetime_add_days (snd st) 1 ;;
                 Ok (business_days, current_date)).
  set (at_time := fun c => mkdatetime c (hour t0) (minute t0) (second t0)
                             (microsecond t0)).
  assert (Hlt : forall c, valid_date c = true ->
                          datetime_lt (at_time c) end_date
                          = (toordinal c <? reach)).
  { intros c Hc. rewrite datetime_lt_spec; trivial. now rewrite Hreach. }
  induction k as [|k IH]; intros c acc fuel Hc Hk Hf Hmax;
    (destruct fuel as [|fuel]; [lia|]);
    cbn [while_loop]; unfold cond at 1; cbn [snd];
    fold (at_time c); rewrite (Hlt c Hc).
  - replace (toordinal c <? reach) with false
      by (symmetry; apply Z.ltb_ge; lia).
    eexists. unfold count_weekdays. cbn. now rewrite Z.add_0_r.
  - destruct Hmax as [Hmax|Hmax]; [discriminate|].
    replace (toordinal c <? reach) with true
      by (symmetry; apply Z.ltb_lt; lia).
    pose proof (toordinal_bounds c Hc) as Hbc.
    destruct (ord2ymd_spec (toordinal c + 1) ltac:(lia)) as [Hv Ho].
    assert (Hbody : body (acc, at_time c)
                    = Ok (if is_business_day c then acc + 1 else acc,
                          at_time (fromordinal (toordinal c + 1)))).
    { unfold body, datetime_add_days, at_time;
        cbn [snd fst dt_date hour minute second microsecond].
      replace ((0 <? toordinal c + 1)
               && (toordinal c + 1 <=? MAXORDINAL)) with true
        by (symmetry; apply andb_true_iff; split;
            [apply Z.ltb_lt | apply Z.leb_le]; lia).
      reflexivity. }
    rewrite Hbody.
    destruct (IH (fromordinal (toordinal c + 1))
                (if is_business_day c then acc + 1 else acc) fuel Hv
                ltac:(unfold fromordinal; lia) ltac:(lia)
                ltac:(right; exact Hmax)) as [last Hlast].
    unfold at_time in Hlast |- *. rewrite Hlast. exists last.
    unfold fromordinal. rewrite Ho, count_weekdays_succ.
    rewrite is_business_day_number.
    destruct (weekday_number (toordinal c)); do 3 f_equal; lia.
Qed.

(** With the end later on the last representable day, the loop runs
    into the end of the calendar. *)
Lemma business_loop_overflow t0 end_date k :
  dt_date end_date = date_max ->
  valid_time t0 = true -> valid_time end_date = true ->
  time_of_day t0 < time_of_day end_date ->
  forall c acc fuel,
    valid_date c = true ->
    Z.to_nat (MAXORDINAL - toordinal c) = k ->
    (k < fuel)%nat ->
    while_loop fuel
      (fun st : Z * datetime => Ok (datetime_lt (snd st) end_date))
      (fun st =>
         let business_days :=
           if is_business_day (dt_date (snd st)) then fst st + 1
           else fst st in
         current_date <- datetime_add_days (snd st) 1 ;;
         Ok (business_days, current_date))
      (acc, mkdatetime c (hour t0) (minute t0) (second t0)
              (microsecond t0))
    = Some (Raise OverflowError).
Proof.
  intros Hmaxd Ht0 Hte Htod.
  set (cond := fun st : Z * datetime =>
                 Ok (datetime_lt (snd st) end_date)).
  set (body := fun st : Z * datetime =>
                 let business_days :=
                   if is_business_day (dt_date (snd st)) then fst st + 1
                   else fst st in
                 current_date <- datetime_add_days (snd st) 1 ;;
                 Ok (business_days, current_date)).
  set (at_time := fun c => mkdatetime c (hour t0) (minute t0) (second t0)
                             (microsecond t0)).
  assert (He : valid_date (dt_date end_date) = true)
    by (rewrite Hmaxd; reflexivity).
  assert (Hlt : forall c, valid_date c = true ->
                          datetime_lt (at_time c) end_date = true).
  { intros c Hc. rewrite datetime_lt_spec; trivial.
    cbn [dt_date at_time]. rewrite Hmaxd.
    change (time_of_day (at_time c)) with (time_of_day t0).
    apply Z.ltb_lt in Htod. rewrite Htod.
    pose proof (toordinal_bounds c Hc).
    change (toordinal date_max) with MAXORDINAL.
    apply Z.ltb_lt. lia. }
  induction k as [|k IH]; intros c acc fuel Hc Hk Hf;
    (destruct fuel as [|fuel]; [lia|]);
    cbn [while_loop]; unfold cond at 1; cbn [snd];
    fold (at_time c); rewrite (Hlt c Hc);
    pose proof (toordinal_bounds c Hc) as Hbc.
  - unfold body, datetime_add_days, at_time;
      cbn [snd fst dt_date hour minute second microsecond].
    replace (toordinal c + 1 <=? MAXORDINAL) with false
      by (symmetry; apply Z.leb_gt; lia).
    now rewrite andb_false_r.
  - destruct (ord2ymd_spec (toordinal c + 1) ltac:(lia)) as [Hv Ho].
    assert (Hbody : body (acc, at_time c)
                    = Ok (if is_business_day c then acc + 1 else acc,
                          at_time (fromordinal (toordinal c + 1)))).
    { unfold body, datetime_add_days, at_time;
        cbn [snd fst dt_date hour minute second microsecond].
      replace ((0 <? toordinal c + 1)
               && (toordinal c + 1 <=? MAXORDINAL)) with true
        by (symmetry; apply andb_true_iff; split;
            [apply Z.ltb_lt | apply Z.leb_le]; lia).
      reflexivity. }
    rewrite Hbody. unfold at_time. apply IH; trivial.
    + unfold fromordinal. lia.
    + lia.
Qed.

(** X10.  On datetimes, [calculate_business_days] steps from the start
    in whole days and stops at the first step that is not before the
    end.  When the end's time of day is not later than the start's, or
    the end date is before the start date, the result is the count
    for the two dates.  When it is later, the end date is counted as
    well; and if that end date is the last representable day, the step
    past it raises [OverflowError]. *)
Theorem calculate_business_days_with_times start_date end_date fuel :
  valid_date (dt_date start_date) = true ->
  valid_date (dt_date end_date) = true ->
  valid_time start_date = true -> valid_time end_date = true ->
  (Z.to_nat (toordinal (dt_date end_date)
             - toordinal (dt_date start_date)) + 1 < fuel)%nat ->
  let later :=
    (time_of_day start_date <? time_of_day end_date)
    && date_le (dt_date start_date) (dt_date end_date) in
  (later = false ->
   calculate_business_days fuel start_date end_date
   = Some (Ok (count_business_days (dt_date start_date)
                 (dt_date end_date))))
  /\ (later = true -> dt_date end_date <> date_max ->
      calculate_business_days fuel start_date end_date
      = Some (Ok (count_business_days (dt_date start_date)
                    (dt_date end_date)
                  + (if is_business_day (dt_date end_date) then 1
                     else 0))))
  /\ (later = true -> dt_date end_date = date_max ->
      calculate_business_days fuel start_date end_date
      = Some (Raise OverflowError)).
Proof.
  intros Hs He Hts Hte Hf later.
  pose proof (toordinal_bounds _ Hs) as Hbs.
  pose proof (toordinal_bounds _ He) as Hbe.
  set (oa := toordinal (dt_date start_date)) in *.
  set (ob := toordinal (dt_date end_date)) in *.
  set (reach := ob + (if time_of_day start_date <? time_of_day end_date
                      then 1 else 0)).
  assert (Hstart : start_date
                   = mkdatetime (dt_date start_date) (hour start_date)
                       (minute start_date) (second start_date)
                       (microsecond start_date))
    by (now destruct start_date).
  assert (Hle : date_le (dt_date start_date) (dt_date end_date) = true
                <-> oa <= ob) by (now apply date_le_spec).
  assert (Hrun : reach <= MAXORDINAL \/ reach <= oa ->
                 calculate_business_days fuel start_date end_date
                 = Some (Ok (Z.of_nat (count_weekdays oa
                                         (Z.to_nat (reach - oa)))))).
  { intros Hok. unfold calculate_business_days.
    rewrite Hstart at 1.
    destruct (business_loop_times start_date end_date reach
                (Z.to_nat (reach - oa)) He Hts Hte eq_refl
                (dt_date start_date) 0 fuel Hs eq_refl)
      as [last Hl].
    - subst reach. destruct (_ <? _); lia.
    - destruct Hok; [now right|left; fold oa in H; lia].
    - cbv zeta in Hl |- *. rewrite Hl. reflexivity. }
  rewrite !count_business_days_numbers by assumption. fold oa ob.
  split; [|split].
  - intros Hlater. rewrite Hrun.
    + do 3 f_equal. subst later reach.
      destruct (time_of_day start_date <? time_of_day end_date);
        [|f_equal; lia].
      cbn [andb] in Hlater.
      assert (ob < oa).
      { destruct (Z_lt_le_dec ob oa) as [H|H]; [exact H|].
        apply Hle in H. congruence. }
      replace (Z.to_nat (ob + 1 - oa)) with O by lia.
      replace (Z.to_nat (ob - oa)) with O by lia. reflexivity.
    + subst later reach.
      destruct (time_of_day start_date <? time_of_day end_date);
        [|left; lia].
      cbn [andb] in Hlater. right.
      destruct (Z_lt_le_dec ob oa) as [H|H]; [lia|].
      apply Hle in H. congruence.
  - intros Hlater Hne. subst later.
    apply andb_true_iff in Hlater. destruct Hlater as [Htod Hdle].
    apply Hle in Hdle.
    assert (Hob : ob < MAXORDINAL).
    { destruct (Z.eq_dec ob MAXORDINAL) as [E|E]; [|lia].
      exfalso. apply Hne. apply toordinal_inj; trivial. }
    rewrite Hrun by (left; subst reach; rewrite Htod; lia).
    do 2 f_equal. subst reach. rewrite Htod.
    replace (Z.to_nat (ob + 1 - oa)) with (Z.to_nat (ob - oa) + 1)%nat
      by lia.
    rewrite count_weekdays_app.
    replace (oa + Z.of_nat (Z.to_nat (ob - oa))) with ob by lia.
    rewrite is_business_day_number. fold ob.
    unfold count_weekdays at 2. cbn [zrange filter].
    destruct (weekday_number ob); cbn [List.length]; lia.
  - intros Hlater Hmaxd. subst later.
    apply andb_true_iff in Hlater. destruct Hlater as [Htod Hdle].
    apply Hle in Hdle. apply Z.ltb_lt in Htod.
    unfold calculate_business_days. rewrite Hstart at 1.
    assert (Hfuel : (Z.to_nat (MAXORDINAL - oa) < fuel)%nat).
    { assert (ob = MAXORDINAL) by (subst ob; now rewrite Hmaxd). lia. }
    pose proof (business_loop_overflow start_date end_date
                  (Z.to_nat (MAXORDINAL - oa)) Hmaxd Hts Hte Htod
                  (dt_date start_date) 0 fuel Hs eq_refl Hfuel) as Hl.
    cbv zeta in Hl |- *. rewrite Hl. reflexivity.
Qed.

Lemma calculate_business_days_with_times_witness :
  calculate_business_days 20
    (mkdatetime (mkdate 2026 5 1) 0 0 0 0)
    (mkdatetime (mkdate 2026 5 15) 12 0 0 0)
  = Some (Ok 11).
Proof.
  apply (proj1 (proj2 (calculate_business_days_with_times
                         (mkdatetime (mkdate 2026 5 1) 0 0 0 0)
                         (mkdatetime (mkdate 2026 5 15) 12 0 0 0) 20
                         eq_refl eq_refl eq_refl eq_refl
                         ltac:(vm_compute; lia)))).
  - reflexivity.
  - discriminate.
Defined.
End BusinessDaysWithTimes.

(** * Further properties of the report catalog *)

Section PagingEdges.
Import Json ArtifactUtils.

Lemma page_loop_miss pages page_count page_number :
  page_number < page_count ->
  page_loop pages page_count page_number = [].
Proof.
  revert page_count. induction pages as [|page rest IH];
    intros page_count Hlt; [reflexivity|].
  cbn [page_loop].
  replace (page_count =? page_number) with false
    by (symmetry; apply Z.eqb_neq; lia).
  apply IH. lia.
Qed.

(** X11.  Whatever the paginator yields for a page size up to 10, a
    page number below 1 gives the empty JSON list and no error, and
    leaving the page number out gives the same answer as page 1. *)
Theorem list_reports_page_number_edges self page_size pages :
  paginate self page_size = Ok pages ->
  match page_size with Some n => n <= 10 | None => True end ->
  (forall page_number, page_number < 1 ->
     list_reports self page_size (Some page_number) = Ok (lit "[]"))
  /\ list_reports self page_size None
     = list_reports self page_size (Some 1).
Proof.
  intros Hp Hsize. split; [|reflexivity].
  intros page_number Hlt. unfold list_reports, list_reports_collect.
  cbv zeta.
  assert (Hguard : match page_size with
                   | Some n => if 10 <? n then Raise ValueError else Ok tt
                   | None => Ok tt
                   end = Ok tt).
  { destruct page_size as [n|]; [|reflexivity].
    replace (10 <? n) with false by (symmetry; apply Z.ltb_ge; lia).
    reflexivity. }
  rewrite Hguard. cbn [bind]. rewrite Hp. cbn [bind].
  destruct page_number as [|p|p]; try lia;
    rewrite page_loop_miss by lia; reflexivity.
Qed.

Lemma list_reports_page_number_edges_witness :
  list_reports
    (stub_service [[mkreport (lit "a") (lit "A") 1 (lit "first")]])
    (Some 5) (Some 0)
  = Ok (lit "[]").
Proof.
  apply (proj1 (list_reports_page_number_edges
                  (stub_service
                     [[mkreport (lit "a") (lit "A") 1 (lit "first")]])
                  (Some 5)
                  [[mkreport (lit "a") (lit "A") 1 (lit "first")]]
                  eq_refl ltac:(cbn; lia))).
  lia.
Defined.

Lemma firstn_plus {A} (l : list A) a b :
  firstn (a + b) l = firstn a l ++ firstn b (skipn a l).
Proof.
  revert l. induction a as [|a IH]; intros l; [reflexivity|].
  destruct l as [|x l]; [now rewrite !firstn_nil|].
  cbn [Nat.add firstn skipn app]. now rewrite IH.
Qed.

Lemma concat_slices {A} (l : list A) n count :
  concat (map (fun i => firstn n (skipn (i * n) l)) (seq 0 count))
  = firstn (count * n) l.
Proof.
  induction count as [|count IH]; [reflexivity|].
  rewrite seq_S, map_app, concat_app, IH. cbn [map concat Nat.add].
  rewrite app_nil_r.
  replace (S count * n)%nat with (count * n + n)%nat by lia.
  now rewrite firstn_plus.
Qed.

(** What [get_total_report_pages] returns for a served catalog. *)
Lemma get_total_report_pages_value self catalog page_size :
  serves self catalog -> 1 <= page_size <= 15 ->
  get_total_report_pages self (Some page_size)
  = Ok ((Z.of_nat (List.length catalog) + page_size - 1) / page_size).
Proof.
  intros [Hserve _] Hps. unfold get_total_report_pages. cbv zeta.
  replace (15 <? page_size) with false by (symmetry; apply Z.ltb_ge; lia).
  cbn [bind]. rewrite Hserve by lia. cbn [bind].
  rewrite sum_lengths_concat, concat_pages_of by lia.
  unfold truediv.
  replace (page_size =? 0) with false by (symmetry; apply Z.eqb_neq; lia).
  replace (0 <? page_size) with true by (symmetry; apply Z.ltb_lt; lia).
  cbn [bind]. now rewrite ceil_quotient by lia.
Qed.

(** X12.  Walking the pages from 1 to [get_total_report_pages] visits
    every report once and in catalog order: with a page size from 1 to
    10, the pages with these numbers are all non-empty, hold at most
    [page_size] entries each, and put end to end are the whole catalog
    reshaped; every later page is empty. *)
Theorem list_reports_pages_cover_catalog self catalog page_size :
  serves self catalog -> 1 <= page_size <= 10 ->
  exists total pages,
    get_total_report_pages self (Some page_size) = Ok total
    /\ Z.of_nat (List.length pages) = total
    /\ (forall i page,
          nth_error pages i = Some page ->
          list_reports_collect self (Some page_size)
            (Some (Z.of_nat i + 1))
          = Ok page
          /\ page <> []
          /\ Z.of_nat (List.length page) <= page_size)
    /\ concat pages = map listed catalog
    /\ (forall page_number, total < page_number ->
          list_reports_collect self (Some page_size) (Some page_number)
          = Ok []).
Proof.
  intros Hserve Hps.
  set (len := List.length catalog).
  set (n := Z.to_nat page_size).
  set (total := (Z.of_nat len + page_size - 1) / page_size).
  assert (Htotal : 0 <= total
                   /\ (total - 1) * page_size < Z.of_nat len
                      <= total * page_size).
  { subst total. split; Z.div_mod_to_equations; nia. }
  destruct Htotal as [Hnonneg [Hlow Hhigh]].
  exists total,
    (map (fun i => map listed (firstn n (skipn (i * n) catalog)))
       (seq 0 (Z.to_nat total))).
  split; [apply get_total_report_pages_value; trivial; lia|].
  split; [rewrite length_map, length_seq; lia|].
  split; [|split].
  - intros i page Hnth.
    rewrite nth_error_map in Hnth.
    destruct (nth_error (seq 0 (Z.to_nat total)) i) as [j|] eqn:Ej;
      [|discriminate].
    injection Hnth as <-.
    assert (Hi : (i < Z.to_nat total)%nat).
    { assert (Hs : nth_error (seq 0 (Z.to_nat total)) i <> None)
        by (rewrite Ej; discriminate).
      apply nth_error_Some in Hs. now rewrite length_seq in Hs. }
    rewrite nth_error_seq in Ej.
    replace (i <? Z.to_nat total)%nat with true in Ej
      by (symmetry; apply Nat.ltb_lt; exact Hi).
    injection Ej as <-. cbn [Nat.add].
    split; [|split].
    + rewrite (list_reports_collect_page self catalog) by (trivial; lia).
      do 3 f_equal.
      replace (Z.of_nat i + 1 - 1) with (Z.of_nat i) by lia.
      subst n. rewrite Z2Nat.inj_mul by lia. now rewrite Nat2Z.id.
    + assert (Hoff : (i * n < len)%nat) by (subst n; nia).
      intros Hnil. apply (f_equal (@List.length _)) in Hnil.
      rewrite length_map, length_firstn, length_skipn in Hnil.
      cbn [List.length] in Hnil. fold len in Hnil. subst n. lia.
    + rewrite length_map, length_firstn. subst n. lia.
  - transitivity
      (map listed
         (concat (map (fun i => firstn n (skipn (i * n) catalog))
                    (seq 0 (Z.to_nat total))))).
    + now rewrite concat_map, map_map.
    + f_equal. rewrite concat_slices.
      apply firstn_all2. fold len. subst n. nia.
  - intros page_number Hpast.
    rewrite (list_reports_collect_page self catalog) by (trivial; lia).
    rewrite skipn_all2; [now rewrite firstn_nil|].
    fold len. nia.
Qed.

Lemma list_reports_pages_cover_catalog_witness :
  exists total pages,
    get_total_report_pages
      (catalog_service 50
         [mkreport (lit "a") (lit "A") 1 (lit "first");
          mkreport (lit "b") (lit "B") 2 (lit "second");
          mkreport (lit "c") (lit "C") 3 (lit "third")])
      (Some 2)
    = Ok total
    /\ Z.of_nat (List.length pages) = total
    /\ concat pages
       = map listed
           [mkreport (lit "a") (lit "A") 1 (lit "first");
            mkreport (lit "b") (lit "B") 2 (lit "second");
            mkreport (lit "c") (lit "C") 3 (lit "third")].
Proof.
  destruct (list_reports_pages_cover_catalog _ _ 2
              (catalog_service_serves 50
                 [mkreport (lit "a") (lit "A") 1 (lit "first");
                  mkreport (lit "b") (lit "B") 2 (lit "second");
                  mkreport (lit "c") (lit "C") 3 (lit "third")])
              ltac:(lia))
    as (total & pages & Htotal & Hlen & _ & Hcat & _).
  exists total, pages. split; [exact Htotal|]. split; assumption.
Defined.

(** X13.  [get_total_report_pages] has no lower guard and no default
    for a missing page size: once the paginator has yielded its pages,
    a negative page size gives a page count that is zero or negative
    (the ceiling of a quotient that is not positive) and [None] raises
    [TypeError] at the division. *)
Theorem get_total_report_pages_below_range self :
  (forall page_size pages,
      page_size < 0 -> paginate self (Some page_size) = Ok pages ->
      exists total,
        get_total_report_pages self (Some page_size) = Ok total
        /\ total <= 0
        /\ total = - (sum_lengths pages / - page_size))
  /\ (forall pages,
         paginate self None = Ok pages ->
         get_total_report_pages self None = Raise TypeError).
Proof.
  split.
  - intros page_size pages Hneg Hp.
    unfold get_total_report_pages. cbv zeta.
    replace (15 <? page_size) with false
      by (symmetry; apply Z.ltb_ge; lia).
    cbn [bind]. rewrite Hp. cbn [bind]. unfold truediv.
    replace (page_size =? 0) with false
      by (symmetry; apply Z.eqb_neq; lia).
    replace (0 <? page_size) with false
      by (symmetry; apply Z.ltb_ge; lia).
    cbn [bind]. eexists. split; [reflexivity|].
    assert (Hsum : 0 <= sum_lengths pages)
      by (rewrite sum_lengths_concat; lia).
    unfold ceil, Qceiling, Qfloor, Qopp; cbn [Qnum Qden].
    rewrite Z.opp_involutive, Z2Pos.id by lia.
    split; [|reflexivity].
    Z.div_mod_to_equations. nia.
  - intros pages Hp. unfold get_total_report_pages. cbv zeta.
    cbn [bind]. rewrite Hp. reflexivity.
Qed.

Lemma get_total_report_pages_below_range_witness :
  get_total_report_pages
    (stub_service
       [[mkreport (lit "a") (lit "A") 1 (lit "first");
         mkreport (lit "b") (lit "B") 2 (lit "second");
         mkreport (lit "c") (lit "C") 3 (lit "third")]])
    None
  = Raise TypeError.
Proof.
  apply (proj2 (get_total_report_pages_below_range
                  (stub_service
                     [[mkreport (lit "a") (lit "A") 1 (lit "first");
                       mkreport (lit "b") (lit "B") 2 (lit "second");
                       mkreport (lit "c") (lit "C") 3 (lit "third")]]))
           [[mkreport (lit "a") (lit "A") 1 (lit "first");
             mkreport (lit "b") (lit "B") 2 (lit "second");
             mkreport (lit "c") (lit "C") 3 (lit "third")]]).
  reflexivity.
Defined.
End PagingEdges.

Section SearchOrderAndEdges.
Import Json ArtifactUtils SearchSpec SearchScore.

Lemma filter_insert_desc k x l :
  filter (count_is k) (insert_desc x l) = filter (count_is k) (x :: l).
Proof.
  induction l as [|y l IH]; [reflexivity|]. cbn [insert_desc].
  destruct (match_count x <? match_count y) eqn:E; [|reflexivity].
  apply Z.ltb_lt in E. cbn [filter] in *. rewrite IH.
  unfold count_is.
  destruct (match_count x =? k) eqn:Ex;
    destruct (match_count y =? k) eqn:Ey;
    rewrite ?Z.eqb_eq, ?Z.eqb_neq in *; try reflexivity; lia.
Qed.

Lemma filter_sort_desc k l :
  filter (count_is k) (sort_desc l) = filter (count_is k) l.
Proof.
  induction l as [|x l IH]; [reflexivity|].
  cbn [sort_desc fold_right]. fold (sort_desc l).
  rewrite filter_insert_desc. cbn [filter]. now rewrite IH.
Qed.

Lemma matching_of_score words r :
  matching_of words r
  = if 0 <? score words r
    then Some (mkmatching (id r) (name r) (description r) (version r)
                 (score words r))
    else None.
Proof. reflexivity. Qed.

Lemma filter_collect_matching words k l :
  0 < k ->
  map report_of (filter (count_is k) (collect_matching words l))
  = filter (fun r => score words r =? k) l.
Proof.
  intros Hk. induction l as [|r l IH]; [reflexivity|].
  cbn [collect_matching filter]. rewrite matching_of_score.
  destruct (0 <? score words r) eqn:E.
  - cbn [filter]. unfold count_is at 1. cbn [match_count].
    destruct (score words r =? k); cbn [map]; rewrite IH;
      [now destruct r|reflexivity].
  - apply Z.ltb_ge in E.
    replace (score words r =? k) with false
      by (symmetry; apply Z.eqb_neq; lia).
    exact IH.
Qed.

Lemma search_reports_collect_none set_order self pages search_keywords :
  paginate self None = Ok pages ->
  search_reports_collect set_order self search_keywords None
  = Ok (sort_desc
          (collect_matching (set_order (split (lower search_keywords)))
             (concat pages))).
Proof.
  intros Hp. unfold search_reports_collect. cbv zeta. cbn [bind].
  rewrite Hp. reflexivity.
Qed.

(** X14.  Ties keep the catalog order: for every count [k >= 1], the
    entries of the search result with [match_count = k] are the
    catalog's reports with that number of matches, in the order of
    the catalog. *)
Theorem search_reports_ties_in_catalog_order
    set_order self pages search_keywords :
  paginate self None = Ok pages ->
  exists matching,
    search_reports_collect set_order self search_keywords None
    = Ok matching
    /\ forall k, 0 < k ->
         map report_of (filter (count_is k) matching)
         = filter
             (fun r =>
                score (set_order (split (lower search_keywords))) r =? k)
             (concat pages).
Proof.
  intros Hp.
  exists (sort_desc
            (collect_matching (set_order (split (lower search_keywords)))
               (concat pages))).
  split.
  - exact (search_reports_collect_none _ _ _ _ Hp).
  - intros k Hk. rewrite filter_sort_desc.
    now apply filter_collect_matching.
Qed.

Lemma search_reports_ties_in_catalog_order_witness :
  exists matching,
    search_reports_collect (nodup str_eq_dec)
      (stub_service
         [[mkreport (lit "r-1") (lit "SOC 1") 1 [];
           mkreport (lit "r-2") (lit "SOC 2 and SOC 3") 1 [];
           mkreport (lit "r-3") (lit "SOC 3") 1 []]])
      (lit "soc") None
    = Ok matching
    /\ map report_of (filter (count_is 1) matching)
       = [mkreport (lit "r-1") (lit "SOC 1") 1 [];
          mkreport (lit "r-3") (lit "SOC 3") 1 []].
Proof.
  destruct (search_reports_ties_in_catalog_order (nodup str_eq_dec)
              (stub_service
                 [[mkreport (lit "r-1") (lit "SOC 1") 1 [];
                   mkreport (lit "r-2") (lit "SOC 2 and SOC 3") 1 [];
                   mkreport (lit "r-3") (lit "SOC 3") 1 []]])
              _ (lit "soc") eq_refl) as (matching & Hret & Hties).
  exists matching. split; [exact Hret|].
  rewrite (Hties 1) by lia. vm_compute. reflexivity.
Defined.

Lemma firstn_sorted m (l : list matching_report) :
  StronglySorted ranked l -> StronglySorted ranked (firstn m l).
Proof.
  intros Hs. revert m. induction Hs as [|x l Hs IH Hx]; intros m.
  - rewrite firstn_nil. constructor.
  - destruct m as [|m]; cbn [firstn]; constructor; [apply IH|].
    rewrite Forall_forall in *. intros y Hy. apply Hx.
    rewrite <- (firstn_skipn m l). apply in_or_app. now left.
Qed.

Lemma collect_matching_in words l e :
  In e (collect_matching words l) ->
  In (report_of e) l
  /\ 1 <= match_count e
  /\ match_count e = score words (report_of e).
Proof.
  induction l as [|r l IH]; [contradiction|]. cbn [collect_matching].
  rewrite matching_of_score.
  destruct (0 <? score words r) eqn:E.
  - intros [<-|Hin].
    + apply Z.ltb_lt in E. cbn [match_count]. split; [|split].
      * left. now destruct r.
      * lia.
      * f_equal. now destruct r.
    + destruct (IH Hin) as (H1 & H2 & H3). split; [now right|].
      split; assumption.
  - intros Hin. destruct (IH Hin) as (H1 & H2 & H3).
    split; [now right|]. split; assumption.
Qed.

(** X15.  For every [max_results] up to 10, the negative ones
    included, what is returned is a first part of what the search
    returns without [max_results]: the first [max_results] entries, or
    all but the last [-max_results] when [max_results] is negative.
    Every entry is a report of the catalog with its fields unchanged
    and a [match_count] of at least 1, and the entries returned are in
    non-increasing order of [match_count]. *)
Theorem search_reports_returns_first_part
    set_order self pages search_keywords max_results :
  paginate self None = Ok pages -> max_results <= 10 ->
  exists full part rest,
    search_reports_collect set_order self search_keywords None = Ok full
    /\ search_reports_collect set_order self search_keywords
         (Some max_results)
       = Ok part
    /\ full = part ++ rest
    /\ (0 <= max_results ->
        List.length part
        = Nat.min (Z.to_nat max_results) (List.length full))
    /\ (max_results < 0 ->
        List.length rest
        = Nat.min (Z.to_nat (- max_results)) (List.length full))
    /\ Forall
         (fun e =>
            In (report_of e) (concat pages)
            /\ 1 <= match_count e
            /\ match_count e
               = score (set_order (split (lower search_keywords)))
                   (report_of e))
         full
    /\ StronglySorted ranked part.
Proof.
  intros Hp Hmax.
  set (words := set_order (split (lower search_keywords))).
  set (full := sort_desc (collect_matching words (concat pages))).
  set (m := if 0 <=? max_results then Z.to_nat max_results
            else Z.to_nat (Z.of_nat (List.length full) + max_results)).
  exists full, (firstn m full), (skipn m full).
  split; [exact (search_reports_collect_none _ _ _ _ Hp)|].
  split.
  { unfold search_reports_collect. cbv zeta.
    replace (10 <? max_results) with false
      by (symmetry; apply Z.ltb_ge; lia).
    cbn [bind]. rewrite Hp. cbn [bind]. fold words full.
    unfold slice_to, m. now destruct (0 <=? max_results). }
  split; [symmetry; apply firstn_skipn|].
  split; [|split; [|split]].
  - intros Hn. rewrite length_firstn. unfold m.
    apply Z.leb_le in Hn. now rewrite Hn.
  - intros Hn. rewrite length_skipn. unfold m.
    replace (0 <=? max_results) with false
      by (symmetry; apply Z.leb_gt; lia).
    lia.
  - apply Forall_forall. intros e Hin.
    apply (collect_matching_in words (concat pages)).
    eapply Permutation_in; [apply sort_desc_perm|exact Hin].
  - apply firstn_sorted, sort_desc_sorted.
Qed.

Lemma search_reports_returns_first_part_witness :
  exists full part rest,
    search_reports_collect (nodup str_eq_dec)
      (stub_service
         [[mkreport (lit "r-1") (lit "SOC 1") 1 [];
           mkreport (lit "r-2") (lit "SOC 2 and SOC 3") 1 [];
           mkreport (lit "r-3") (lit "SOC 3") 1 []]])
      (lit "soc") None
    = Ok full
    /\ search_reports_collect (nodup str_eq_dec)
         (stub_service
            [[mkreport (lit "r-1") (lit "SOC 1") 1 [];
              mkreport (lit "r-2") (lit "SOC 2 and SOC 3") 1 [];
              mkreport (lit "r-3") (lit "SOC 3") 1 []]])
         (lit "soc") (Some (-2))
       = Ok part
    /\ full = part ++ rest
    /\ List.length rest = Nat.min 2 (List.length full).
Proof.
  destruct (search_reports_returns_first_part (nodup str_eq_dec)
              (stub_service
                 [[mkreport (lit "r-1") (lit "SOC 1") 1 [];
                   mkreport (lit "r-2") (lit "SOC 2 and SOC 3") 1 [];
                   mkreport (lit "r-3") (lit "SOC 3") 1 []]])
              _ (lit "soc") (-2) eq_refl ltac:(lia))
    as (full & part & rest & Hfull & Hpart & Happ & _ & Hneg & _).
  exists full, part, rest. split; [exact Hfull|]. split; [exact Hpart|].
  split; [exact Happ|]. apply Hneg. lia.
Defined.

Lemma findall_boundaries_positive t :
  forall before,
    (0 < findall_boundaries before t)%nat <->
    is_word before = true \/ has_word_char t = true.
Proof.
  induction t as [|c t IH]; intros before; cbn [findall_boundaries].
  - unfold boundary, has_word_char. cbn [hd_error is_word existsb].
    rewrite xorb_false_r.
    destruct (is_word before); split; intros H.
    + now left.
    + lia.
    + lia.
    + destruct H; discriminate.
  - specialize (IH (Some c)). cbn [is_word] in IH.
    unfold boundary. cbn [hd_error is_word].
    change (has_word_char (c :: t))
      with (is_word_char c || has_word_char t).
    destruct (is_word before) eqn:Eb; destruct (is_word_char c) eqn:Ec;
      cbn [xorb orb]; split; intros H.
    + now left.
    + assert (0 < findall_boundaries (Some c) t)%nat
        by (apply IH; now left).
      lia.
    + now left.
    + lia.
    + now right.
    + lia.
    + right. cbn [Nat.add] in H. apply IH in H.
      destruct H as [H|H]; [discriminate|exact H].
    + destruct H as [H|H]; [discriminate|].
      assert (0 < findall_boundaries (Some c) t)%nat
        by (apply IH; now right).
      lia.
Qed.

Lemma lower_char_word c : is_word_char (lower_char c) = is_word_char c.
Proof. destruct c as [[] [] [] [] [] [] [] []]; reflexivity. Qed.

Lemma lower_char_space c : is_space (lower_char c) = is_space c.
Proof. destruct c as [[] [] [] [] [] [] [] []]; reflexivity. Qed.

Lemma has_word_char_lower t : has_word_char (lower t) = has_word_char t.
Proof.
  unfold has_word_char, lower. induction t as [|c t IH]; [reflexivity|].
  cbn [map existsb]. now rewrite lower_char_word, IH.
Qed.

Lemma split_blank s :
  forallb is_space s = true -> split (lower s) = [].
Proof.
  unfold split, lower. induction s as [|c s IH]; [reflexivity|].
  cbn [forallb map split_from]. intros H.
  apply andb_true_iff in H. destruct H as [Hc Hs].
  rewrite lower_char_space, Hc. now apply IH.
Qed.

(** X16.  A search string without any word (empty or all white space)
    does not return the empty list: the pattern then matches at every
    word boundary, so the search returns exactly the reports whose
    name or description holds a letter, a digit or an underscore. *)
Theorem search_reports_blank_keywords
    set_order self pages search_keywords :
  iterates_set set_order ->
  paginate self None = Ok pages ->
  forallb is_space search_keywords = true ->
  exists matching,
    search_reports_collect set_order self search_keywords None
    = Ok matching
    /\ Permutation (map report_of matching)
         (filter
            (fun r =>
               has_word_char (name r) || has_word_char (description r))
            (concat pages)).
Proof.
  intros Horder Hp Hblank.
  exists (sort_desc
            (collect_matching (set_order (split (lower search_keywords)))
               (concat pages))).
  split; [exact (search_reports_collect_none _ _ _ _ Hp)|].
  rewrite (split_blank _ Hblank).
  assert (Hwords : set_order [] = []).
  { apply Permutation_nil. symmetry. apply (Horder []). }
  rewrite Hwords.
  rewrite (Permutation_map report_of (sort_desc_perm _)).
  rewrite collect_matching_reports.
  erewrite filter_ext; [reflexivity|].
  intros r. rewrite matching_of_score. unfold score, count_matches.
  pose proof (findall_boundaries_positive (lower (name r)) None) as Hn.
  pose proof (findall_boundaries_positive (lower (description r)) None)
    as Hd.
  rewrite !has_word_char_lower in Hn, Hd. cbn [is_word] in Hn, Hd.
  destruct (has_word_char (name r)); destruct (has_word_char (description r));
    cbn [orb];
    destruct (0 <? _) eqn:E; try reflexivity;
    rewrite ?Z.ltb_lt, ?Z.ltb_ge in E; exfalso.
  - assert (0 < findall_boundaries None (lower (name r)))%nat
      by (apply Hn; now right). lia.
  - assert (0 < findall_boundaries None (lower (name r)))%nat
      by (apply Hn; now right). lia.
  - assert (0 < findall_boundaries None (lower (description r)))%nat
      by (apply Hd; now right). lia.
  - assert (Hpos : (0 < findall_boundaries None (lower (name r)))%nat
                   \/ (0 < findall_boundaries None
                             (lower (description r)))%nat) by lia.
    destruct Hpos as [H|H]; [apply Hn in H|apply Hd in H];
      destruct H; discriminate.
Qed.

Lemma search_reports_blank_keywords_witness :
  exists matching,
    search_reports_collect (nodup str_eq_dec)
      (stub_service
         [[mkreport (lit "r-1") (lit "SOC 1") 1 [];
           mkreport (lit "r-2") (lit "--") 1 (lit "...");
           mkreport (lit "r-3") [] 1 (lit "x")]])
      (lit "  ") None
    = Ok matching
    /\ Permutation (map report_of matching)
         [mkreport (lit "r-1") (lit "SOC 1") 1 [];
          mkreport (lit "r-3") [] 1 (lit "x")].
Proof.
  apply (search_reports_blank_keywords (nodup str_eq_dec)
           (stub_service
              [[mkreport (lit "r-1") (lit "SOC 1") 1 [];
                mkreport (lit "r-2") (lit "--") 1 (lit "...");
                mkreport (lit "r-3") [] 1 (lit "x")]])
           _ (lit "  ") iterates_set_nodup eq_refl eq_refl).
Defined.
End SearchOrderAndEdges.

(** * Escaping and unescaping of query parameters *)

Section UrlQuoteFacts.
Import UrlQuote Middleware.

Ltac every_char c := destruct c as [[] [] [] [] [] [] [] []].

Lemma quote_cons c s :
  quote (c :: s) = flat_map quote_byte (utf8_encode c) ++ quote s.
Proof. unfold quote. cbn [flat_map]. now rewrite flat_map_app. Qed.

Lemma percent_decode_quoted c rest :
  percent_decode (flat_map quote_byte (utf8_encode c) ++ rest)
  = map Byte (utf8_encode c) ++ percent_decode rest.
Proof. every_char c; reflexivity. Qed.

Lemma decode_encoded c ts :
  decode_tokens (map Byte (utf8_encode c) ++ ts)
  = option_map (cons c) (decode_tokens ts).
Proof. every_char c; reflexivity. Qed.

Lemma quoted_char_shape c :
  (if safe c
   then str_eqb (flat_map quote_byte (utf8_encode c)) [c]
   else Nat.leb 3 (List.length (flat_map quote_byte (utf8_encode c))))
  && forallb escaped_char (flat_map quote_byte (utf8_encode c))
  = true.
Proof. every_char c; reflexivity. Qed.

Lemma str_eqb_eq a b : str_eqb a b = true <-> a = b.
Proof.
  unfold str_eqb. destruct (str_eq_dec a b); split;
    intros; try assumption; try reflexivity; try discriminate;
    contradiction.
Qed.

Lemma quoted_safe c :
  safe c = true -> flat_map quote_byte (utf8_encode c) = [c].
Proof.
  intros Hs. pose proof (quoted_char_shape c) as H. rewrite Hs in H.
  apply andb_true_iff in H. now apply str_eqb_eq.
Qed.

Lemma quoted_unsafe c :
  safe c = false ->
  (3 <= List.length (flat_map quote_byte (utf8_encode c)))%nat.
Proof.
  intros Hs. pose proof (quoted_char_shape c) as H. rewrite Hs in H.
  apply andb_true_iff in H. now apply Nat.leb_le.
Qed.

Lemma quoted_escaped c :
  forallb escaped_char (flat_map quote_byte (utf8_encode c)) = true.
Proof.
  pose proof (quoted_char_shape c) as H.
  now apply andb_true_iff in H.
Qed.

Lemma unquote_quote s : unquote (quote s) = Some s.
Proof.
  unfold unquote. induction s as [|c s IH]; [reflexivity|].
  rewrite quote_cons, percent_decode_quoted, decode_encoded, IH.
  reflexivity.
Qed.

Lemma quote_escaped s : forallb escaped_char (quote s) = true.
Proof.
  induction s as [|c s IH]; [reflexivity|].
  rewrite quote_cons, forallb_app, quoted_escaped, IH. reflexivity.
Qed.

Lemma quote_length s :
  (List.length s <= List.length (quote s))%nat
  /\ (List.length (quote s) = List.length s -> forallb safe s = true).
Proof.
  induction s as [|c s [IH1 IH2]]; [split; [cbn; lia|reflexivity]|].
  rewrite quote_cons, length_app. cbn [List.length forallb].
  destruct (safe c) eqn:Hs.
  - rewrite (quoted_safe c Hs). cbn [List.length]. split; [lia|].
    intros E. apply IH2. lia.
  - pose proof (quoted_unsafe c Hs). split; [lia|]. intros E. lia.
Qed.

Lemma quote_safe s : forallb safe s = true -> quote s = s.
Proof.
  induction s as [|c s IH]; [reflexivity|]. cbn [forallb].
  intros H. apply andb_true_iff in H. destruct H as [Hc Hs].
  rewrite quote_cons, (quoted_safe c Hc), IH by assumption. reflexivity.
Qed.

(** X17.  Unescaping undoes escaping: [unquote (quote s)] is [s] for
    every string, so a handler that unescapes a parameter value reads
    what the caller sent. *)
Theorem unquote_undoes_quote s : unquote (quote s) = Some s.
Proof. apply unquote_quote. Qed.

(** X18.  An escaped text holds only letters, digits, [_.-~/] and
    [%]; escaping never shortens a text, and it leaves a text as it is
    exactly when the text holds only the characters that need no
    escape. *)
Theorem quote_alphabet_and_fixed_points s :
  forallb escaped_char (quote s) = true
  /\ (List.length s <= List.length (quote s))%nat
  /\ (quote s = s <-> forallb safe s = true).
Proof.
  split; [apply quote_escaped|]. split; [apply quote_length|].
  split.
  - intros E. apply quote_length. now rewrite E.
  - apply quote_safe.
Qed.
End UrlQuoteFacts.
